(* ===== verification/_CoqProject ===== *)
-Q . S2P
Prelude.v
PyStr.v
Sql.v
Staging.v
Classifier.v
Analysis.v
Store.v
Dataset.v
Validation.v
Pipeline.v
