(* ===== verification/Prelude.v ===== *)
(** * A verification development of the ETL project (nes0903/ETLproject)

    The repository has two Python scripts, each run top to bottom when it
    is loaded:

    - [src/코드/local_to_ec2_etl.py], the ingestion pipeline.  It opens two
      MySQL connections: a local staging database [kopo] and a remote
      analytical database [kopo2].  It creates the history table.  It
      downloads three spreadsheets, infers a column type per pandas dtype,
      creates and fills one staging table per file.  It builds the
      analytical table [위해상품_위험도_분석] by a LEFT JOIN with two derived
      columns: the hazard flag and the risk grade.  It selects distinct rows
      of that table and labels each with a recall reason (the rule-based
      classifier, lines 236-255), inserting one dataset row per selected
      row.  It finally appends a history row.  Any exception is caught once;
      a failure history row is written on a best-effort basis and the
      exception is re-raised.  Both connections are closed in [finally].
    - [src/코드/data_validation.py], the validation suite.  It connects with
      a bounded retry ([connect_with_retry]), runs five checks (row counts,
      aggregation per product type, duplicate keys, NULL counts, risk-grade
      range) against the analytical table, and appends a history row.

    The two scripts communicate only through the databases: the analytical
    table written by the first is read by the second, and both append to
    the history table [데이터셋_최신화_이력].

    ** Layout of the library

    - [Prelude] (this file): Python's exceptions as an inductive type, the
      result of a Python computation ([res]), the state-and-exception monad
      [PyM] with its notation in [py_scope], the automation ([Create HintDb
      pyetl], the [simpl_py] tactic) and generic lemmas on counting over
      lists.
    - [PyStr]: the Python [str] operations the code uses, on UTF-8 byte
      strings: [in] ([contains]), [str.split(sep)] ([py_split]) and its
      first piece, [str.strip()] ([py_strip]).  Python compares and splits
      code points; on valid UTF-8 a byte-level substring match of a whole
      encoded string coincides with the code-point match, so the byte model
      is exact for the code's inputs (which come from a MySQL utf8 column).
      [py_strip] removes every code point for which Python's [str.isspace]
      holds, in its UTF-8 encoding.
    - [Classifier]: the recall-reason classifier, lines 236-255 of the ETL
      script, with its row inputs as the fetched values
      ([Sql.sql_value]; a NULL column is Python's [None]).  Theorems: the seven outcomes and the exact branch
      conditions that select each (first match wins), the preservative
      branch's extraction of the text before "검출".
    - [Sql]: MySQL values ([sql_value]), three-valued comparison, [IS NULL],
      and [LIKE '%c%'] on a value (numbers are compared through their text).
    - [Analysis]: the analytical table's row ([analysis_row], fields named
      as the SQL aliases), the risk grade and hazard flag CASE expressions,
      the LEFT JOIN with its WHERE filter (ETL lines 136-180).  Theorems:
      the grade is always one of the four valid grades and follows the
      documented priority; the flag is 1 exactly when the code is not NULL;
      every kept product row yields at least one joined row.
    - [Validation]: the five checks of [data_validation.py] (lines 54-167)
      as functions of the analytical table, and [connect_with_retry]
      (lines 41-52) against a script of connection outcomes.  Theorems:
      the range check's invalid count is zero on any table built by
      [Analysis]; duplicate groups are exactly the keys with more than one
      row, with their true count; the retry loop makes at most
      [max_retries] attempts and returns the first success.
    - [Staging]: the loop body of ETL lines 95-131: the dtype map
      ([type_mapping], [dict.get] with its VARCHAR(255) default), the DDL
      text, [CREATE TABLE IF NOT EXISTS] on a [gmap] of typed tables,
      [df.replace] of NA/NaN, and [executemany] as one all-or-nothing
      multi-row INSERT with MySQL strict-mode storage.  Theorems: loading
      keeps every table well typed; 64-bit ints overflow the 32-bit INT;
      a rerun appends the file's stored rows a second time; the map is
      total.
    - [Store]: a MySQL server as a record of the tables the scripts touch
      and a connection with autocommit off as two states, [durable] and
      [work]; statements, [commit], [close] (rollback) and the implicit
      commit of DDL, as functions in [PyM] and as the relation [step].
      Theorem: committed data only grows (the history is append-only).
    - [Dataset]: ETL lines 199-261: SELECT DISTINCT, the [input_data] dict,
      [json.dumps(..., ensure_ascii=False)] and a decoder of what it
      writes, the classifier, the INSERT loop and its commit.  Theorems:
      the [input_data] text decodes to the dict with each key bound to its
      column, the DISTINCT specification, [TypeError] on a DATETIME input
      field, the loop's effect on success and on a failing row.
    - [Pipeline]: the top level of both scripts: a world of two sides
      (committed state and open connection), the cursors' [NameError] when
      unbound, the [try]/[except]/[finally] blocks and the history rows,
      with the library calls' outcomes as inputs, as functions of the
      connection configuration dicts ([LOCAL_DB_CONFIG], [EC2_DB_CONFIG]).
      The ETL's [try] block is [etl_setup] (steps 1-2), the file loop
      [load_file] (step 3) and [etl_tail] (steps 4-7).  Theorems: every run
      ends with both connections closed; a normal return has committed its
      success row, and leaves the local server with exactly the tables
      that loading the three files in order gives ([stage_files] is that
      reference, [etl_success_local_staging]); a failed download keeps the
      earlier files committed; a failure commits what was pending on the
      EC2 connection; a failed connect writes no history; a rerun appends
      the same dataset pairs again ([etl_rerun_duplicates_dataset], from
      [etl_success_ec2], which says what a successful run leaves on the
      EC2 server); the downloaded files never reach the EC2 server
      ([etl_ec2_ignores_files], proved with the relation [ec2_eq] that
      [etl_tail] respects and the file loop leaves unchanged); the
      validation script never returns normally, ending with its [try]
      block's error or with [NameError] for [main], and records success
      whatever its checks report.

    Components interact through [Module Import]s: [Dataset] runs
    [Classifier.recall_reason] and [Store]'s statements; [Store] runs
    [Staging]'s DDL and INSERT and [Analysis]'s SELECT on a server's
    [kopo] tables; [Pipeline] composes [Staging], [Store], [Dataset] and
    [Validation]'s checks and retry loop.

    ** Recursion, fuel and bounds

    [py_split] and the strip loop recurse on the length of the remaining
    string by well-founded recursion (Equations): each step removes a
    non-empty separator or whitespace character.  The retry loop recurses
    structurally on the number of iterations [range] has left, so
    [connect_with_retry_bounded] is a bound, not an assumption.  The only
    fuel is in the JSON decoder [Dataset.parse_members], one unit per
    member, and [json_parse] gives it the length of the text, which is at
    least the number of members ([json_dumps_roundtrip] proves it is
    enough).  Counts are [nat]; SUM results are [Z]; INT is the 32-bit
    range [int32_min, int32_max] and BOOLEAN the 8-bit one.

    ** What the theorems found

    - A preservative result that reads "... 불검출 ..." (not detected),
      with no 검출 before, is cut inside 불검출 and labelled as a detected
      preservative named after the text ending in 불
      ([recall_reason_not_detected_prefix]).
    - A numeric or date inspection item makes the classifier raise
      [TypeError], which aborts the dataset step
      ([recall_reason_item_type_error]).
    - The range check does not count NULL grades
      ([check_data_range_null_uncounted]).
    - [connect_with_retry] with [max_retries = 0] returns [None]
      ([Validation.connect_with_retry_zero], a computation).
    - pandas' int64 is stored in a 32-bit INT: a ten-digit number aborts the
      load ([load_frame_int_overflow]).
    - [json.dumps] raises on a DATETIME input field, which the dtype map
      produces for Excel date columns ([dataset_entry_datetime]).
    - The [except] block's commit makes the rows inserted before a failing
      dataset row durable ([build_dataset_stops],
      [etl_failure_commits_pending]); a failed connection is never
      recorded in the history ([etl_connect_fails]); the validation
      script always ends in an exception ([validation_never_returns]).
    - The analytical table is built from the EC2 server's own [kopo]
      tables, so the files the run downloads never reach it
      ([etl_ec2_ignores_files]).
    - Each file is committed on its own, so a failure leaves the earlier
      files' staging rows committed ([etl_download_failure_keeps_earlier]),
      and every successful rerun appends the dataset pairs again
      ([etl_rerun_duplicates_dataset]) and the staging rows again
      ([load_frame_rerun_duplicates]), as the spec's open question on
      idempotency suspects.

    ** What is not modelled

    Logging (lines 12-31 of the ETL, 7-22 of the validation, and the
    [logger] calls) only writes text to a file and the console and has no
    effect on the databases or on control flow; no property of the code
    depends on it.  The HTTP download and [pd.read_excel] are library
    calls whose outcomes are inputs ([Pipeline.etl_env]); how pandas
    infers a dtype from a spreadsheet is the library's, so frames are
    given with their dtypes.  The MySQL server is
    modelled only through the statements the scripts send: collations
    (case- and accent-insensitive comparison, trailing spaces), FLOAT's
    single precision, the [id] AUTO_INCREMENT and timestamp columns and the
    exponent spelling of floats in [json.dumps] are left out.  The JSON
    column stores the text [json.dumps] produced; MySQL's normalisation of
    a JSON value (key order, spacing) is not modelled, so the theorems on
    [input_data] speak of the text the loop sends.  [store_value] raises
    error 1366 for the cell and column pairs a first run never produces
    (e.g. a numeric string into INT, a float into INT, a bool into FLOAT);
    MySQL's strict mode converts some of these, so on a rerun after a
    dtype change the model may reject a load MySQL accepts.  A missing
    date in a [datetime64] column ([NaT]) has no cell: how pandas'
    [replace] and the connector treat it is the library's.  Other
    clients of the servers, and concurrent runs, are not modelled: each
    script owns its connections. *)

From Stdlib Require Export String Ascii List ZArith Lia.
From stdpp Require Export base list strings.

(** ** Python exceptions raised by the scripts *)

Inductive exc :=
| MySQLError (msg : string)     (** [mysql.connector.Error] and subclasses *)
| HTTPError (status : Z) (msg : string)  (** [response.raise_for_status()]; [msg] is its text *)
| TypeError (msg : string)      (** e.g. [json.dumps] on a [datetime] *)
| NameError (name : string)     (** an unbound global name *)
| ValueError (msg : string)     (** e.g. splitting on an empty separator *)
| IndexError (msg : string)     (** indexing a list out of range *)
| AttributeError (msg : string). (** e.g. [None.cursor()] *)

#[export] Instance exc_eq_dec : EqDecision exc.
Proof. solve_decision. Defined.

(** The outcome of a Python computation: a value or a raised exception. *)
Inductive res (A : Type) :=
| Ok (a : A)
| Raise (e : exc).
Arguments Ok {A} a.
Arguments Raise {A} e.

(** Sequencing of pure computations that may raise. *)
Definition res_bind {A B} (r : res A) (k : A -> res B) : res B :=
  match r with
  | Ok a => k a
  | Raise e => Raise e
  end.

(** [[f(x) for x in l]] where [f] may raise: the first exception wins. *)
Fixpoint res_mapM {A B} (f : A -> res B) (l : list A) : res (list B) :=
  match l with
  | [] => Ok []
  | x :: l' => res_bind (f x) (fun y => res_bind (res_mapM f l') (fun ys => Ok (y :: ys)))
  end.

Lemma res_bind_Ok {A B} (r : res A) (k : A -> res B) b :
  res_bind r k = Ok b <-> exists a, r = Ok a /\ k a = Ok b.
Proof. destruct r; simpl; split; [eauto|intros (?&[=->]&?)|done|intros (?&?&?); done]; done. Qed.

Lemma res_mapM_Ok {A B} (f : A -> res B) l ys :
  res_mapM f l = Ok ys <-> Forall2 (fun x y => f x = Ok y) l ys.
Proof.
  revert ys. induction l as [|x l IH]; intros ys; simpl.
  - split; [intros [=<-]; constructor|intros H; inversion H; done].
  - rewrite res_bind_Ok. setoid_rewrite res_bind_Ok. setoid_rewrite IH. split.
    + intros (y&Hy&ys'&Hys&[=<-]). by constructor.
    + intros H. inversion H; subst. eauto 6.
Qed.

(** ** The state-and-exception monad

    A Python statement sequence that changes state ([S]) and may raise.
    State changes made before a [raise] persist: Python has no rollback. *)
Definition PyM (S A : Type) := S -> res A * S.

Definition retM {S A} (a : A) : PyM S A := fun s => (Ok a, s).
Definition raiseM {S A} (e : exc) : PyM S A := fun s => (Raise e, s).
Definition bindM {S A B} (m : PyM S A) (k : A -> PyM S B) : PyM S B :=
  fun s => match m s with
           | (Ok a, s') => k a s'
           | (Raise e, s') => (Raise e, s')
           end.
Definition getM {S} : PyM S S := fun s => (Ok s, s).
Definition putM {S} (s : S) : PyM S unit := fun _ => (Ok tt, s).
Definition modifyM {S} (f : S -> S) : PyM S unit := fun s => (Ok tt, f s).

(** [try: m except e: h e], catching every exception. *)
Definition tryM {S A} (m : PyM S A) (h : exc -> PyM S A) : PyM S A :=
  fun s => match m s with
           | (Ok a, s') => (Ok a, s')
           | (Raise e, s') => h e s'
           end.

(** [try: m finally: f]: [f] runs on both paths; the result of [m] is kept
    unless [f] itself raises. *)
Definition finallyM {S A} (m : PyM S A) (f : PyM S unit) : PyM S A :=
  fun s => match m s with
           | (r, s') => match f s' with
                        | (Ok _, s'') => (r, s'')
                        | (Raise e, s'') => (Raise e, s'')
                        end
           end.

(** A [for] loop over a list whose body may raise. *)
Fixpoint forM {S A} (l : list A) (body : A -> PyM S unit) : PyM S unit :=
  match l with
  | [] => retM tt
  | x :: l' => bindM (body x) (fun _ => forM l' body)
  end.

Declare Scope py_scope.
Delimit Scope py_scope with py.
Notation "x <- m ;; k" := (bindM m (fun x => k))
  (at level 100, m at next level, right associativity) : py_scope.
Notation "m ;;; k" := (bindM m (fun _ => k))
  (at level 100, right associativity) : py_scope.
Notation "x <-! r ;; k" := (res_bind r (fun x => k))
  (at level 100, r at next level, right associativity) : py_scope.

(** ** Automation *)

Create HintDb pyetl discriminated.
Create Rewrite HintDb pyetl_rw.

Section MonadLaws.
Context {S A B C : Type}.

Lemma bindM_retM_l (a : A) (k : A -> PyM S B) s : bindM (retM a) k s = k a s.
Proof. reflexivity. Qed.

Lemma bindM_raiseM_l e (k : A -> PyM S B) s :
  bindM (raiseM e) k s = (Raise e, s).
Proof. reflexivity. Qed.

Lemma bindM_retM_r (m : PyM S A) s : bindM m retM s = m s.
Proof. unfold bindM. by destruct (m s) as [[] ?]. Qed.

Lemma bindM_assoc (m : PyM S A) (f : A -> PyM S B) (g : B -> PyM S C) s :
  bindM (bindM m f) g s = bindM m (fun a => bindM (f a) g) s.
Proof. unfold bindM. by destruct (m s) as [[] ?]. Qed.

Lemma bindM_ok (m : PyM S A) (k : A -> PyM S B) s a s' :
  m s = (Ok a, s') -> bindM m k s = k a s'.
Proof. unfold bindM. by intros ->. Qed.

Lemma bindM_raise (m : PyM S A) (k : A -> PyM S B) s e s' :
  m s = (Raise e, s') -> bindM m k s = (Raise e, s').
Proof. unfold bindM. by intros ->. Qed.

Lemma bindM_Ok_inv (m : PyM S A) (k : A -> PyM S B) s b s' :
  bindM m k s = (Ok b, s') -> exists a s1, m s = (Ok a, s1) /\ k a s1 = (Ok b, s').
Proof. unfold bindM. destruct (m s) as [[a|e] s1]; [eauto|done]. Qed.

Lemma bindM_Raise_inv (m : PyM S A) (k : A -> PyM S B) s e s' :
  bindM m k s = (Raise e, s') ->
  m s = (Raise e, s') \/ exists a s1, m s = (Ok a, s1) /\ k a s1 = (Raise e, s').
Proof. unfold bindM. destruct (m s) as [[a|e'] s1]; [eauto|intros [=-> ->]; auto]. Qed.

Lemma forM_app (l1 l2 : list A) (body : A -> PyM S unit) s :
  forM (l1 ++ l2) body s = bindM (forM l1 body) (fun _ => forM l2 body) s.
Proof.
  revert s. induction l1 as [|x l1 IH]; intros s; [reflexivity|].
  specialize (IH). simpl. unfold bindM in *.
  destruct (body x s) as [[] s']; [apply IH | reflexivity].
Qed.
End MonadLaws.

#[export] Hint Rewrite @bindM_retM_l @bindM_raiseM_l @bindM_retM_r @bindM_assoc : pyetl_rw.

(** Unfold the monad's combinators and compute. *)
Ltac simpl_py :=
  repeat (unfold bindM, retM, raiseM, getM, putM, modifyM, tryM, finallyM in *;
          simpl in *).

(** ** Counting over lists

    SQL's row count under a [WHERE p] and [SUM(CASE WHEN p THEN 1 ELSE 0
    END)] are both [count_if p]. *)
Definition count_if {A} (p : A -> bool) (l : list A) : nat :=
  length (List.filter p l).

Section Counting.
Context {A : Type}.
Implicit Types (p q : A -> bool) (l : list A).

Lemma count_if_app p l1 l2 : count_if p (l1 ++ l2) = count_if p l1 + count_if p l2.
Proof.
  induction l1 as [|x l1 IH]; [done|].
  unfold count_if in *. simpl. destruct (p x); simpl; lia.
Qed.

Lemma count_if_nil p : count_if p [] = 0.
Proof. reflexivity. Qed.

Lemma count_if_cons p x l :
  count_if p (x :: l) = (if p x then 1 else 0) + count_if p l.
Proof. unfold count_if. simpl. by destruct (p x). Qed.

Lemma count_if_le p l : count_if p l <= length l.
Proof.
  induction l as [|x l IH]; [done|].
  unfold count_if in *. simpl. destruct (p x); simpl; lia.
Qed.

Lemma count_if_zero p l : count_if p l = 0 <-> Forall (fun x => p x = false) l.
Proof.
  induction l as [|x l IH]; [unfold count_if; simpl; split; auto|].
  rewrite count_if_cons, Forall_cons, <- IH. destruct (p x); split; intuition lia.
Qed.

Lemma count_if_ext p q l : (forall x, In x l -> p x = q x) -> count_if p l = count_if q l.
Proof.
  induction l as [|x l IH]; intros H; [done|].
  rewrite !count_if_cons, H by (left; done). f_equal. apply IH. intros; apply H; by right.
Qed.

Lemma count_if_mono p q l : (forall x, p x = true -> q x = true) -> count_if p l <= count_if q l.
Proof.
  intros H. induction l as [|x l IH]; [done|].
  rewrite !count_if_cons. specialize (H x). destruct (p x), (q x); intuition (try discriminate; lia).
Qed.
End Counting.

#[export] Hint Rewrite @count_if_nil @count_if_app @count_if_cons : pyetl_rw.
#[export] Hint Resolve count_if_le count_if_mono : pyetl.
