(* ===== verification/PyStr.v ===== *)
(** * Python's [str] operations used by the scripts

    The classifier of [local_to_ec2_etl.py] (lines 236-255) uses three
    operations of Python's [str]: the containment test [sub in s], the split
    [s.split(sep)] followed by [[0]], and [strip()].  They are modelled here
    on [string], read as the UTF-8 encoding of the Python string (see the
    header of [Prelude] for why byte-level matching is exact on UTF-8).

    [py_split] is defined by well-founded recursion with Equations (each
    step consumes the separator, which is not empty); [lstrip] likewise.
    The lemmas give each operation's specification in terms of [++]. *)

From S2P Require Import Prelude.
From Equations Require Import Equations.
Local Open Scope string_scope.

Definition inspect {A : Type} (x : A) : { y : A | x = y } := exist _ x eq_refl.

(** ** Basic facts on [string] *)

(** [s[n:]] *)
Fixpoint str_drop (n : nat) (s : string) : string :=
  match n, s with
  | 0, _ => s
  | S n', String _ s' => str_drop n' s'
  | S _, EmptyString => EmptyString
  end.

(** stdpp makes [String.append] opaque to [simpl]; these are its two
    computation rules, used by [str_simpl]. *)
Lemma str_app_nil_l (s : string) : "" ++ s = s.
Proof. reflexivity. Qed.

Lemma str_app_cons (c : ascii) (s1 s2 : string) : String c s1 ++ s2 = String c (s1 ++ s2).
Proof. reflexivity. Qed.

Ltac str_simpl := rewrite ?str_app_nil_l, ?str_app_cons in *.

Lemma str_length_app (s1 s2 : string) :
  String.length (s1 ++ s2) = String.length s1 + String.length s2.
Proof. induction s1; str_simpl; simpl; lia. Qed.

Lemma str_app_assoc (s1 s2 s3 : string) : (s1 ++ s2) ++ s3 = s1 ++ (s2 ++ s3).
Proof. induction s1; str_simpl; congruence. Qed.

Lemma str_app_nil_r (s : string) : s ++ "" = s.
Proof. induction s; str_simpl; congruence. Qed.

Lemma prefix_spec (p s : string) : String.prefix p s = true <-> exists t, s = p ++ t.
Proof.
  revert s; induction p as [|c p IH]; intros [|d s]; simpl.
  - split; eauto.
  - split; eauto.
  - split; [discriminate | intros [t Ht]; discriminate].
  - destruct (ascii_dec c d) as [->|Hne].
    + rewrite IH. setoid_rewrite str_app_cons. split; intros [t Ht]; exists t; congruence.
    + setoid_rewrite str_app_cons. split; [discriminate | intros [t Ht]; congruence].
Qed.

Lemma prefix_drop (p s : string) :
  String.prefix p s = true -> s = p ++ str_drop (String.length p) s.
Proof.
  intros [t ->]%prefix_spec. induction p as [|c p IH]; str_simpl; simpl; [done|]. by rewrite <- IH.
Qed.

#[export] Hint Rewrite str_length_app str_app_assoc str_app_nil_r : pyetl_rw.

(** ** [sub in s] *)

Fixpoint contains (sub s : string) : bool :=
  String.prefix sub s ||
  match s with
  | EmptyString => false
  | String _ s' => contains sub s'
  end.

Lemma contains_spec (sub s : string) :
  contains sub s = true <-> exists pre post, s = pre ++ sub ++ post.
Proof.
  induction s as [|c s IH].
  - change (contains sub "") with (String.prefix sub "" || false).
    rewrite orb_false_r, prefix_spec. split.
    + intros [t Ht]. by exists "", t.
    + intros [[|d pre] [post Hp]]; str_simpl; [by exists post | discriminate].
  - change (contains sub (String c s)) with (String.prefix sub (String c s) || contains sub s).
    rewrite orb_true_iff, prefix_spec, IH. split.
    + intros [[t Ht]|[pre [post ->]]]; [by exists "", t | by exists (String c pre), post].
    + intros [[|d pre] [post Hp]]; str_simpl; [left; by exists post|].
      right. injection Hp as -> ->. eauto.
Qed.

Lemma contains_app_l (sub s t : string) : contains sub s = true -> contains sub (s ++ t) = true.
Proof.
  rewrite !contains_spec. intros (pre & post & ->).
  exists pre, (post ++ t). by rewrite !str_app_assoc.
Qed.

(** ** [s.split(sep)] *)

(** The first occurrence of [sep] in [s]: the text before it and after it. *)
Fixpoint find_sep (sep s : string) : option (string * string) :=
  if String.prefix sep s then Some ("", str_drop (String.length sep) s)
  else match s with
       | EmptyString => None
       | String c s' => option_map (fun '(b, a) => (String c b, a)) (find_sep sep s')
       end.

Lemma find_sep_eq (sep s : string) :
  find_sep sep s =
    if String.prefix sep s then Some ("", str_drop (String.length sep) s)
    else match s with
         | EmptyString => None
         | String c s' => option_map (fun '(b, a) => (String c b, a)) (find_sep sep s')
         end.
Proof. by destruct s. Qed.

Lemma find_sep_split (sep s b a : string) :
  find_sep sep s = Some (b, a) -> s = b ++ sep ++ a.
Proof.
  revert b a; induction s as [|c s IH]; intros b a; rewrite find_sep_eq;
    destruct (String.prefix sep _) eqn:Hp; intros H.
  - injection H as <- <-. by apply prefix_drop.
  - discriminate.
  - injection H as <- <-. by apply prefix_drop.
  - destruct (find_sep sep s) as [[b' a']|] eqn:E; simpl in H; [|discriminate].
    injection H as <- <-. rewrite str_app_cons. by rewrite <- IH.
Qed.

(** The occurrence found is the first one. *)
Lemma find_sep_first (sep s b a pre post : string) :
  find_sep sep s = Some (b, a) -> s = pre ++ sep ++ post ->
  String.length b <= String.length pre.
Proof.
  revert b a pre; induction s as [|c s IH]; intros b a pre; rewrite find_sep_eq;
    destruct (String.prefix sep _) eqn:Hp; intros H Hs.
  - injection H as <- <-. simpl. lia.
  - discriminate.
  - injection H as <- <-. simpl. lia.
  - destruct (find_sep sep s) as [[b' a']|] eqn:E; simpl in H; [|discriminate].
    injection H as <- <-. destruct pre as [|d pre]; str_simpl.
    + exfalso. assert (String.prefix sep (String c s) = true) as Hc
        by (apply prefix_spec; eauto). congruence.
    + injection Hs as -> Hs. simpl. specialize (IH _ _ _ eq_refl Hs). lia.
Qed.

Lemma find_sep_None (sep s : string) : find_sep sep s = None <-> contains sep s = false.
Proof.
  induction s as [|c s IH]; rewrite find_sep_eq;
    [change (contains sep "") with (String.prefix sep "" || false)
    |change (contains sep (String c s)) with (String.prefix sep (String c s) || contains sep s)];
    destruct (String.prefix sep _); simpl; try (split; congruence).
  rewrite <- IH. destruct (find_sep sep s) as [[]|]; simpl; split; congruence.
Qed.

Lemma find_sep_shorter (c : ascii) (sep s b a : string) :
  find_sep (String c sep) s = Some (b, a) -> String.length a < String.length s.
Proof.
  intros ->%find_sep_split. rewrite !str_length_app. simpl. lia.
Qed.

(** Two decompositions of one string: one prefix extends the other. *)
Lemma str_app_eq_app (x y p q : string) :
  x ++ y = p ++ q ->
  (exists v, p = x ++ v /\ y = v ++ q) \/ (exists v, x = p ++ v /\ q = v ++ y).
Proof.
  revert p. induction x as [|c x IH]; intros p H; str_simpl.
  - left. by exists p.
  - destruct p as [|c' p]; str_simpl.
    + right. exists (String c x). by str_simpl.
    + injection H as -> H. destruct (IH p H) as [(v & -> & ->)|(v & -> & ->)]; eauto.
Qed.

(** Skipping a prefix that holds no occurrence: when the character [d]
    after [pre] does not occur in the separator past its first character,
    no occurrence straddles [pre] and the rest, so the first one lies in
    the rest. *)
Lemma find_sep_app_l (c0 : ascii) (sep' pre t : string) (d : ascii) :
  contains (String c0 sep') pre = false -> contains (String d "") sep' = false ->
  find_sep (String c0 sep') (pre ++ String d t) =
    option_map (fun '(b, a) => (pre ++ b, a)) (find_sep (String c0 sep') (String d t)).
Proof.
  intros Hpre Hd. induction pre as [|c pre IH].
  { rewrite str_app_nil_l. destruct (find_sep _ (String d t)) as [[b a]|]; reflexivity. }
  change (contains (String c0 sep') (String c pre)) with
    (String.prefix (String c0 sep') (String c pre) || contains (String c0 sep') pre) in Hpre.
  apply orb_false_iff in Hpre as [Hp Hpre]. str_simpl. rewrite find_sep_eq.
  destruct (String.prefix (String c0 sep') (String c (pre ++ String d t))) eqn:Hp'.
  - exfalso. apply prefix_spec in Hp' as [u Hu]. rewrite <- str_app_cons in Hu.
    destruct (str_app_eq_app _ _ _ _ Hu) as [(v & Hv & Ht)|(v & Hv & _)].
    + destruct v as [|e v].
      * rewrite str_app_nil_r in Hv. rewrite <- Hv in Hp.
        assert (String.prefix (String c0 sep') (String c0 sep') = true) as Hr
          by (apply prefix_spec; exists ""; by rewrite str_app_nil_r).
        congruence.
      * rewrite str_app_cons in Ht. injection Ht as <- _.
        rewrite str_app_cons in Hv. injection Hv as -> Hv.
        assert (contains (String d "") sep' = true) as Hc
          by (apply contains_spec; exists pre, v; by rewrite Hv).
        congruence.
    + assert (String.prefix (String c0 sep') (String c pre) = true) as Hr
        by (apply prefix_spec; by exists v).
      congruence.
  - rewrite (IH Hpre). destruct (find_sep _ (String d t)) as [[b a]|]; reflexivity.
Qed.

Lemma str_drop_app (s t : string) : str_drop (String.length s) (s ++ t) = t.
Proof. induction s as [|c s IH]; [done|]. exact IH. Qed.

(** A string that starts with the separator has its first occurrence at 0. *)
Lemma find_sep_here (sep a : string) : find_sep sep (sep ++ a) = Some ("", a).
Proof.
  rewrite find_sep_eq.
  assert (String.prefix sep (sep ++ a) = true) as -> by (apply prefix_spec; eauto).
  by rewrite str_drop_app.
Qed.

(** The pieces of [s.split(sep)] for a non-empty separator [String c sep']. *)
Equations? split_go (c : ascii) (sep' : string) (s : string) : list string
  by wf (String.length s) lt :=
  split_go c sep' s with inspect (find_sep (String c sep') s) => {
    | exist _ (Some (b, a)) E := b :: split_go c sep' a;
    | exist _ None _ := [s] }.
Proof. eapply find_sep_shorter; eauto. Qed.

(** [s.split(sep)]: an empty separator raises [ValueError]. *)
Definition py_split (sep s : string) : res (list string) :=
  match sep with
  | EmptyString => Raise (ValueError "empty separator")
  | String c sep' => Ok (split_go c sep' s)
  end.

(** [pieces[0]] *)
Definition py_index0 (l : list string) : res string :=
  match l with
  | [] => Raise (IndexError "list index out of range")
  | x :: _ => Ok x
  end.

(** The first piece: the text before the first occurrence, or all of [s]. *)
Lemma split_go_head (c : ascii) (sep' s : string) :
  exists rest, split_go c sep' s =
    match find_sep (String c sep') s with
    | Some (b, _) => b
    | None => s
    end :: rest.
Proof.
  funelim (split_go c sep' s).
  - rewrite E. eauto.
  - match goal with H : find_sep _ _ = None |- _ => rewrite H end. eauto.
Qed.

(** Splitting on a non-empty separator and joining the pieces with it
    gives back the string: [sep.join(s.split(sep)) == s]. *)
Lemma split_go_join (c : ascii) (sep' s : string) :
  String.concat (String c sep') (split_go c sep' s) = s.
Proof.
  funelim (split_go c sep' s); [|done].
  rewrite (find_sep_split _ _ _ _ E) at 1.
  destruct (split_go_head c sep' a) as [rest Hr]. rewrite Hr in *.
  match goal with IH : String.concat _ _ = a |- _ => rewrite <- IH at 2 end.
  reflexivity.
Qed.

(** ** [str.strip()] *)

(** The UTF-8 encoding of a code point. *)
Definition utf8_encode (cp : N) : string :=
  let b := ascii_of_N in
  if (cp <? 128)%N then String (b cp) ""
  else if (cp <? 2048)%N then
    String (b (N.lor 192 (N.shiftr cp 6))) (String (b (N.lor 128 (N.land cp 63))) "")
  else if (cp <? 65536)%N then
    String (b (N.lor 224 (N.shiftr cp 12)))
      (String (b (N.lor 128 (N.land (N.shiftr cp 6) 63)))
        (String (b (N.lor 128 (N.land cp 63))) ""))
  else
    String (b (N.lor 240 (N.shiftr cp 18)))
      (String (b (N.lor 128 (N.land (N.shiftr cp 12) 63)))
        (String (b (N.lor 128 (N.land (N.shiftr cp 6) 63)))
          (String (b (N.lor 128 (N.land cp 63))) ""))).

(** The code points for which CPython's [str.isspace()] is true: the
    characters [str.strip()] with no argument removes. *)
Definition py_whitespace : list N :=
  [9; 10; 11; 12; 13; 28; 29; 30; 31; 32; 133; 160; 5760]%N ++
  map (fun k => 8192 + N.of_nat k)%N (seq 0 11) ++ [8232; 8233; 8239; 8287; 12288]%N.

Definition ws_encodings : list string := map utf8_encode py_whitespace.

(** Remove one leading encoded character of [encs], if there is one. *)
Fixpoint drop_ws_prefix (encs : list string) (s : string) : option string :=
  match encs with
  | [] => None
  | EmptyString :: encs' => drop_ws_prefix encs' s
  | e :: encs' =>
      if String.prefix e s then Some (str_drop (String.length e) s)
      else drop_ws_prefix encs' s
  end.

Lemma drop_ws_prefix_Some (encs : list string) (s r : string) :
  drop_ws_prefix encs s = Some r -> exists e, In e encs /\ e <> "" /\ s = e ++ r.
Proof.
  induction encs as [|[|c e] encs IH]; simpl; [discriminate| |].
  - intros (e' & ? & ? & ?)%IH. eauto.
  - destruct (String.prefix _ s) eqn:Hp.
    + intros [= <-]. exists (String c e). split; [by left|]. split; [done|].
      by apply prefix_drop.
    + intros (e' & ? & ? & ?)%IH. eauto.
Qed.

Lemma drop_ws_prefix_None (encs : list string) (s : string) :
  drop_ws_prefix encs s = None <->
  forall e, In e encs -> e <> "" -> String.prefix e s = false.
Proof.
  induction encs as [|[|c e] encs IH]; simpl.
  - split; [intros _ e []|done].
  - rewrite IH. split; [intros H e [<-|Hin]; [done|auto] | auto].
  - destruct (String.prefix _ s) eqn:Hp.
    + split; [discriminate|]. intros H. rewrite (H (String c e)) in Hp; [done|by left|done].
    + rewrite IH. split; [intros H e' [<-|Hin]; auto | auto].
Qed.

Lemma drop_ws_prefix_shorter (encs : list string) (s r : string) :
  drop_ws_prefix encs s = Some r -> String.length r < String.length s.
Proof.
  intros (e & _ & He & ->)%drop_ws_prefix_Some. rewrite str_length_app.
  destruct e; [done|]. simpl. lia.
Qed.

(** Strip every leading character of [encs]. *)
Equations? lstrip_with (encs : list string) (s : string) : string
  by wf (String.length s) lt :=
  lstrip_with encs s with inspect (drop_ws_prefix encs s) => {
    | exist _ (Some r) E := lstrip_with encs r;
    | exist _ None _ := s }.
Proof. eapply drop_ws_prefix_shorter; eauto. Qed.

Definition str_rev (s : string) : string :=
  string_of_list_ascii (rev (list_ascii_of_string s)).

(** [s.lstrip()], [s.rstrip()] and [s.strip()]: the right strip is the left
    strip of the reversed string by the reversed encodings. *)
Definition py_lstrip (s : string) : string := lstrip_with ws_encodings s.
Definition py_rstrip (s : string) : string :=
  str_rev (lstrip_with (map str_rev ws_encodings) (str_rev s)).
Definition py_strip (s : string) : string := py_rstrip (py_lstrip s).

(** *** Reversal *)

Lemma list_ascii_of_string_app (s1 s2 : string) :
  list_ascii_of_string (s1 ++ s2) = (list_ascii_of_string s1 ++ list_ascii_of_string s2)%list.
Proof. induction s1; str_simpl; simpl; congruence. Qed.

Lemma string_of_list_ascii_app (l1 l2 : list ascii) :
  string_of_list_ascii (l1 ++ l2)%list = string_of_list_ascii l1 ++ string_of_list_ascii l2.
Proof. induction l1; simpl; str_simpl; congruence. Qed.

Lemma str_rev_app (s1 s2 : string) : str_rev (s1 ++ s2) = str_rev s2 ++ str_rev s1.
Proof.
  unfold str_rev. by rewrite list_ascii_of_string_app, rev_app_distr, string_of_list_ascii_app.
Qed.

Lemma str_rev_involutive (s : string) : str_rev (str_rev s) = s.
Proof.
  unfold str_rev. by rewrite list_ascii_of_string_of_list_ascii, rev_involutive,
    string_of_list_ascii_of_string.
Qed.

Lemma str_rev_empty (s : string) : str_rev s = "" <-> s = "".
Proof.
  split; [|by intros ->]. intros H.
  rewrite <- (str_rev_involutive s), H. done.
Qed.

(** *** Specification of the strip loop *)

(** [pre] consists of characters of [encs] only. *)
Definition ws_text (encs : list string) (pre : string) : Prop :=
  exists ws, Forall (fun e => In e encs) ws /\ pre = fold_right String.append "" ws.

Lemma ws_text_nil (encs : list string) : ws_text encs "".
Proof. by exists []. Qed.

Lemma ws_text_cons (encs : list string) (e pre : string) :
  In e encs -> ws_text encs pre -> ws_text encs (e ++ pre).
Proof. intros He (ws & Hws & ->). exists (e :: ws). split; [by constructor|done]. Qed.

Lemma lstrip_with_spec (encs : list string) (s : string) :
  exists pre, ws_text encs pre /\ s = pre ++ lstrip_with encs s /\
    drop_ws_prefix encs (lstrip_with encs s) = None.
Proof.
  funelim (lstrip_with encs s).
  - match goal with IH : exists pre, _ |- _ => destruct IH as (pre & Hpre & Hr & Hn) end.
    destruct (drop_ws_prefix_Some _ _ _ E) as (e & He & _ & Hs).
    exists (e ++ pre). split; [by apply ws_text_cons|]. split; [|done].
    rewrite Hs, Hr at 1. by rewrite str_app_assoc.
  - exists "". split; [apply ws_text_nil|]. split; [done|]. congruence.
Qed.

Lemma fold_append_app (l1 l2 : list string) :
  fold_right String.append "" (l1 ++ l2)%list =
  fold_right String.append "" l1 ++ fold_right String.append "" l2.
Proof. induction l1; simpl; str_simpl; [done|]. by rewrite IHl1, str_app_assoc. Qed.

Lemma ws_text_rev (encs : list string) (pre : string) :
  ws_text (map str_rev encs) pre -> ws_text encs (str_rev pre).
Proof.
  intros (ws & Hws & ->). exists (rev (map str_rev ws)). split.
  - apply List.Forall_forall. intros x Hx. rewrite <- in_rev in Hx.
    apply in_map_iff in Hx as (y & <- & Hy). rewrite List.Forall_forall in Hws.
    apply Hws, in_map_iff in Hy as (e' & <- & He'). by rewrite str_rev_involutive.
  - clear Hws. induction ws as [|e ws IH]; [done|]. simpl.
    rewrite str_rev_app, IH, fold_append_app. simpl. by rewrite str_app_nil_r.
Qed.

Lemma str_rev_nonempty (e : string) : e <> "" -> str_rev e <> "".
Proof. intros He Hr. apply He, str_rev_empty, Hr. Qed.

(** [s.strip()] removes whitespace text [pre] and [post] around the result,
    which neither starts nor ends with a whitespace character. *)
Lemma py_strip_spec (s : string) :
  exists pre post, ws_text ws_encodings pre /\ ws_text ws_encodings post /\
    s = pre ++ py_strip s ++ post /\
    (forall e, In e ws_encodings -> e <> "" -> String.prefix e (py_strip s) = false) /\
    (forall e t, In e ws_encodings -> e <> "" -> py_strip s <> t ++ e).
Proof.
  unfold py_strip, py_rstrip, py_lstrip.
  destruct (lstrip_with_spec ws_encodings s) as (pre & Hpre & Hs & Hl).
  set (l := lstrip_with ws_encodings s) in *.
  destruct (lstrip_with_spec (map str_rev ws_encodings) (str_rev l)) as (pre' & Hpre' & Hl' & Hr).
  set (r := lstrip_with _ (str_rev l)) in *.
  assert (l = str_rev r ++ str_rev pre') as El
    by (rewrite <- (str_rev_involutive l), Hl'; apply str_rev_app).
  rewrite drop_ws_prefix_None in Hl, Hr.
  exists pre, (str_rev pre'). split; [done|]. split; [by apply ws_text_rev|]. split.
  { rewrite Hs at 1. by rewrite El. }
  split.
  - intros e He Hne. destruct (String.prefix e _) eqn:Hp; [|done].
    apply prefix_spec in Hp as [t Ht]. specialize (Hl e He Hne).
    rewrite El, Ht, str_app_assoc in Hl.
    assert (String.prefix e (e ++ t ++ str_rev pre') = true) by (apply prefix_spec; eauto).
    congruence.
  - intros e t He Hne Ht. specialize (Hr (str_rev e) (in_map _ _ _ He) (str_rev_nonempty _ Hne)).
    apply (f_equal str_rev) in Ht. rewrite str_rev_involutive, str_rev_app in Ht.
    assert (String.prefix (str_rev e) r = true) by (apply prefix_spec; eauto).
    congruence.
Qed.

(** ** Python truthiness of a string and the [x if x else ""] idiom *)
Definition str_truthy (s : string) : bool :=
  match s with EmptyString => false | String _ _ => true end.

(** ** Occurrence as a proposition *)

Definition occurs (w s : string) : Prop := exists pre post, s = pre ++ w ++ post.
Definition occurs_any (ws : list string) (s : string) : Prop := exists w, In w ws /\ occurs w s.

Lemma existsb_contains (ws : list string) (s : string) :
  existsb (fun w => contains w s) ws = true <-> occurs_any ws s.
Proof.
  rewrite existsb_exists. unfold occurs_any, occurs.
  setoid_rewrite contains_spec. done.
Qed.

Lemma existsb_contains_false (ws : list string) (s : string) :
  existsb (fun w => contains w s) ws = false <-> ~ occurs_any ws s.
Proof. rewrite <- existsb_contains. destruct existsb; intuition congruence. Qed.

Lemma str_app_inv (b b' x y : string) :
  b ++ x = b' ++ y -> String.length b = String.length b' -> b = b' /\ x = y.
Proof.
  revert b'; induction b as [|c b IH]; intros [|c' b']; str_simpl; simpl; try done.
  intros [= -> Hxy] [= Hl]. destruct (IH b' Hxy Hl) as [-> ->]. done.
Qed.

(** The first occurrence is unique: [find_sep] finds the decomposition
    whose prefix is minimal. *)
Lemma find_sep_complete (sep s b a : string) :
  s = b ++ sep ++ a ->
  (forall pre post, s = pre ++ sep ++ post -> String.length b <= String.length pre) ->
  find_sep sep s = Some (b, a).
Proof.
  intros Hs Hmin. destruct (find_sep sep s) as [[b' a']|] eqn:E.
  - pose proof (find_sep_split _ _ _ _ E) as Hs'.
    pose proof (find_sep_first _ _ _ _ _ _ E Hs) as H1.
    specialize (Hmin _ _ Hs'). rewrite Hs in Hs'.
    destruct (str_app_inv b b' _ _ Hs') as [-> Hr]; [lia|].
    apply (str_app_inv sep sep) in Hr as [_ ->]; done.
  - apply find_sep_None in E. rewrite <- not_true_iff_false, contains_spec in E.
    exfalso. eauto.
Qed.

Lemma find_sep_occurs (sep s b a : string) :
  find_sep sep s = Some (b, a) -> occurs sep s.
Proof. intros ->%find_sep_split. by exists b, a. Qed.
