(* ===== verification/Sql.v ===== *)
(** * MySQL values, the SQL operators the queries use, and the Python view
    of a fetched value

    A cell of a MySQL table, and the Python object the connector returns
    for it.  The staging tables get their column types from the dtype map of
    [local_to_ec2_etl.py] (lines 98-104): VARCHAR(255), INT, FLOAT, DATETIME
    and BOOLEAN (a TINYINT, so its values are integers).  A FLOAT or
    DATETIME cell is carried as the text MySQL renders for it, which is what
    [LIKE] and a text comparison see; its numeric value matters only for
    Python truthiness, where zero is falsy.

    Join keys are compared through their text rendering ([sql_eq]); this is
    MySQL's comparison for keys whose text and numeric forms agree, which is
    the case for the document numbers the join uses. *)

From S2P Require Import Prelude PyStr.
From Stdlib Require Import DecimalString.
Local Open Scope string_scope.

Inductive sql_value :=
| SNull                        (** SQL NULL, Python [None] *)
| SInt (z : Z)                 (** INT and BOOLEAN, Python [int] *)
| SFloat (txt : string)        (** FLOAT, Python [float] *)
| SText (s : string)           (** VARCHAR and TEXT, Python [str] *)
| SDatetime (txt : string).    (** DATETIME, Python [datetime.datetime] *)

#[export] Instance sql_value_eq_dec : EqDecision sql_value.
Proof. solve_decision. Defined.

(** Decimal text of an integer, as MySQL and Python's [str] print it. *)
Definition z_to_dec (z : Z) : string := NilEmpty.string_of_int (Z.to_int z).

(** [CAST(v AS CHAR)]: NULL has no text. *)
Definition sql_text (v : sql_value) : option string :=
  match v with
  | SNull => None
  | SInt z => Some (z_to_dec z)
  | SFloat t => Some t
  | SText s => Some s
  | SDatetime t => Some t
  end.

(** [v IS NULL] *)
Definition is_null (v : sql_value) : bool :=
  match v with SNull => true | _ => false end.

(** [v LIKE '%pat%'] for a pattern without wildcards in [pat], in
    three-valued logic ([None] is UNKNOWN). *)
Definition like_contains (pat : string) (v : sql_value) : option bool :=
  option_map (contains pat) (sql_text v).

(** [a = b] in three-valued logic, as used in the [ON] clause. *)
Definition sql_eq (a b : sql_value) : option bool :=
  match sql_text a, sql_text b with
  | Some x, Some y => Some (bool_decide (x = y))
  | _, _ => None
  end.

(** A [WHEN] or [ON] condition holds only when it is TRUE. *)
Definition sql_true (b : option bool) : bool :=
  match b with Some true => true | _ => false end.

(** [a AND b] in three-valued logic. *)
Definition sql_and (a b : option bool) : option bool :=
  match a, b with
  | Some false, _ | _, Some false => Some false
  | Some true, Some true => Some true
  | _, _ => None
  end.

Lemma sql_true_and (a b : option bool) : sql_true (sql_and a b) = sql_true a && sql_true b.
Proof. by destruct a as [[]|], b as [[]|]. Qed.

Lemma sql_eq_null_l (b : sql_value) : sql_eq SNull b = None.
Proof. reflexivity. Qed.

Lemma sql_eq_null_r (a : sql_value) : sql_eq a SNull = None.
Proof. by destruct a. Qed.

Lemma like_contains_null (pat : string) : like_contains pat SNull = None.
Proof. reflexivity. Qed.

#[export] Hint Rewrite sql_true_and sql_eq_null_l sql_eq_null_r like_contains_null : pyetl_rw.

(** ** The Python view of a fetched value *)

(** A float text denotes zero when it has no non-zero digit. *)
Definition float_text_is_zero (t : string) : bool :=
  forallb (fun c => bool_decide (c = "0"%char \/ c = "."%char \/ c = "-"%char \/ c = "+"%char))
    (list_ascii_of_string t).

(** [bool(v)] *)
Definition py_truthy (v : sql_value) : bool :=
  match v with
  | SNull => false
  | SInt z => negb (Z.eqb z 0)
  | SFloat t => negb (float_text_is_zero t)
  | SText s => str_truthy s
  | SDatetime _ => true
  end.

(** [v if v else ""] *)
Definition py_or_empty (v : sql_value) : sql_value :=
  if py_truthy v then v else SText "".

(** The name Python gives the type of [v] in its error messages. *)
Definition py_type_name (v : sql_value) : string :=
  match v with
  | SNull => "NoneType"
  | SInt _ => "int"
  | SFloat _ => "float"
  | SText _ => "str"
  | SDatetime _ => "datetime.datetime"
  end.

(** The right operand of [sub in v] must be a [str]; any other value raises
    [TypeError]. *)
Definition py_iter_str (v : sql_value) : res string :=
  match v with
  | SText s => Ok s
  | _ => Raise (TypeError ("argument of type '" ++ py_type_name v ++ "' is not iterable"))
  end.

(** [sub in v] *)
Definition py_in (sub : string) (v : sql_value) : res bool :=
  match py_iter_str v with
  | Ok s => Ok (contains sub s)
  | Raise e => Raise e
  end.

Lemma py_or_empty_truthy (v : sql_value) : py_truthy (py_or_empty v) = py_truthy v.
Proof. unfold py_or_empty. by destruct (py_truthy v) eqn:E. Qed.

Lemma py_or_empty_text (s : string) : py_or_empty (SText s) = SText s.
Proof. unfold py_or_empty. by destruct s. Qed.

Lemma py_or_empty_null : py_or_empty SNull = SText "".
Proof. reflexivity. Qed.

#[export] Hint Rewrite py_or_empty_truthy py_or_empty_text py_or_empty_null : pyetl_rw.

(** ** Tables

    A staging table as the ETL creates it: the column names of the
    DataFrame, in order, and rows of values in the same order. *)
Record table := mk_table { tcols : list string; trows : list (list sql_value) }.

(** The value of column [c] in [row]. *)
Fixpoint lookup_col (cols : list string) (row : list sql_value) (c : string) : sql_value :=
  match cols, row with
  | c' :: cols', v :: row' => if String.eqb c c' then v else lookup_col cols' row' c
  | _, _ => SNull
  end.

Definition get (t : table) (row : list sql_value) (c : string) : sql_value :=
  lookup_col (tcols t) row c.

(** A query naming a column its table lacks fails with MySQL error 1054. *)
Definition has_cols (t : table) (cs : list string) : bool :=
  forallb (fun c => existsb (String.eqb c) (tcols t)) cs.
