(* ===== verification/Staging.v ===== *)
(** * Staging: loading one Excel file into a table of the local [kopo] database

    [local_to_ec2_etl.py], lines 84-133.  For each entry of [EXCEL_FILES]
    the script reads the sheet into a DataFrame, maps every column's
    [str(dtype)] to a MySQL type through the literal dict [type_mapping]
    ([dict.get] with the default ['VARCHAR(255)']), runs
    [CREATE TABLE IF NOT EXISTS], replaces [pd.NA] and [np.nan] by [None],
    and inserts [df.values.tolist()] with one [executemany].

    The staging database is a [gmap] from table name to a typed table.  A
    cell of the DataFrame is the Python object [tolist] yields; the
    connector turns it into an SQL literal and MySQL (strict mode, the
    default of MySQL 8) stores it in the column's type or rejects the whole
    statement.  The types come from the DataFrame itself on the first run;
    on a rerun the table already exists and keeps its first types. *)

From S2P Require Import Prelude PyStr Sql.
From stdpp Require Import gmap.
Local Open Scope string_scope.

Module Staging.

(** ** DataFrames *)

(** A cell of [df.values.tolist()]. *)
Inductive cell :=
| CNone                     (** [None] *)
| CNA                       (** [pd.NA] *)
| CNaN                      (** [np.nan], a missing float *)
| CInt (z : Z)              (** [int], from an [int64] column *)
| CFloat (txt : string)     (** [float]; [txt] is its [repr] *)
| CBool (b : bool)          (** [bool] *)
| CStr (s : string)         (** [str] *)
| CTimestamp (txt : string). (** [pd.Timestamp], as the connector prints it *)

#[export] Instance cell_eq_dec : EqDecision cell.
Proof. solve_decision. Defined.

(** A DataFrame: its columns with [str(dtype)], in order, and its rows. *)
Record frame := mk_frame { fcols : list (string * string); frows : list (list cell) }.

(** ** The dtype map and the DDL, lines 98-117 *)

Inductive sql_type := TVarchar255 | TInt | TFloat | TDatetime | TBoolean.

#[export] Instance sql_type_eq_dec : EqDecision sql_type.
Proof. solve_decision. Defined.

Definition sql_type_name (t : sql_type) : string :=
  match t with
  | TVarchar255 => "VARCHAR(255)" | TInt => "INT" | TFloat => "FLOAT"
  | TDatetime => "DATETIME" | TBoolean => "BOOLEAN"
  end.

(** The dict literal, in source order. *)
Definition type_mapping : list (string * sql_type) :=
  [("object", TVarchar255); ("int64", TInt); ("float64", TFloat);
   ("datetime64[ns]", TDatetime); ("bool", TBoolean)].

(** [d.get(k, default)] on a dict given by its items. *)
Definition dict_get {V} (d : list (string * V)) (k : string) (dflt : V) : V :=
  match List.find (fun kv => String.eqb (fst kv) k) d with
  | Some kv => snd kv
  | None => dflt
  end.

(** [mysql_type = type_mapping.get(str(dtype), 'VARCHAR(255)')] *)
Definition mysql_type (dtype : string) : sql_type := dict_get type_mapping dtype TVarchar255.

(** [f"`{column}` {mysql_type}"] *)
Definition column_def (col : string * string) : string :=
  "`" ++ fst col ++ "` " ++ sql_type_name (mysql_type (snd col)).

Definition nl : string := String (Ascii.ascii_of_nat 10) "".

(** The f-string [create_table_query], lines 111-115, with its layout. *)
Definition create_table_query (name : string) (cols : list (string * string)) : string :=
  nl ++ "        CREATE TABLE IF NOT EXISTS " ++ name ++ " (" ++ nl ++
  "            " ++ String.concat ", " (map column_def cols) ++ nl ++
  "        )" ++ nl ++ "        ".

(** ** The staging database *)

(** A table as MySQL holds it: typed columns and stored rows. *)
Record staged := mk_staged { st_cols : list (string * sql_type); st_rows : list (list sql_value) }.

Abbreviation staging_db := (gmap string staged).

Definition typed_cols (cols : list (string * string)) : list (string * sql_type) :=
  map (fun c => (fst c, mysql_type (snd c))) cols.

(** [local_cursor.execute(create_table_query)].  A DataFrame without
    columns makes [CREATE TABLE t ( )], a syntax error; an existing table
    is left as it is (MySQL only notes warning 1050); a new table cannot
    have two columns of one name.  Column names are compared exactly:
    MySQL's case-insensitive comparison is not modelled. *)
Definition create_table (name : string) (cols : list (string * string)) (db : staging_db)
    : res staging_db :=
  match cols with
  | [] => Raise (MySQLError "1064 (42000): You have an error in your SQL syntax")
  | _ =>
    match db !! name with
    | Some _ => Ok db
    | None =>
      if bool_decide (NoDup (map fst cols))
      then Ok (<[name := mk_staged (typed_cols cols) []]> db)
      else Raise (MySQLError "1060 (42S21): Duplicate column name")
    end
  end.

(** ** Normalisation, lines 121-122 *)

(** [df.replace({pd.NA: None})] then [df.replace({np.nan: None})]. *)
Definition normalize_cell (c : cell) : cell :=
  match c with CNA | CNaN => CNone | _ => c end.

Definition normalize (df : frame) : frame :=
  mk_frame (fcols df) (map (map normalize_cell) (frows df)).

(** ** The insert, lines 124-131

    The number of characters of a UTF-8 string: its bytes that are not
    continuation bytes ([10xxxxxx]).  [VARCHAR(255)] counts characters. *)
Fixpoint char_length (s : string) : nat :=
  match s with
  | EmptyString => 0
  | String a s' => (if Nat.eqb (Ascii.nat_of_ascii a / 64) 2 then 0 else 1) + char_length s'
  end.

Definition int32_min : Z := -2147483648.
Definition int32_max : Z := 2147483647.

Definition in_range (lo hi z : Z) : bool := (lo <=? z)%Z && (z <=? hi)%Z.

(** The connector sends [True]/[False] as [1]/[0]. *)
Definition bool_int (b : bool) : Z := if b then 1 else 0.

(** A strict-mode error on column [col] of row [n] of the statement. *)
Definition err_at (what col : string) (n : nat) : exc :=
  MySQLError (what ++ " for column '" ++ col ++ "' at row " ++ z_to_dec (Z.of_nat n)).

(** The value MySQL stores for cell [c] in column [col] of type [ty], row
    [n] of the statement, or the error that aborts the statement.  [INT] is
    32 bits and [BOOLEAN] is [TINYINT(1)], 8 bits.  The combinations that
    end in error 1366 do not arise on a first run, where the column type
    comes from the cell's own dtype. *)
Definition store_value (col : string) (ty : sql_type) (n : nat) (c : cell) : res sql_value :=
  let text s := if Nat.leb (char_length s) 255 then Ok (SText s)
                else Raise (err_at "1406 (22001): Data too long" col n) in
  let int_in lo hi z := if in_range lo hi z then Ok (SInt z)
                        else Raise (err_at "1264 (22003): Out of range value" col n) in
  match c, ty with
  | CNone, _ => Ok SNull
  | CNA, _ => Raise (MySQLError "Failed processing format-parameters; Python 'natype' cannot be converted to a MySQL type")
  | CNaN, _ => Raise (MySQLError "1054 (42S22): Unknown column 'nan' in 'field list'")
  | CInt z, TVarchar255 => text (z_to_dec z)
  | CFloat t, TVarchar255 => text t
  | CBool b, TVarchar255 => text (z_to_dec (bool_int b))
  | CStr s, TVarchar255 => text s
  | CTimestamp t, TVarchar255 => text t
  | CInt z, TInt => int_in int32_min int32_max z
  | CBool b, TInt => Ok (SInt (bool_int b))
  | CInt z, TBoolean => int_in (-128)%Z 127%Z z
  | CBool b, TBoolean => Ok (SInt (bool_int b))
  | CFloat t, TFloat => Ok (SFloat t)
  | CInt z, TFloat => Ok (SFloat (z_to_dec z))
  | CTimestamp t, TDatetime => Ok (SDatetime t)
  | _, _ => Raise (err_at "1366 (HY000): Incorrect value" col n)
  end.

(** The type of an existing column (the caller has checked it exists). *)
Definition col_type (tcs : list (string * sql_type)) (c : string) : sql_type :=
  dict_get tcs c TVarchar255.

(** One row of [VALUES (%s, ...)]: the cells in the order of the column
    list, then laid out in the table's column order, [NULL] for a table
    column the statement does not name. *)
Definition store_row (tcs : list (string * sql_type)) (dcs : list string) (n : nat)
    (cells : list cell) : res (list sql_value) :=
  if negb (Nat.eqb (length cells) (length dcs))
  then Raise (MySQLError "Not enough parameters for the SQL statement")
  else
    (vs <-! res_mapM (fun cx => store_value cx.1 (col_type tcs cx.1) n cx.2) (combine dcs cells) ;;
     Ok (map (fun tc => lookup_col dcs vs tc.1) tcs))%py.

Fixpoint store_rows (tcs : list (string * sql_type)) (dcs : list string) (n : nat)
    (rows : list (list cell)) : res (list (list sql_value)) :=
  match rows with
  | [] => Ok []
  | r :: rows' =>
    (v <-! store_row tcs dcs n r ;; vs <-! store_rows tcs dcs (S n) rows' ;; Ok (v :: vs))%py
  end.

Definition unknown_column (c : string) : exc :=
  MySQLError ("1054 (42S22): Unknown column '" ++ c ++ "' in 'field list'").

(** [local_cursor.executemany(insert_query, values)]: the connector sends
    one multi-row [INSERT], which MySQL applies whole or not at all; an
    empty [values] sends nothing. *)
Definition insert_rows (name : string) (dcs : list string) (rows : list (list cell))
    (db : staging_db) : res staging_db :=
  match rows with
  | [] => Ok db
  | _ =>
    match db !! name with
    | None => Raise (MySQLError ("1146 (42S02): Table 'kopo." ++ name ++ "' doesn't exist"))
    | Some t =>
      match List.find (fun c => negb (existsb (String.eqb c) (map fst (st_cols t)))) dcs with
      | Some c => Raise (unknown_column c)
      | None =>
        (rs <-! store_rows (st_cols t) dcs 1 rows ;;
         Ok (<[name := mk_staged (st_cols t) (st_rows t ++ rs)]> db))%py
      end
    end
  end.

(** The body of the loop for one file, after the download: create the
    table from the dtypes, normalise, insert. *)
Definition load_frame (name : string) (df : frame) (db : staging_db) : res staging_db :=
  (db1 <-! create_table name (fcols df) db ;;
   insert_rows name (map fst (fcols df)) (frows (normalize df)) db1)%py.

(** ** Well-typed tables *)






Lemma store_value_row_indep col ty n m c v :
  store_value col ty n c = Ok v -> store_value col ty m c = Ok v.
Proof. destruct c, ty; simpl; by repeat case_match. Qed.

Lemma dict_get_NoDup {V} (d : list (string * V)) kv dflt :
  NoDup (map fst d) -> In kv d -> dict_get d kv.1 dflt = kv.2.
Proof.
  unfold dict_get. induction d as [|[k v] d IH]; intros Hnd Hin; [done|].
  simpl in *. inversion Hnd as [|? ? Hk Hnd']; subst. destruct Hin as [<-|Hin].
  - by rewrite String.eqb_refl.
  - destruct (String.eqb_spec k kv.1) as [->|]; simpl; [|by apply IH].
    exfalso. apply Hk, list_elem_of_In, in_map_iff. eauto.
Qed.







Lemma normalize_no_missing df :
  Forall (Forall (fun c => c <> CNA /\ c <> CNaN)) (frows (normalize df)).
Proof.
  simpl. apply Forall_fmap, Forall_forall. intros r _.
  apply Forall_fmap, Forall_forall. intros [] _; simpl; split; discriminate.
Qed.

Lemma insert_rows_Ok_inv name dcs rows db db' :
  rows <> [] -> insert_rows name dcs rows db = Ok db' ->
  exists t rs, db !! name = Some t /\ store_rows (st_cols t) dcs 1 rows = Ok rs /\
    db' = <[name := mk_staged (st_cols t) (st_rows t ++ rs)]> db.
Proof.
  unfold insert_rows. destruct rows as [|row rows]; [done|]. intros _.
  destruct (db !! name) as [t|]; [|done]. case_match; [done|].
  rewrite res_bind_Ok. intros (rs & Hrs & [=<-]). eauto.
Qed.

Lemma create_table_fresh name cols db db' :
  db !! name = None -> create_table name cols db = Ok db' ->
  NoDup (map fst cols) /\ db' = <[name := mk_staged (typed_cols cols) []]> db.
Proof.
  unfold create_table. intros Hn. destruct cols; [done|]. rewrite Hn.
  case_bool_decide; [|done]. intros [=<-]. done.
Qed.

Lemma lookup_combine_Some {A B} (l1 : list A) (l2 : list B) j a b :
  l1 !! j = Some a -> l2 !! j = Some b -> combine l1 l2 !! j = Some (a, b).
Proof.
  revert l2 j. induction l1 as [|x l1 IH]; intros [|y l2] [|j]; simpl; try done.
  - by intros [=->] [=->].
  - apply IH.
Qed.

Lemma store_rows_each tcs dcs n rows rs :
  store_rows tcs dcs n rows = Ok rs ->
  Forall (fun row => exists m r, store_row tcs dcs m row = Ok r) rows.
Proof.
  revert n rs. induction rows as [|row rows IH]; intros n rs; simpl; [by constructor|].
  rewrite res_bind_Ok. intros (v & Hv & Hrest). apply res_bind_Ok in Hrest as (vs & Hvs & _).
  constructor; eauto.
Qed.

Lemma store_row_cell tcs dcs m cells r j c x :
  store_row tcs dcs m cells = Ok r -> dcs !! j = Some c -> cells !! j = Some x ->
  exists v, store_value c (col_type tcs c) m x = Ok v.
Proof.
  unfold store_row. case_match; [done|].
  rewrite res_bind_Ok. intros (vs & Hvs & _) Hc Hx. apply res_mapM_Ok in Hvs.
  destruct (Forall2_lookup_l _ _ _ j (c, x) Hvs) as (v & _ & Hv);
    [by apply lookup_combine_Some|]. eauto.
Qed.

(** Loading a file into a new table fails as soon as one of its cells,
    after normalisation, is one MySQL rejects for the column's mapped type:
    no row of the file is stored. *)
Lemma load_frame_cell_rejected name df db i j row c d x :
  db !! name = None -> frows df !! i = Some row -> fcols df !! j = Some (c, d) ->
  row !! j = Some x -> (forall m v, store_value c (mysql_type d) m (normalize_cell x) <> Ok v) ->
  forall db', load_frame name df db <> Ok db'.
Proof.
  intros Hn Hi Hj Hx Hrej db'. unfold load_frame. rewrite res_bind_Ok.
  intros (db1 & Hc & Hins). apply create_table_fresh in Hc as [Hnd ->]; [|done].
  apply insert_rows_Ok_inv in Hins as (t & rs & Ht & Hrs & _);
    [|destruct df as [cols []]; simpl in *; done].
  rewrite lookup_insert_eq in Ht. injection Ht as <-. simpl in Hrs.
  apply store_rows_each in Hrs. eapply Forall_lookup_1 in Hrs as (m & r & Hr);
    [|simpl; rewrite list_lookup_fmap, Hi; reflexivity].
  edestruct (store_row_cell _ _ _ _ _ j c (normalize_cell x) Hr) as [v Hv].
  - by rewrite list_lookup_fmap, Hj.
  - by rewrite list_lookup_fmap, Hx.
  - apply (Hrej m v). rewrite <- Hv. f_equal. unfold col_type. symmetry.
    apply (dict_get_NoDup (typed_cols (fcols df)) (c, mysql_type d)).
    + unfold typed_cols. by rewrite map_map.
    + apply in_map_iff. exists (c, d). split; [done|]. apply list_elem_of_In. by eapply list_elem_of_lookup_2.
Qed.

Lemma store_row_indep tcs dcs n m cells r :
  store_row tcs dcs n cells = Ok r -> store_row tcs dcs m cells = Ok r.
Proof.
  unfold store_row. case_match; [done|]. rewrite !res_bind_Ok.
  intros (vs & Hvs & E). exists vs. split; [|done].
  apply res_mapM_Ok in Hvs. apply res_mapM_Ok.
  eapply Forall2_impl; [exact Hvs|]. intros ? ? Hv. exact (store_value_row_indep _ _ _ _ _ _ Hv).
Qed.

(** Success of the multi-row statement does not depend on the row numbers,
    which only appear in error messages. *)
Lemma store_rows_Forall2 tcs dcs n rows rs :
  store_rows tcs dcs n rows = Ok rs <-> Forall2 (fun row r => store_row tcs dcs 1 row = Ok r) rows rs.
Proof.
  revert n rs. induction rows as [|row rows IH]; intros n rs; simpl.
  - split; [intros [=<-]; constructor|intros H; by inversion H].
  - rewrite res_bind_Ok. setoid_rewrite res_bind_Ok. setoid_rewrite IH. split.
    + intros (r & Hr & rs' & Hrs & [=<-]). constructor; [|done]. by eapply store_row_indep.
    + intros H. inversion H as [|? r ? rs' Hr Hrs]; subst.
      exists r. split; [by eapply store_row_indep|]. eauto.
Qed.

Definition cols_known (t : staged) (dcs : list string) : Prop :=
  List.find (fun c => negb (existsb (String.eqb c) (map fst (st_cols t)))) dcs = None.

Lemma insert_rows_cons_Ok name dcs row rows db db' :
  insert_rows name dcs (row :: rows) db = Ok db' <->
  exists t rs, db !! name = Some t /\ cols_known t dcs /\
    Forall2 (fun row r => store_row (st_cols t) dcs 1 row = Ok r) (row :: rows) rs /\
    db' = <[name := mk_staged (st_cols t) (st_rows t ++ rs)]> db.
Proof.
  unfold insert_rows, cols_known. destruct (db !! name) as [t|]; [|split; [done|naive_solver]].
  case_match; [split; [done|naive_solver]|].
  rewrite res_bind_Ok. setoid_rewrite store_rows_Forall2. naive_solver.
Qed.

Lemma create_table_Ok_present name cols db db' :
  create_table name cols db = Ok db' -> cols <> [] /\ exists t, db' !! name = Some t.
Proof.
  unfold create_table. destruct cols; [done|].
  destruct (db !! name) as [t|] eqn:E; [intros [=<-]; split; eauto; done|].
  case_bool_decide; [|done]. intros [=<-]. rewrite lookup_insert_eq. split; eauto; done.
Qed.

Lemma create_table_existing name cols db t :
  cols <> [] -> db !! name = Some t -> create_table name cols db = Ok db.
Proof. unfold create_table. destruct cols; [done|]. by intros _ ->. Qed.

(** ** Properties of the staging load *)


(** C24: [INT] is 32 bits while pandas' [int64] is 64: loading a file
    into a new table fails, and stores none of its rows, when an [int64]
    column holds a value outside [-2^31, 2^31 - 1], such as a ten-digit
    business registration number. *)
Theorem load_frame_int_overflow name df db i j row c z :
  db !! name = None -> frows df !! i = Some row -> fcols df !! j = Some (c, "int64") ->
  row !! j = Some (CInt z) -> in_range int32_min int32_max z = false ->
  forall db', load_frame name df db <> Ok db'.
Proof.
  intros Hn Hi Hj Hx Hr. eapply load_frame_cell_rejected; eauto.
  intros m v. simpl. by rewrite Hr.
Qed.

(** C26: Reruns accumulate: loading the same file a second time leaves the
    table's columns as they are and appends again the rows the first load
    appended, which are the frame's rows as the table stores them, one per
    row of the file. *)
Theorem load_frame_rerun_duplicates name df db db1 db2 :
  load_frame name df db = Ok db1 -> load_frame name df db1 = Ok db2 ->
  exists cols old rs,
    store_rows cols (map fst (fcols df)) 1 (frows (normalize df)) = Ok rs /\
    length rs = length (frows df) /\
    db1 !! name = Some (mk_staged cols (old ++ rs)) /\
    db2 !! name = Some (mk_staged cols (old ++ rs ++ rs)).
Proof.
  unfold load_frame. rewrite !res_bind_Ok. intros (da & Hc1 & Hi1) (db' & Hc2 & Hi2).
  destruct (create_table_Ok_present _ _ _ _ Hc1) as [Hne [t Ht]].
  assert (length (frows (normalize df)) = length (frows df)) as Hl by (simpl; apply length_map).
  destruct (frows (normalize df)) as [|row rows] eqn:Hrows.
  - injection Hi1 as <-. rewrite (create_table_existing _ _ _ _ Hne Ht) in Hc2.
    injection Hc2 as <-. simpl in Hi2. injection Hi2 as <-.
    exists (st_cols t), (st_rows t), []. rewrite !app_nil_r. destruct t. auto.
  - apply insert_rows_cons_Ok in Hi1 as (t1 & rs & Ht1 & Hk & HF & ->).
    rewrite (create_table_existing _ _ _ _ Hne (lookup_insert_eq _ _ _)) in Hc2. injection Hc2 as <-.
    apply insert_rows_cons_Ok in Hi2 as (t2 & rs' & Ht2 & _ & HF' & ->).
    rewrite lookup_insert_eq in Ht2. injection Ht2 as <-. simpl in HF'.
    pose proof (Forall2_length _ _ _ HF) as Hlr.
    apply (store_rows_Forall2 _ _ 1) in HF, HF'. rewrite HF in HF'. injection HF' as <-.
    exists (st_cols t1), (st_rows t1), rs. rewrite !lookup_insert_eq, List.app_assoc.
    repeat split; [done|lia].
Qed.

(** C27: The type map is total and falls back to text: a column is
    [VARCHAR(255)] exactly when its dtype is none of [int64], [float64],
    [datetime64[ns]] and [bool]; no dtype makes the mapping fail. *)
Theorem mysql_type_fallback d :
  mysql_type d = TVarchar255 <-> d ∉ ["int64"; "float64"; "datetime64[ns]"; "bool"].
Proof.
  rewrite !not_elem_of_cons. unfold mysql_type, dict_get. cbn -[String.eqb].
  repeat match goal with |- context [String.eqb ?a ?b] =>
    destruct (String.eqb_spec a b) as [<-|?]; cbn -[String.eqb] end;
    (split; [intros H; try discriminate H; repeat split; try apply not_elem_of_nil;
             try congruence; intros [=]
            |intros H; decompose [and] H; done]).
Qed.

(** ** Sample DataFrames *)

Definition sample_df : frame :=
  mk_frame [("doc_no", "int64"); ("prdct_nm", "object"); ("weight", "float64");
            ("mnfdt", "datetime64[ns]"); ("recall", "bool"); ("memo", "category")]
           [[CInt 1; CStr "김치"; CNaN; CTimestamp "2024-01-01 00:00:00"; CBool true; CNA];
            [CInt 2; CStr "두부"; CFloat "0.5"; CTimestamp "2024-02-01 00:00:00"; CBool false; CStr "x"]].

Definition brno_df : frame :=
  mk_frame [("bzenty_nm", "object"); ("bzenty_brno", "int64")]
           [[CStr "가공업체"; CInt 2148612345]].

(** The table [sample_df] loads into: NaN and NA stored as NULL, the
    boolean as a TINYINT, the [category] column as text. *)
Definition sample_cols : list (string * sql_type) :=
  [("doc_no", TInt); ("prdct_nm", TVarchar255); ("weight", TFloat);
   ("mnfdt", TDatetime); ("recall", TBoolean); ("memo", TVarchar255)].

Definition sample_rows : list (list sql_value) :=
  [[SInt 1; SText "김치"; SNull; SDatetime "2024-01-01 00:00:00"; SInt 1; SNull];
   [SInt 2; SText "두부"; SFloat "0.5"; SDatetime "2024-02-01 00:00:00"; SInt 0; SText "x"]].

Definition sample_db1 : staging_db := {["위해상품" := mk_staged sample_cols sample_rows]}.
Definition sample_db2 : staging_db :=
  {["위해상품" := mk_staged sample_cols (sample_rows ++ sample_rows)]}.


Lemma load_frame_int_overflow_witness :
  in_range int32_min int32_max 2148612345 = false /\
  forall db', load_frame "위해상품업체" brno_df ∅ <> Ok db'.
Proof.
  split; [reflexivity|].
  apply (load_frame_int_overflow "위해상품업체" brno_df ∅ 0 1 [CStr "가공업체"; CInt 2148612345]
           "bzenty_brno" 2148612345); reflexivity.
Defined.

Lemma load_frame_rerun_duplicates_witness :
  load_frame "위해상품" sample_df ∅ = Ok sample_db1 /\
  load_frame "위해상품" sample_df sample_db1 =
    Ok sample_db2 /\
  exists cols old rs,
    store_rows cols (map fst (fcols sample_df)) 1 (frows (normalize sample_df)) = Ok rs /\
    length rs = length (frows sample_df) /\
    sample_db1 !! "위해상품" = Some (mk_staged cols (old ++ rs)) /\
    sample_db2 !! "위해상품" =
      Some (mk_staged cols (old ++ rs ++ rs)).
Proof.
  assert (E1 : load_frame "위해상품" sample_df ∅ = Ok sample_db1)
    by (vm_compute; reflexivity).
  assert (E2 : load_frame "위해상품" sample_df sample_db1 =
    Ok sample_db2) by (vm_compute; reflexivity).
  split; [exact E1|]. split; [exact E2|].
  exact (load_frame_rerun_duplicates _ _ _ _ _ E1 E2).
Defined.

End Staging.
