(* ===== verification/Classifier.v ===== *)
(** * The recall-reason classifier (local_to_ec2_etl.py, lines 236-255)

    For each row selected from the analytical table, the ETL loop derives a
    recall reason from three columns: [row[2]] (부적합검사항목, the
    inspection item), [row[3]] (부적합검사결과, the inspection result) and
    [row[4]] (회수조치내용, the recall action).  The code is a cascade of
    [if]/[elif] tests, first match wins.

    [recall_reason] translates it over fetched values ([sql_value]), so the
    cases the spec does not mention are modelled too: a NULL column, a
    numeric column (the [in] test then raises [TypeError]), and a result
    that contains "검출" more than once.

    [reason_spec] is the abstract specification: one constructor per
    outcome, with its condition stated on substrings ([occurs]) and the
    negations that make the first match win.  [recall_reason_refines] shows
    the code implements it exactly on the inputs a VARCHAR column gives
    (a [str] or [None]). *)

From S2P Require Import Prelude PyStr Sql.
Local Open Scope string_scope.
Local Open Scope py_scope.

Module Classifier.

Definition microbe_words : list string := ["대장균"; "황색포도상구균"; "세균"; "리스테리아"].
Definition metal_words : list string := ["중금속"; "납"; "카드뮴"].
Definition preservative_words : list string := ["보존료"; "합성"].

(** [w1 in s or w2 in s or ...] for a [str] operand [s]. *)
Definition any_in (ws : list string) (s : string) : bool :=
  existsb (fun w => contains w s) ws.

(** [output_text = row[4] if row[4] else "검사결과 부적합"] *)
Definition fallback_text (row4 : sql_value) : sql_value :=
  if py_truthy row4 then row4 else SText "검사결과 부적합".

(** Lines 237-255.  The first [in] test on [item] raises [TypeError] when
    [item] is not a [str]; [result] is tested with [in] only in the
    preservative branch. *)
Definition recall_reason (row2 row3 row4 : sql_value) : res sql_value :=
  let item := py_or_empty row2 in
  let result := py_or_empty row3 in
  if negb (py_truthy item) || negb (py_truthy result) then Ok (fallback_text row4)
  else
    item_s <-! py_iter_str item ;;
    if any_in microbe_words item_s then
      Ok (SText ("미생물 오염(" ++ item_s ++ ") 기준치 초과로 인한 회수"))
    else if any_in metal_words item_s then
      Ok (SText ("중금속(" ++ item_s ++ ") 기준치 초과로 인한 회수"))
    else if any_in preservative_words item_s then
      result_s <-! py_iter_str result ;;
      if contains "검출" result_s then
        pieces <-! py_split "검출" result_s ;;
        detected <-! py_index0 pieces ;;
        Ok (SText ("합성보존료(" ++ py_strip detected ++ ") 검출로 인한 회수"))
      else Ok (SText "합성보존료 기준치 초과로 인한 회수")
    else if contains "이물" item_s then Ok (SText "이물질 혼입으로 인한 회수")
    else Ok (SText (item_s ++ " 기준 부적합으로 인한 회수")).

(** A VARCHAR or TEXT column yields a [str] or [None]. *)
Definition str_or_none (v : sql_value) : bool :=
  match v with SNull | SText _ => true | _ => false end.

(** ** Abstract specification *)

Inductive reason_spec : sql_value -> sql_value -> sql_value -> sql_value -> Prop :=
| spec_missing i r f :
    py_truthy i = false \/ py_truthy r = false -> reason_spec i r f (fallback_text f)
| spec_microbial i r f :
    i <> "" -> py_truthy r = true -> occurs_any microbe_words i ->
    reason_spec (SText i) r f (SText ("미생물 오염(" ++ i ++ ") 기준치 초과로 인한 회수"))
| spec_heavy_metal i r f :
    i <> "" -> py_truthy r = true -> ~ occurs_any microbe_words i ->
    occurs_any metal_words i ->
    reason_spec (SText i) r f (SText ("중금속(" ++ i ++ ") 기준치 초과로 인한 회수"))
| spec_preservative_detected i r f b a :
    i <> "" -> r <> "" -> ~ occurs_any microbe_words i -> ~ occurs_any metal_words i ->
    occurs_any preservative_words i ->
    r = b ++ "검출" ++ a ->
    (forall pre post, r = pre ++ "검출" ++ post -> String.length b <= String.length pre) ->
    reason_spec (SText i) (SText r) f (SText ("합성보존료(" ++ py_strip b ++ ") 검출로 인한 회수"))
| spec_preservative_exceeded i r f :
    i <> "" -> r <> "" -> ~ occurs_any microbe_words i -> ~ occurs_any metal_words i ->
    occurs_any preservative_words i -> ~ occurs "검출" r ->
    reason_spec (SText i) (SText r) f (SText "합성보존료 기준치 초과로 인한 회수")
| spec_foreign_matter i r f :
    i <> "" -> py_truthy r = true -> ~ occurs_any microbe_words i ->
    ~ occurs_any metal_words i -> ~ occurs_any preservative_words i -> occurs "이물" i ->
    reason_spec (SText i) r f (SText "이물질 혼입으로 인한 회수")
| spec_other i r f :
    i <> "" -> py_truthy r = true -> ~ occurs_any microbe_words i ->
    ~ occurs_any metal_words i -> ~ occurs_any preservative_words i -> ~ occurs "이물" i ->
    reason_spec (SText i) r f (SText (i ++ " 기준 부적합으로 인한 회수")).

(** ** Properties *)

Lemma str_truthy_nonempty (s : string) : str_truthy s = true <-> s <> "".
Proof. destruct s; simpl; intuition congruence. Qed.

Lemma truthy_text (s : string) : s <> "" -> py_truthy (SText s) = true.
Proof. apply str_truthy_nonempty. Qed.

#[local] Hint Resolve truthy_text : pyetl.

(** C17. On an empty or NULL item or result, the fallback is returned, whatever
    the types of the other columns. *)
Lemma recall_reason_missing (i r f : sql_value) :
  py_truthy i = false \/ py_truthy r = false -> recall_reason i r f = Ok (fallback_text f).
Proof.
  intros H. unfold recall_reason. rewrite !py_or_empty_truthy.
  destruct H as [-> | ->]; [done|]. by rewrite orb_true_r.
Qed.

(** The separator literal is not empty, so [py_split] does not raise, and
    the first piece is the text before the first occurrence. *)
Lemma split_detected_first {A} (r b a : string) (k : string -> res A) :
  find_sep "검출" r = Some (b, a) ->
  res_bind (py_split "검출" r) (fun pieces => res_bind (py_index0 pieces) k) = k b.
Proof.
  intros E. simpl.
  match goal with |- context [split_go ?c ?sep r] =>
    destruct (split_go_head c sep r) as [rest ->] end.
  by rewrite E.
Qed.

(** Turn the boolean tests of the cascade into the spec's propositions. *)
Ltac any_in_facts :=
  repeat match goal with
  | H : any_in _ _ = true |- _ => apply existsb_contains in H
  | H : any_in _ _ = false |- _ => apply existsb_contains_false in H
  | H : contains _ _ = true |- _ => apply contains_spec in H
  end.

Lemma recall_reason_complete (i r f : sql_value) :
  str_or_none i = true -> str_or_none r = true ->
  exists v, recall_reason i r f = Ok v /\ reason_spec i r f v.
Proof.
  intros Hi Hr.
  destruct (py_truthy i && py_truthy r) eqn:Ht.
  2: { exists (fallback_text f).
       assert (py_truthy i = false \/ py_truthy r = false) as Hm
         by (destruct (py_truthy i), (py_truthy r); auto).
       split; [by apply recall_reason_missing | by apply spec_missing]. }
  apply andb_true_iff in Ht as [Ti Tr].
  destruct i as [| | |it|]; try discriminate.
  assert (it <> "") as Hne by (by apply str_truthy_nonempty).
  unfold recall_reason. rewrite py_or_empty_text, py_or_empty_truthy, Ti, Tr. cbn [negb orb py_iter_str res_bind].
  destruct (any_in microbe_words it) eqn:E1.
  { eexists. split; [done|]. any_in_facts. by apply spec_microbial. }
  destruct (any_in metal_words it) eqn:E2.
  { eexists. split; [done|]. any_in_facts. by apply spec_heavy_metal. }
  destruct (any_in preservative_words it) eqn:E3.
  - destruct r as [| | |rs|]; try discriminate.
    assert (rs <> "") as Hrs by (by apply str_truthy_nonempty).
    rewrite py_or_empty_text. cbn [py_iter_str res_bind].
    destruct (contains "검출" rs) eqn:E4.
    + destruct (find_sep "검출" rs) as [[b a]|] eqn:E5.
      2: { apply find_sep_None in E5. congruence. }
      rewrite (split_detected_first _ _ _ _ E5).
      eexists. split; [done|]. any_in_facts.
      eapply spec_preservative_detected; eauto using find_sep_split, find_sep_first.
    + eexists. split; [done|]. any_in_facts.
      apply spec_preservative_exceeded; auto.
      intros Hocc%contains_spec. congruence.
  - destruct (contains "이물" it) eqn:E4.
    + eexists. split; [done|]. any_in_facts. by apply spec_foreign_matter.
    + eexists. split; [done|]. any_in_facts. apply spec_other; auto.
      intros Hocc%contains_spec. congruence.
Qed.

(** The missing-input case excludes every other case. *)
Ltac missing_contra :=
  match goal with
  | H : py_truthy (SText ?i) = false \/ py_truthy ?r = false |- _ =>
      destruct H as [H|H];
      repeat match goal with
             | Hn : ?s <> "" |- _ => rewrite (truthy_text s Hn) in H; clear Hn
             end; congruence
  end.

(** [reason_spec] determines the reason. *)
Lemma reason_spec_functional (i r f v1 v2 : sql_value) :
  reason_spec i r f v1 -> reason_spec i r f v2 -> v1 = v2.
Proof.
  intros H1 H2. inversion H1; subst; inversion H2; subst;
    try reflexivity; try tauto; try missing_contra.
  - match goal with
    | Heq : ?b ++ "검출" ++ ?a = ?b0 ++ "검출" ++ ?a0,
      Hm : forall pre post, _ -> String.length ?b <= _,
      Hm' : forall pre post, _ -> String.length ?b0 <= _ |- _ =>
        pose proof (Hm _ _ Heq); pose proof (Hm' _ _ eq_refl);
        destruct (str_app_inv b b0 _ _ Heq) as [-> _]; [lia | reflexivity]
    end.
  - exfalso. match goal with H : ~ occurs _ _ |- _ => apply H; by eexists _, _ end.
  - exfalso. match goal with H : ~ occurs _ _ |- _ => apply H; by eexists _, _ end.
Qed.

(** C1. The code implements the specification: on a [str] or [None] item and
    result, [recall_reason] returns [v] exactly when [reason_spec] allows
    [v]. *)
Theorem recall_reason_refines (i r f v : sql_value) :
  str_or_none i = true -> str_or_none r = true ->
  recall_reason i r f = Ok v <-> reason_spec i r f v.
Proof.
  intros Hi Hr. destruct (recall_reason_complete i r f Hi Hr) as (v' & Hc & Hs).
  rewrite Hc. split; [by intros [= <-] | intros Hv; f_equal; eauto using reason_spec_functional].
Qed.

(** C4. On a [str] or [None] item and result the classifier never raises. *)
Corollary recall_reason_no_exception (i r f : sql_value) (e : exc) :
  str_or_none i = true -> str_or_none r = true -> recall_reason i r f <> Raise e.
Proof.
  intros Hi Hr. destruct (recall_reason_complete i r f Hi Hr) as (v & -> & _). discriminate.
Qed.

(** C5. A non-empty item that is not a [str] (an INT, FLOAT or DATETIME
    column) makes the first [in] test raise [TypeError], which aborts the
    dataset loop. *)
Lemma recall_reason_item_type_error (i r f : sql_value) :
  py_truthy i = true -> py_truthy r = true -> str_or_none i = false ->
  recall_reason i r f =
    Raise (TypeError ("argument of type '" ++ py_type_name i ++ "' is not iterable")).
Proof.
  intros Ti Tr Hs. unfold recall_reason, py_or_empty. rewrite Ti, Tr, Ti, Tr. simpl.
  by destruct i.
Qed.

(** C18. In the preservative branch a non-empty result that is not a [str]
    raises [TypeError] at the [in] test on the result. *)
Lemma recall_reason_result_type_error (i : string) (r f : sql_value) :
  i <> "" -> py_truthy r = true -> str_or_none r = false ->
  ~ occurs_any microbe_words i -> ~ occurs_any metal_words i ->
  occurs_any preservative_words i ->
  recall_reason (SText i) r f =
    Raise (TypeError ("argument of type '" ++ py_type_name r ++ "' is not iterable")).
Proof.
  intros Hi Tr Hs H1 H2 H3. unfold recall_reason.
  rewrite py_or_empty_text, truthy_text by done. unfold py_or_empty. rewrite Tr, Tr.
  cbn [negb orb py_iter_str res_bind].
  apply existsb_contains_false in H1, H2. apply existsb_contains in H3.
  unfold any_in. rewrite H1, H2, H3. by destruct r.
Qed.

(** The examples of the spec (section 8), evaluated. *)
Example recall_reason_spec_examples :
  recall_reason (SText "대장균 검출") (SText "100초과검출") (SText "") =
    Ok (SText "미생물 오염(대장균 검출) 기준치 초과로 인한 회수") /\
  recall_reason (SText "") (SText "") (SText "회수조치") = Ok (SText "회수조치") /\
  recall_reason (SText "") (SText "") (SText "") = Ok (SText "검사결과 부적합") /\
  recall_reason (SText "보존료") (SText "소브산 검출") (SText "") =
    Ok (SText "합성보존료(소브산) 검출로 인한 회수").
Proof. vm_compute. repeat split. Qed.

(** The first "검출" of a result "... 불검출 ..." with none before is the
    one inside "불검출": the first byte of "불" does not occur in "검출"
    past its first byte, so no occurrence straddles [pre]. *)
Lemma find_sep_not_detected (pre post : string) :
  ~ occurs "검출" pre -> find_sep "검출" (pre ++ "불검출" ++ post) = Some (pre ++ "불", post).
Proof.
  intros Hp. destruct (contains "검출" pre) eqn:E; [by apply contains_spec in E|].
  change ("불검출" ++ post) with (String "235" (String "182" (String "136" ("검출" ++ post)))).
  rewrite (find_sep_app_l "234" _ pre (String "182" (String "136" ("검출" ++ post))) "235" E)
    by reflexivity.
  change (find_sep "검출" (String "235" _)) with (find_sep "검출" ("불" ++ "검출" ++ post)).
  rewrite (find_sep_app_l "234" _ "불" (String "178" (String "128" ("출" ++ post))) "234")
    by reflexivity.
  change (find_sep "검출" (String "234" _)) with (find_sep "검출" ("검출" ++ post)). by rewrite find_sep_here.
Qed.

(** C19. A preservative finding whose result reports "불검출" (not
    detected) is labelled as a detected preservative: the result is cut
    at the first "검출", the one inside "불검출", and the label names the
    text before it, which ends in "불", as the substance found. *)
Theorem recall_reason_not_detected_prefix (i pre post : string) (f : sql_value) :
  i <> "" -> ~ occurs_any microbe_words i -> ~ occurs_any metal_words i ->
  occurs_any preservative_words i -> ~ occurs "검출" pre ->
  recall_reason (SText i) (SText (pre ++ "불검출" ++ post)) f =
    Ok (SText ("합성보존료(" ++ py_strip (pre ++ "불") ++ ") 검출로 인한 회수")).
Proof.
  intros Hi H1 H2 H3 Hp.
  pose proof (find_sep_not_detected pre post Hp) as E.
  assert (pre ++ "불검출" ++ post <> "") as Hr
    by (rewrite (find_sep_split _ _ _ _ E); by destruct pre).
  unfold recall_reason. rewrite !py_or_empty_text, !truthy_text by done.
  cbn [negb orb py_iter_str res_bind].
  apply existsb_contains_false in H1, H2. apply existsb_contains in H3.
  unfold any_in. rewrite H1, H2, H3.
  assert (contains "검출" (pre ++ "불검출" ++ post) = true) as Hc
    by (apply contains_spec; eauto using find_sep_split).
  rewrite Hc. by rewrite (split_detected_first _ _ _ _ E).
Qed.

(** ** Witnesses: the theorems applied at concrete rows *)

Lemma recall_reason_refines_witness :
  str_or_none (SText "보존료") = true /\ str_or_none (SText "소브산 검출") = true /\
  reason_spec (SText "보존료") (SText "소브산 검출") SNull
    (SText "합성보존료(소브산) 검출로 인한 회수").
Proof.
  split; [reflexivity|]. split; [reflexivity|].
  apply (proj1 (recall_reason_refines (SText "보존료") (SText "소브산 검출") SNull _
    eq_refl eq_refl)). vm_compute. reflexivity.
Defined.

Lemma recall_reason_no_exception_witness :
  str_or_none SNull = true /\ str_or_none (SText "납 검출") = true /\
  recall_reason SNull (SText "납 검출") (SInt 7) <> Raise (TypeError "").
Proof.
  split; [reflexivity|]. split; [reflexivity|].
  apply (recall_reason_no_exception SNull (SText "납 검출") (SInt 7) _ eq_refl eq_refl).
Defined.

Lemma recall_reason_missing_witness :
  (py_truthy (SText "") = false \/ py_truthy (SText "x") = false) /\
  recall_reason (SText "") (SText "x") (SText "회수") = Ok (fallback_text (SText "회수")).
Proof.
  split; [left; reflexivity|]. apply recall_reason_missing. left. reflexivity.
Defined.

Lemma recall_reason_item_type_error_witness :
  py_truthy (SInt 3) = true /\ py_truthy (SText "x") = true /\ str_or_none (SInt 3) = false /\
  recall_reason (SInt 3) (SText "x") SNull =
    Raise (TypeError ("argument of type '" ++ py_type_name (SInt 3) ++ "' is not iterable")).
Proof.
  split; [reflexivity|]. split; [reflexivity|]. split; [reflexivity|].
  apply recall_reason_item_type_error; reflexivity.
Defined.

Lemma recall_reason_result_type_error_witness :
  recall_reason (SText "보존료") (SInt 5) SNull =
    Raise (TypeError ("argument of type '" ++ py_type_name (SInt 5) ++ "' is not iterable")).
Proof.
  apply recall_reason_result_type_error; try reflexivity; try discriminate.
  - apply existsb_contains_false. vm_compute. reflexivity.
  - apply existsb_contains_false. vm_compute. reflexivity.
  - apply existsb_contains. vm_compute. reflexivity.
Defined.

(** The result "기준 불검출, 결과 소브산 검출" names "기준 불" as the
    preservative detected. *)
Lemma recall_reason_not_detected_prefix_witness :
  ~ occurs "검출" "기준 " /\
  recall_reason (SText "보존료") (SText ("기준 " ++ "불검출" ++ ", 결과 소브산 검출")) SNull =
    Ok (SText ("합성보존료(" ++ py_strip ("기준 " ++ "불") ++ ") 검출로 인한 회수")) /\
  py_strip ("기준 " ++ "불") = "기준 불".
Proof.
  assert (~ occurs "검출" "기준 ") as Hp
    by (intros Hc%contains_spec; vm_compute in Hc; discriminate).
  split; [exact Hp|]. split; [|vm_compute; reflexivity].
  apply recall_reason_not_detected_prefix; [discriminate| | | |exact Hp].
  - apply existsb_contains_false. vm_compute. reflexivity.
  - apply existsb_contains_false. vm_compute. reflexivity.
  - apply existsb_contains. vm_compute. reflexivity.
Defined.

End Classifier.
