(* ===== verification/Analysis.v ===== *)
(** * The analytical table (local_to_ec2_etl.py, lines 136-183)

    [CREATE TABLE ... 위해상품_위험도_분석 AS SELECT ...] joins the product
    staging table [w] (위해상품) with the inspection table [b]
    (위해상품부적합검사) and the company table [u] (위해상품업체), both by
    LEFT JOIN on (doc_no, doc_cycl), keeps the rows whose product name,
    product type and country are not NULL, and adds two derived columns:
    the hazard flag 위해상품여부 and the risk grade 위험도등급.

    [build_analysis] evaluates the SELECT: it raises MySQL error 1054 when
    a staging table lacks a column the query names, and otherwise returns
    the rows in nested-loop order (the order does not matter to any reader
    of the table: every later query groups or selects DISTINCT).  The
    storing of the result, and the [IF NOT EXISTS] that makes a second run
    a no-op, belong to the store model.

    Theorems: every row satisfies the row invariant [row_derived_ok] (the
    flag and the grade are the CASE expressions of the row's own code),
    every grade is one of the four valid grades, the WHERE columns are
    never NULL, and each kept product row gives at least one joined row. *)

From S2P Require Import Prelude PyStr Sql.
Local Open Scope string_scope.

Module Analysis.

(** A row of 위해상품_위험도_분석, with the column names of the SELECT. *)
Record analysis_row := mk_analysis_row {
  doc_no : sql_value;
  doc_cycl : sql_value;
  제품명 : sql_value;
  제품유형 : sql_value;
  제조국 : sql_value;
  제조일자 : sql_value;
  유통기한 : sql_value;
  안전인증번호 : sql_value;
  제품허가번호 : sql_value;
  회수조치내용 : sql_value;
  회수조치코드 : sql_value;
  신고일자 : sql_value;
  통보일자 : sql_value;
  회수시작일 : sql_value;
  부적합검사항목 : sql_value;
  부적합검사규격 : sql_value;
  부적합검사결과 : sql_value;
  업체유형 : sql_value;
  업체명 : sql_value;
  사업자등록번호 : sql_value;
  업체주소 : sql_value;
  위해상품여부 : sql_value;
  위험도등급 : sql_value
}.

(** [CASE WHEN w.rtrvl_rsn_cd IS NOT NULL THEN 1 ELSE 0 END] *)
Definition hazard_flag (code : sql_value) : sql_value :=
  if negb (is_null code) then SInt 1 else SInt 0.

(** [CASE WHEN code LIKE '%1%' THEN '위험' WHEN code LIKE '%2%' THEN '주의'
    WHEN code LIKE '%3%' THEN '관심' ELSE '정상' END]; a NULL code makes
    every LIKE UNKNOWN, so it falls to ELSE. *)
Definition risk_grade (code : sql_value) : sql_value :=
  if sql_true (like_contains "1" code) then SText "위험"
  else if sql_true (like_contains "2" code) then SText "주의"
  else if sql_true (like_contains "3" code) then SText "관심"
  else SText "정상".

(** The columns each staging table must have for the query to compile. *)
Definition w_cols : list string :=
  ["doc_no"; "doc_cycl"; "prdct_nm"; "prdct_type_nm"; "plor_nm"; "mnftr_ymd";
   "rtl_term_cn"; "safe_cert_no"; "prdct_prmsn_no"; "rtrvl_rsn_nm"; "rtrvl_rsn_cd";
   "rpt_ymd"; "ntfctn_dt"; "cmd_bgng_dd_cn"].
Definition b_cols : list string :=
  ["doc_no"; "doc_cycl"; "icpt_insp_artcl_cn"; "icpt_insp_spcfct_cn"; "icpt_insp_rslt_cn"].
Definition u_cols : list string :=
  ["doc_no"; "doc_cycl"; "bzenty_type_nm"; "bzenty_nm"; "bzenty_brno"; "bzenty_addr"].

(** [ON w.doc_no = x.doc_no AND w.doc_cycl = x.doc_cycl] *)
Definition on_doc_key (tw : table) (w : list sql_value) (tx : table) (x : list sql_value) : bool :=
  sql_true (sql_and (sql_eq (get tw w "doc_no") (get tx x "doc_no"))
                    (sql_eq (get tw w "doc_cycl") (get tx x "doc_cycl"))).

(** LEFT JOIN: the matching rows, or one NULL-extended row when none
    matches. *)
Definition left_matches {X} (ms : list X) : list (option X) :=
  match ms with
  | [] => [None]
  | _ => map Some ms
  end.

(** A column of a LEFT JOINed side: NULL on the NULL-extended row. *)
Definition get_opt (t : table) (o : option (list sql_value)) (c : string) : sql_value :=
  match o with Some x => get t x c | None => SNull end.

Definition joined := (list sql_value * option (list sql_value) * option (list sql_value))%type.

(** [FROM w LEFT JOIN b ON ... LEFT JOIN u ON ...] *)
Definition join_rows (tw tb tu : table) : list joined :=
  flat_map (fun w =>
    flat_map (fun ob =>
      map (fun ou => (w, ob, ou))
        (left_matches (List.filter (on_doc_key tw w tu) (trows tu))))
      (left_matches (List.filter (on_doc_key tw w tb) (trows tb))))
    (trows tw).

(** [WHERE w.prdct_nm IS NOT NULL AND w.prdct_type_nm IS NOT NULL AND
    w.plor_nm IS NOT NULL] *)
Definition where_ok (tw : table) (j : joined) : bool :=
  let '(w, _, _) := j in
  negb (is_null (get tw w "prdct_nm")) && negb (is_null (get tw w "prdct_type_nm"))
  && negb (is_null (get tw w "plor_nm")).

(** The SELECT list. *)
Definition project (tw tb tu : table) (j : joined) : analysis_row :=
  let '(w, ob, ou) := j in
  {| doc_no := get tw w "doc_no";
     doc_cycl := get tw w "doc_cycl";
     제품명 := get tw w "prdct_nm";
     제품유형 := get tw w "prdct_type_nm";
     제조국 := get tw w "plor_nm";
     제조일자 := get tw w "mnftr_ymd";
     유통기한 := get tw w "rtl_term_cn";
     안전인증번호 := get tw w "safe_cert_no";
     제품허가번호 := get tw w "prdct_prmsn_no";
     회수조치내용 := get tw w "rtrvl_rsn_nm";
     회수조치코드 := get tw w "rtrvl_rsn_cd";
     신고일자 := get tw w "rpt_ymd";
     통보일자 := get tw w "ntfctn_dt";
     회수시작일 := get tw w "cmd_bgng_dd_cn";
     부적합검사항목 := get_opt tb ob "icpt_insp_artcl_cn";
     부적합검사규격 := get_opt tb ob "icpt_insp_spcfct_cn";
     부적합검사결과 := get_opt tb ob "icpt_insp_rslt_cn";
     업체유형 := get_opt tu ou "bzenty_type_nm";
     업체명 := get_opt tu ou "bzenty_nm";
     사업자등록번호 := get_opt tu ou "bzenty_brno";
     업체주소 := get_opt tu ou "bzenty_addr";
     위해상품여부 := hazard_flag (get tw w "rtrvl_rsn_cd");
     위험도등급 := risk_grade (get tw w "rtrvl_rsn_cd") |}.

(** The SELECT of lines 137-180 over the three staging tables. *)
Definition build_analysis (tw tb tu : table) : res (list analysis_row) :=
  if has_cols tw w_cols && has_cols tb b_cols && has_cols tu u_cols then
    Ok (map (project tw tb tu) (List.filter (where_ok tw) (join_rows tw tb tu)))
  else Raise (MySQLError "1054 (42S22): Unknown column").

(** ** Properties *)

Definition valid_grades : list string := ["위험"; "주의"; "관심"; "정상"].

(** The derived columns of a row are the CASE expressions of its own
    recall code (the invariant of section 3 of the spec). *)
Definition row_derived_ok (r : analysis_row) : Prop :=
  r.(위해상품여부) = hazard_flag r.(회수조치코드) /\ r.(위험도등급) = risk_grade r.(회수조치코드).

(** The code's text contains the digit [d]. *)
Definition code_has (d : string) (code : sql_value) : Prop :=
  exists t, sql_text code = Some t /\ occurs d t.

Lemma like_contains_true (d : string) (code : sql_value) :
  sql_true (like_contains d code) = true <-> code_has d code.
Proof.
  unfold like_contains, code_has, occurs. destruct (sql_text code) as [t|]; cbn [option_map].
  - destruct (contains d t) eqn:E; cbn.
    + split; [|done]. intros _. exists t. split; [done|]. by apply contains_spec.
    + split; [discriminate|]. intros (t' & [= <-] & Ho). apply contains_spec in Ho. congruence.
  - split; [discriminate | intros (t' & [=] & _)].
Qed.

Lemma like_contains_false (d : string) (code : sql_value) :
  sql_true (like_contains d code) = false <-> ~ code_has d code.
Proof. rewrite <- like_contains_true. destruct sql_true; intuition congruence. Qed.

Lemma risk_grade_in_valid (code : sql_value) :
  exists g, risk_grade code = SText g /\ In g valid_grades.
Proof.
  unfold risk_grade, valid_grades.
  repeat (case_match; [eexists; split; [reflexivity|]; simpl; tauto|]).
  eexists; split; [reflexivity|]. simpl; tauto.
Qed.

(** C6. The grade follows the documented priority: the first digit found among
    1, 2, 3 decides, and a NULL code or one without them is 정상. *)
Theorem risk_grade_priority (code : sql_value) :
  (risk_grade code = SText "위험" <-> code_has "1" code) /\
  (risk_grade code = SText "주의" <-> ~ code_has "1" code /\ code_has "2" code) /\
  (risk_grade code = SText "관심" <->
     ~ code_has "1" code /\ ~ code_has "2" code /\ code_has "3" code) /\
  (risk_grade code = SText "정상" <->
     ~ code_has "1" code /\ ~ code_has "2" code /\ ~ code_has "3" code).
Proof.
  unfold risk_grade.
  destruct (sql_true (like_contains "1" code)) eqn:E1;
  [|destruct (sql_true (like_contains "2" code)) eqn:E2;
    [|destruct (sql_true (like_contains "3" code)) eqn:E3]];
  rewrite ?like_contains_true, ?like_contains_false in *;
  repeat split; intros; try done; try tauto; try congruence.
Qed.

Lemma in_join_rows (tw tb tu : table) (j : joined) :
  In j (join_rows tw tb tu) -> In j.1.1 (trows tw).
Proof.
  unfold join_rows. rewrite in_flat_map. intros (w & Hw & Hj).
  apply in_flat_map in Hj as (ob & _ & Hj). apply in_map_iff in Hj as (ou & <- & _). done.
Qed.

(** Every property of the projected rows that holds for [project]'s result
    on any joined row holds for the whole table. *)
Lemma build_analysis_Forall (P : analysis_row -> Prop) (tw tb tu : table) rows :
  (forall j, where_ok tw j = true -> P (project tw tb tu j)) ->
  build_analysis tw tb tu = Ok rows -> Forall P rows.
Proof.
  intros HP. unfold build_analysis. case_match; [|discriminate]. intros [= <-].
  apply List.Forall_forall. intros r (j & <- & Hj)%in_map_iff.
  apply filter_In in Hj as [_ Hw]. auto.
Qed.

(** Every row of the analytical table satisfies the row invariant. *)
Lemma build_analysis_rows_derived (tw tb tu : table) rows :
  build_analysis tw tb tu = Ok rows -> Forall row_derived_ok rows.
Proof.
  apply build_analysis_Forall. intros [[w ob] ou] _. split; reflexivity.
Qed.

(** Every grade stored in the analytical table is one of the four grades. *)
Lemma build_analysis_grades_valid (tw tb tu : table) rows :
  build_analysis tw tb tu = Ok rows ->
  Forall (fun r => exists g, r.(위험도등급) = SText g /\ In g valid_grades) rows.
Proof.
  intros H. eapply Forall_impl; [exact (build_analysis_rows_derived _ _ _ _ H)|].
  intros r [_ ->]. apply risk_grade_in_valid.
Qed.

(** The WHERE clause: product name, type and country are never NULL. *)
Lemma build_analysis_not_null (tw tb tu : table) rows :
  build_analysis tw tb tu = Ok rows ->
  Forall (fun r => is_null r.(제품명) = false /\ is_null r.(제품유형) = false /\
                   is_null r.(제조국) = false) rows.
Proof.
  apply build_analysis_Forall. intros [[w ob] ou] Hw. simpl in *.
  apply andb_true_iff in Hw as [Hw H3]. apply andb_true_iff in Hw as [H1 H2].
  apply negb_true_iff in H1, H2, H3. done.
Qed.

(** C2. The invariant of the analytical table: on every row the pipeline
    builds, the hazard flag and the risk grade are the CASE expressions of
    the row's own recall code, the grade is one of 위험, 주의, 관심, 정상,
    and product name, type and country are not NULL. *)
Theorem build_analysis_table_invariant (tw tb tu : table) rows :
  build_analysis tw tb tu = Ok rows ->
  Forall (fun r => row_derived_ok r /\
                   (exists g, r.(위험도등급) = SText g /\ In g valid_grades) /\
                   is_null r.(제품명) = false /\ is_null r.(제품유형) = false /\
                   is_null r.(제조국) = false) rows.
Proof.
  intros H. pose proof (build_analysis_rows_derived _ _ _ _ H) as H1.
  pose proof (build_analysis_grades_valid _ _ _ _ H) as H2.
  pose proof (build_analysis_not_null _ _ _ _ H) as H3.
  rewrite List.Forall_forall in *. intros r Hr. naive_solver.
Qed.

(** A product row is kept by the WHERE clause. *)
Definition w_kept (tw : table) (w : list sql_value) : bool := where_ok tw (w, None, None).

Lemma left_matches_nonempty {X} (ms : list X) : left_matches ms <> [].
Proof. destruct ms; discriminate. Qed.

Lemma count_if_flat_map {A B} (p : B -> bool) (q : A -> bool) (f : A -> list B) (ws : list A) :
  (forall w x, In x (f w) -> p x = q w) -> (forall w, f w <> []) ->
  count_if q ws <= count_if p (flat_map f ws).
Proof.
  intros Hpq Hne. induction ws as [|w ws IH]; [done|]. simpl.
  rewrite count_if_app, count_if_cons. destruct (q w) eqn:Hq; [|lia].
  enough (1 <= count_if p (f w)) by lia.
  destruct (f w) as [|x l] eqn:E; [by destruct (Hne w)|].
  rewrite count_if_cons, (Hpq w x) by (rewrite E; by left). rewrite Hq. lia.
Qed.

(** C11. The LEFT JOINs drop no product row: the table has at least one row per
    product row that passes the WHERE clause. *)
Theorem build_analysis_covers (tw tb tu : table) rows :
  build_analysis tw tb tu = Ok rows -> count_if (w_kept tw) (trows tw) <= length rows.
Proof.
  unfold build_analysis. case_match; [|discriminate]. intros [= <-].
  rewrite length_map. change (length (List.filter ?p ?l)) with (count_if p l).
  apply count_if_flat_map.
  - intros w [[w' ob] ou] Hx. apply in_flat_map in Hx as (ob' & _ & Hx).
    apply in_map_iff in Hx as (ou' & [= -> -> ->] & _). reflexivity.
  - intros w. destruct (left_matches (List.filter (on_doc_key tw w tb) (trows tb))) as [|ob obs] eqn:E;
      [by destruct (left_matches_nonempty _ E)|].
    simpl. destruct (left_matches (List.filter (on_doc_key tw w tu) (trows tu))) eqn:E';
      [by destruct (left_matches_nonempty _ E')|]. discriminate.
Qed.

(** ** A concrete run: the end-to-end scenario of section 8 of the spec *)

(** Three products: D1 with recall code 12 (it contains a 1), D2 with a
    NULL code, D3 without a product name.  D1 has an inspection row; D1 and
    D2 have a company row. *)
Definition sample_w : table := mk_table w_cols
  [[SText "D1"; SInt 1; SText "과자"; SText "과자류"; SText "중국";
    SDatetime "2023-01-01 00:00:00"; SText "1년"; SNull; SNull; SText "판매중지";
    SInt 12; SNull; SNull; SNull];
   [SText "D2"; SInt 1; SText "음료"; SText "음료류"; SText "미국";
    SNull; SNull; SNull; SNull; SNull; SNull; SNull; SNull; SNull];
   [SText "D3"; SInt 1; SNull; SText "음료류"; SText "미국";
    SNull; SNull; SNull; SNull; SNull; SInt 3; SNull; SNull; SNull]].

Definition sample_b : table := mk_table b_cols
  [[SText "D1"; SInt 1; SText "대장균"; SText "음성"; SText "양성"]].

Definition sample_u : table := mk_table u_cols
  [[SText "D1"; SInt 1; SText "수입판매업"; SText "가나상사"; SText "123"; SText "서울"];
   [SText "D2"; SInt 1; SText "제조업"; SText "다라식품"; SText "456"; SText "부산"]].

(** The end-to-end scenario of the spec: the product whose recall code
    contains 1 gets hazard flag 1 and grade 위험, the product with a NULL
    code gets 0 and 정상, the product without a name is filtered out, and
    the unmatched inspection side is NULL. *)
Example build_analysis_sample :
  exists rows, build_analysis sample_w sample_b sample_u = Ok rows /\
  map (fun r => (r.(doc_no), r.(위해상품여부), r.(위험도등급), r.(부적합검사항목))) rows =
    [(SText "D1", SInt 1, SText "위험", SText "대장균");
     (SText "D2", SInt 0, SText "정상", SNull)].
Proof. eexists. split; [vm_compute; reflexivity | vm_compute; reflexivity]. Qed.

Lemma build_analysis_table_invariant_witness :
  exists rows, build_analysis sample_w sample_b sample_u = Ok rows /\
  Forall (fun r => row_derived_ok r /\
                   (exists g, r.(위험도등급) = SText g /\ In g valid_grades) /\
                   is_null r.(제품명) = false /\ is_null r.(제품유형) = false /\
                   is_null r.(제조국) = false) rows.
Proof.
  eexists. split; [vm_compute; reflexivity|].
  apply (build_analysis_table_invariant sample_w sample_b sample_u). vm_compute. reflexivity.
Defined.

Lemma build_analysis_covers_witness :
  exists rows, build_analysis sample_w sample_b sample_u = Ok rows /\
  count_if (w_kept sample_w) (trows sample_w) <= length rows.
Proof.
  eexists. split; [vm_compute; reflexivity|].
  apply (build_analysis_covers sample_w sample_b sample_u). vm_compute. reflexivity.
Defined.

End Analysis.
