(* ===== verification/Store.v ===== *)
(** * Store: the two MySQL servers and a connection's transaction

    The ETL talks to two servers through [mysql.connector] connections:
    the local one ([LOCAL_DB_CONFIG], default database [kopo]) and the EC2
    one ([EC2_DB_CONFIG], default database [kopo2]).  A server is modelled
    by the tables the scripts touch: the staging tables of its [kopo]
    database (a [gmap], see Staging.v) and the three tables of [kopo2] the
    ETL creates, each [None] until it exists.

    The connector opens a connection with autocommit off.  A connection
    therefore holds two states: [durable], what the server has committed,
    and [work], what the connection's own statements see.  An INSERT
    changes [work] only; [commit()] makes [work] durable; closing without a
    commit rolls back.  A [CREATE TABLE] first commits implicitly, then
    applies and commits itself, and a failing statement changes nothing of
    its own (InnoDB statements are atomic).  A statement that does not
    parse is rejected before any of this happens.

    The steps are given twice: as the executable [execute], [commit] and
    [close] in the state-and-exception monad of the Prelude, and as the
    inductive relation [step]; the two agree ([run_op_step]), and the
    invariants are proved by induction over [steps]. *)

From S2P Require Import Prelude PyStr Sql Staging Analysis.
From stdpp Require Import gmap.
Local Open Scope string_scope.

Module Store.
Import Staging Analysis.

(** ** Rows of the [kopo2] tables the ETL creates *)

(** [위해상품_데이터셋]: the JSON text of [input_data] and [output_text]
    (the [id] and the timestamps are filled in by MySQL and not modelled). *)
Record dataset_row := mk_dataset_row { input_data : string; output_text : string }.

(** [데이터셋_최신화_이력]: [process_name], [status], [error_message]. *)
Record history_row := mk_history_row
  { process_name : string; status : string; error_message : option string }.

(** ** The state of a server *)
Record dbstate := mk_dbstate {
  kopo : staging_db;                         (** database [kopo] *)
  analysis : option (list analysis_row);     (** [kopo2.위해상품_위험도_분석] *)
  dataset : option (list dataset_row);       (** [kopo2.위해상품_데이터셋] *)
  history : option (list history_row)        (** [kopo2.데이터셋_최신화_이력] *)
}.

Definition set_kopo (k : staging_db) (d : dbstate) : dbstate :=
  mk_dbstate k (analysis d) (dataset d) (history d).
Definition set_analysis (a : option (list analysis_row)) (d : dbstate) : dbstate :=
  mk_dbstate (kopo d) a (dataset d) (history d).
Definition set_dataset (x : option (list dataset_row)) (d : dbstate) : dbstate :=
  mk_dbstate (kopo d) (analysis d) x (history d).
Definition set_history (h : option (list history_row)) (d : dbstate) : dbstate :=
  mk_dbstate (kopo d) (analysis d) (dataset d) h.

(** ** Statements *)

Inductive stmt :=
| CreateStaging (name : string) (cols : list (string * string))   (** ETL line 117 *)
| InsertStaging (name : string) (dcs : list string) (rows : list (list cell))  (** line 131 *)
| CreateHistory                                                   (** lines 70-80 *)
| CreateAnalysis                                                  (** lines 135-182 *)
| CreateDataset                                                   (** lines 186-196 *)
| InsertDataset (input output : string)                           (** lines 224-259 *)
| InsertHistory (process st : string) (err : option string).     (** lines 264-284 *)

Definition is_ddl (s : stmt) : bool :=
  match s with
  | CreateStaging _ _ | CreateHistory | CreateAnalysis | CreateDataset => true
  | _ => false
  end.

(** Only a DataFrame without columns produces a statement that does not
    parse: [CREATE TABLE t ( )]. *)
Definition parses (s : stmt) : bool :=
  match s with CreateStaging _ [] => false | _ => true end.

Definition no_table (db name : string) : exc :=
  MySQLError ("1146 (42S02): Table '" ++ db ++ "." ++ name ++ "' doesn't exist").

(** The staging table of [kopo] a query reads, as a relation. *)
Definition kopo_table (d : dbstate) (name : string) : res table :=
  match kopo d !! name with
  | Some t => Ok (mk_table (map fst (st_cols t)) (st_rows t))
  | None => Raise (no_table "kopo" name)
  end.

(** [CREATE TABLE IF NOT EXISTS t AS SELECT ...]: nothing when [t]
    exists; otherwise the SELECT over [kopo.위해상품 w], [kopo.위해상품부적합검사 b]
    and [kopo.위해상품업체 u] of the server the statement runs on. *)
Definition create_analysis (d : dbstate) : res dbstate :=
  match analysis d with
  | Some _ => Ok d
  | None =>
    (tw <-! kopo_table d "위해상품" ;;
     tb <-! kopo_table d "위해상품부적합검사" ;;
     tu <-! kopo_table d "위해상품업체" ;;
     rows <-! build_analysis tw tb tu ;;
     Ok (set_analysis (Some rows) d))%py
  end.

(** [CREATE TABLE IF NOT EXISTS] of an empty table. *)
Definition create_if_absent {A} (t : option (list A)) : option (list A) :=
  match t with Some l => Some l | None => Some [] end.

(** [INSERT INTO t VALUES (...)] of one row. *)
Definition append_row {A} (name : string) (t : option (list A)) (x : A) : res (option (list A)) :=
  match t with Some l => Ok (Some (l ++ [x])%list) | None => Raise (no_table "kopo2" name) end.

(** The effect of a statement on the state its connection sees. *)
Definition exec_stmt (s : stmt) (d : dbstate) : res dbstate :=
  match s with
  | CreateStaging name cols => k <-! create_table name cols (kopo d) ;; Ok (set_kopo k d)
  | InsertStaging name dcs rows => k <-! insert_rows name dcs rows (kopo d) ;; Ok (set_kopo k d)
  | CreateHistory => Ok (set_history (create_if_absent (history d)) d)
  | CreateAnalysis => create_analysis d
  | CreateDataset => Ok (set_dataset (create_if_absent (dataset d)) d)
  | InsertDataset i o =>
    x <-! append_row "위해상품_데이터셋" (dataset d) (mk_dataset_row i o) ;; Ok (set_dataset x d)
  | InsertHistory p st e =>
    h <-! append_row "데이터셋_최신화_이력" (history d) (mk_history_row p st e) ;; Ok (set_history h d)
  end%py.

(** ** A connection *)

Record conn := mk_conn { durable : dbstate; work : dbstate }.

(** A connection just opened sees the server's committed state. *)
Definition connect_to (d : dbstate) : conn := mk_conn d d.

(** [cursor.execute(s)] *)
Definition execute (s : stmt) : PyM conn unit := fun c =>
  if negb (parses s) then (Raise (MySQLError "1064 (42000): You have an error in your SQL syntax"), c)
  else if is_ddl s then
    (* the implicit commit, then the statement, committed *)
    match exec_stmt s (work c) with
    | Ok d => (Ok tt, mk_conn d d)
    | Raise e => (Raise e, mk_conn (work c) (work c))
    end
  else
    match exec_stmt s (work c) with
    | Ok d => (Ok tt, mk_conn (durable c) d)
    | Raise e => (Raise e, c)
    end.

(** [connection.commit()] *)
Definition commit : PyM conn unit := fun c => (Ok tt, mk_conn (work c) (work c)).

(** [connection.close()] without a commit: the server rolls back. *)
Definition close : PyM conn unit := fun c => (Ok tt, mk_conn (durable c) (durable c)).

(** ** The step relation *)

Inductive op := Exec (s : stmt) | Commit | Close.

Definition run_op (o : op) : PyM conn unit :=
  match o with Exec s => execute s | Commit => commit | Close => close end.

Inductive step : conn -> op -> res unit -> conn -> Prop :=
| step_syntax c s :
    parses s = false ->
    step c (Exec s) (Raise (MySQLError "1064 (42000): You have an error in your SQL syntax")) c
| step_ddl c s d :
    parses s = true -> is_ddl s = true -> exec_stmt s (work c) = Ok d ->
    step c (Exec s) (Ok tt) (mk_conn d d)
| step_ddl_err c s e :
    parses s = true -> is_ddl s = true -> exec_stmt s (work c) = Raise e ->
    step c (Exec s) (Raise e) (mk_conn (work c) (work c))
| step_dml c s d :
    is_ddl s = false -> exec_stmt s (work c) = Ok d ->
    step c (Exec s) (Ok tt) (mk_conn (durable c) d)
| step_dml_err c s e :
    is_ddl s = false -> exec_stmt s (work c) = Raise e ->
    step c (Exec s) (Raise e) c
| step_commit c : step c Commit (Ok tt) (mk_conn (work c) (work c))
| step_close c : step c Close (Ok tt) (mk_conn (durable c) (durable c)).

(** A sequence of operations, each run whatever the previous one gave. *)
Inductive steps : conn -> list op -> conn -> Prop :=
| steps_nil c : steps c [] c
| steps_cons c o r c' os c'' : step c o r c' -> steps c' os c'' -> steps c (o :: os) c''.

Lemma parses_dml s : is_ddl s = false -> parses s = true.
Proof. by destruct s as [? []| | | | | |]. Qed.

(** The executable operations and the relation agree. *)
Lemma run_op_step o c r c' : run_op o c = (r, c') <-> step c o r c'.
Proof.
  split.
  - destruct o as [s| |]; simpl; [|intros [=<- <-]; constructor..].
    unfold execute. destruct (parses s) eqn:Hp; simpl; [|intros [=<- <-]; by constructor].
    destruct (is_ddl s) eqn:Hd, (exec_stmt s (work c)) eqn:He; intros [=<- <-];
      [destruct a|..]; by econstructor.
  - intros Hs. destruct Hs; simpl; unfold execute, commit, close;
      rewrite ?parses_dml by done; repeat match goal with H : _ = _ |- _ => rewrite H end;
      simpl; done.
Qed.

(** ** Growth of a server's tables

    [db_le d1 d2]: [d2] is [d1] with rows appended and tables created:
    every staging table keeps its columns and its rows as a prefix, the
    analytical table once created stays as it is, and the dataset and the
    history keep their rows as a prefix. *)
Definition opt_prefix {A} (o1 o2 : option (list A)) : Prop :=
  match o1 with None => True | Some l1 => exists l2, o2 = Some l2 /\ l1 `prefix_of` l2 end.

Definition tbl_le (t1 t2 : staged) : Prop :=
  st_cols t1 = st_cols t2 /\ st_rows t1 `prefix_of` st_rows t2.

Definition kopo_le (k1 k2 : staging_db) : Prop :=
  forall n t1, k1 !! n = Some t1 -> exists t2, k2 !! n = Some t2 /\ tbl_le t1 t2.

Definition db_le (d1 d2 : dbstate) : Prop :=
  kopo_le (kopo d1) (kopo d2) /\
  (analysis d1 = None \/ analysis d2 = analysis d1) /\
  opt_prefix (dataset d1) (dataset d2) /\ opt_prefix (history d1) (history d2).

#[export] Instance opt_prefix_preorder {A} : PreOrder (@opt_prefix A).
Proof.
  split.
  - intros [l|]; simpl; [by exists l|done].
  - intros [l1|] [l2|] [l3|]; simpl; try naive_solver.
    intros (? & [=<-] & H1) (? & [=<-] & H2). eexists. split; [done|]. by etrans.
Qed.

#[export] Instance tbl_le_preorder : PreOrder tbl_le.
Proof.
  split; [intros t; split; done|].
  intros t1 t2 t3 [E1 P1] [E2 P2]. split; [congruence|by etrans].
Qed.

#[export] Instance kopo_le_preorder : PreOrder kopo_le.
Proof.
  split; [intros k n t Ht; exists t; split; [done|reflexivity]|].
  intros k1 k2 k3 H12 H23 n t1 Ht1.
  destruct (H12 n t1 Ht1) as (t2 & Ht2 & L12). destruct (H23 n t2 Ht2) as (t3 & Ht3 & L23).
  exists t3. split; [done|by etrans].
Qed.

#[export] Instance db_le_preorder : PreOrder db_le.
Proof.
  split.
  - intros d. repeat split; [reflexivity|by right|reflexivity|reflexivity].
  - intros d1 d2 d3 (K1 & A1 & X1 & H1) (K2 & A2 & X2 & H2).
    repeat split; [by etrans| |by etrans|by etrans].
    destruct A1 as [|A1]; [by left|]. destruct A2 as [|A2]; [left; congruence|right; congruence].
Qed.

Lemma kopo_le_insert (k : staging_db) name t' :
  (forall t, k !! name = Some t -> tbl_le t t') -> kopo_le k (<[name := t']> k).
Proof.
  intros H n t1 Ht1. destruct (decide (n = name)) as [->|Hne].
  - exists t'. rewrite lookup_insert_eq. auto.
  - exists t1. rewrite lookup_insert_ne by congruence. split; [done|reflexivity].
Qed.

Lemma create_table_le name cols k k' : create_table name cols k = Ok k' -> kopo_le k k'.
Proof.
  unfold create_table. destruct cols; [done|].
  destruct (k !! name) eqn:E; [intros [=<-]; reflexivity|].
  case_bool_decide; [|done]. intros [=<-]. apply kopo_le_insert. intros t Ht. congruence.
Qed.

Lemma insert_rows_le name dcs rows k k' : insert_rows name dcs rows k = Ok k' -> kopo_le k k'.
Proof.
  destruct rows as [|row rows]; [intros [=<-]; reflexivity|].
  intros (t & rs & Ht & _ & ->)%insert_rows_Ok_inv; [|done].
  apply kopo_le_insert. intros t' Ht'. rewrite Ht in Ht'. injection Ht' as <-.
  split; [done|]. by exists rs.
Qed.

Lemma create_if_absent_prefix {A} (t : option (list A)) : opt_prefix t (create_if_absent t).
Proof. destruct t as [l|]; simpl; [exists l; split; [done|reflexivity]|done]. Qed.

Lemma append_row_prefix {A} name (t : option (list A)) x t' :
  append_row name t x = Ok t' -> opt_prefix t t'.
Proof. destruct t as [l|]; simpl; [intros [=<-]; eexists; split; [done|by exists [x]]|done]. Qed.

Lemma create_analysis_le d d' : create_analysis d = Ok d' -> db_le d d'.
Proof.
  unfold create_analysis. destruct (analysis d) eqn:Ea; [intros [=<-]; reflexivity|].
  intros H. repeat (apply res_bind_Ok in H as (? & _ & H)). injection H as <-.
  repeat split; [reflexivity|by left|reflexivity|reflexivity].
Qed.

#[local] Hint Resolve create_table_le insert_rows_le create_if_absent_prefix append_row_prefix : core.

(** Every statement that succeeds only appends rows and creates tables. *)
Lemma exec_stmt_le s d d' : exec_stmt s d = Ok d' -> db_le d d'.
Proof.
  destruct s; simpl; try apply create_analysis_le; intros H;
    repeat match goal with H : res_bind _ _ = Ok _ |- _ => apply res_bind_Ok in H as (? & ? & H) end;
    injection H as <-; repeat split; simpl; first [by eauto | reflexivity | by right].
Qed.

(** ** Invariants of a connection *)

(** What a connection sees extends what the server has committed. *)
Definition conn_wf (c : conn) : Prop := db_le (durable c) (work c).

(** Run operations one after the other, whatever each one gives. *)
Fixpoint run_ops (os : list op) (c : conn) : conn :=
  match os with [] => c | o :: os' => run_ops os' (snd (run_op o c)) end.

Lemma steps_run_ops os c : steps c os (run_ops os c).
Proof.
  revert c. induction os as [|o os IH]; intros c; simpl; [constructor|].
  destruct (run_op o c) as [r c'] eqn:E. econstructor; [apply run_op_step, E|apply IH].
Qed.

Lemma connect_to_wf d : conn_wf (connect_to d).
Proof. unfold conn_wf. simpl. reflexivity. Qed.

Lemma step_wf c o r c' : conn_wf c -> step c o r c' -> conn_wf c'.
Proof.
  unfold conn_wf. intros Hwf Hs. destruct Hs; simpl; try reflexivity; try done.
  etrans; [exact Hwf|]. by eapply exec_stmt_le.
Qed.

Lemma step_durable_le c o r c' : conn_wf c -> step c o r c' -> db_le (durable c) (durable c').
Proof.
  unfold conn_wf. intros Hwf Hs. destruct Hs; simpl; try reflexivity; try done.
  etrans; [exact Hwf|]. by eapply exec_stmt_le.
Qed.

#[export] Hint Resolve connect_to_wf steps_run_ops : pyetl.

(** C28: Committed data only grows: along any sequence of statements,
    commits and closes on a connection, each staging table keeps its
    columns and its committed rows as a prefix, the analytical table once
    committed never changes, and the dataset and the history table never
    lose or change a committed row (the history is an append-only log). *)
Theorem steps_durable_grows c os c' :
  conn_wf c -> steps c os c' -> db_le (durable c) (durable c').
Proof.
  intros Hwf Hs. induction Hs as [c|c o r c1 os c2 Hs1 Hs IH]; [reflexivity|].
  etrans; [by eapply step_durable_le|]. apply IH. by eapply step_wf.
Qed.

(** ** Sample states *)

Definition empty_db : dbstate := mk_dbstate ∅ None None None.

Definition sample_ops : list op :=
  [Exec CreateHistory; Exec (InsertHistory "ETL 프로세스" "성공" None); Commit;
   Exec (InsertHistory "ETL 프로세스" "실패" (Some "boom")); Close].

Lemma steps_durable_grows_witness :
  conn_wf (connect_to empty_db) /\
  steps (connect_to empty_db) sample_ops (run_ops sample_ops (connect_to empty_db)) /\
  db_le (durable (connect_to empty_db)) (durable (run_ops sample_ops (connect_to empty_db))).
Proof.
  split; [apply connect_to_wf|]. split; [apply steps_run_ops|].
  apply (steps_durable_grows _ sample_ops); [apply connect_to_wf|apply steps_run_ops].
Defined.

End Store.
