(* ===== verification/Dataset.v ===== *)
(** * Dataset: the labelled examples derived from the analytical table

    [local_to_ec2_etl.py], lines 198-261.  The ETL selects the distinct
    projections of the analytical rows whose inspection result, product
    name and country are not NULL, and for each one builds the dict
    [input_data], labels it with the recall-reason classifier, serialises
    the dict with [json.dumps(input_data, ensure_ascii=False)] and inserts
    the pair into [위해상품_데이터셋]; one commit follows the loop.

    [json.dumps] is modelled on the values a fetched row can hold: [None]
    is [null], an [int] its decimal text, a [float] its [repr], a [str] a
    JSON string with Python's escapes (ensure_ascii=False leaves non-ASCII
    characters as they are), and a [datetime] raises [TypeError].  A
    decoder of the JSON this produces gives the round trip. *)

From S2P Require Import Prelude PyStr Sql Classifier Analysis Staging Store.
From Stdlib Require Import DecimalString DecimalPos.
Local Open Scope string_scope.

Module Dataset.
Import Analysis Store.

(** ** JSON text, as [json.dumps] writes it *)

Definition chr (n : nat) : ascii := Ascii.ascii_of_nat n.
Definition dq : ascii := chr 34.   (** the double quote *)
Definition bs : ascii := chr 92.   (** the backslash *)

(** The hex digit [json] writes, in lower case. *)
Definition hex_digit (n : nat) : ascii :=
  if Nat.ltb n 10 then chr (48 + n) else chr (87 + n).

(** Python's [ESCAPE_DCT] for one byte: the quote, the backslash and the
    control characters are escaped; every other byte, UTF-8 included, is
    written as it is. *)
Definition json_char (a : ascii) : string :=
  let n := Ascii.nat_of_ascii a in
  if Nat.eqb n 34 then String bs (String dq EmptyString)
  else if Nat.eqb n 92 then String bs (String bs EmptyString)
  else if Nat.eqb n 8 then String bs "b"
  else if Nat.eqb n 12 then String bs "f"
  else if Nat.eqb n 10 then String bs "n"
  else if Nat.eqb n 13 then String bs "r"
  else if Nat.eqb n 9 then String bs "t"
  else if Nat.ltb n 32 then
    String bs (String "u" (String "0" (String "0"
      (String (hex_digit (n / 16)) (String (hex_digit (n mod 16)) EmptyString)))))
  else String a EmptyString.

Fixpoint json_escape (s : string) : string :=
  match s with
  | EmptyString => EmptyString
  | String a s' => json_char a ++ json_escape s'
  end.

Definition json_string (s : string) : string := String dq (json_escape s ++ String dq EmptyString).

(** [repr] of the [float] the connector makes of a FLOAT's text: an
    integral value gets its [.0].  (The exponent spelling of very large or
    small values is not normalised.) *)
Definition py_float_repr (t : string) : string :=
  if contains "." t || contains "e" t then t else t ++ ".0".

Definition dt_error : exc := TypeError "Object of type datetime is not JSON serializable".

(** One value of the dict. *)
Definition json_value (v : sql_value) : res string :=
  match v with
  | SNull => Ok "null"
  | SInt z => Ok (z_to_dec z)
  | SFloat t => Ok (py_float_repr t)
  | SText s => Ok (json_string s)
  | SDatetime _ => Raise dt_error
  end.

(** One item: the key, [": "], the value. *)
Definition json_member (kv : string * sql_value) : res string :=
  (v <-! json_value kv.2 ;; Ok (json_string kv.1 ++ ": " ++ v))%py.

(** [json.dumps(d, ensure_ascii=False)] of a flat dict, items in order,
    with the default separators [", "] and [": "]. *)
Definition json_dumps (kvs : list (string * sql_value)) : res string :=
  (parts <-! res_mapM json_member kvs ;;
   Ok ("{" ++ String.concat ", " parts ++ "}"))%py.

(** ** Decoding the JSON it writes *)

Definition hex_val (a : ascii) : option nat :=
  let n := Ascii.nat_of_ascii a in
  if Nat.leb 48 n && Nat.leb n 57 then Some (n - 48)
  else if Nat.leb 97 n && Nat.leb n 102 then Some (n - 87) else None.

Definition cons_fst (a : ascii) (o : option (string * string)) : option (string * string) :=
  match o with Some (d, r) => Some (String a d, r) | None => None end.

(** The body of a JSON string up to its closing quote: the text it
    denotes and what follows the quote. *)
Fixpoint json_unescape (s : string) : option (string * string) :=
  match s with
  | EmptyString => None
  | String a s1 =>
    if Ascii.eqb a dq then Some (EmptyString, s1)
    else if Ascii.eqb a bs then
      match s1 with
      | EmptyString => None
      | String b s2 =>
        if Ascii.eqb b dq then cons_fst dq (json_unescape s2)
        else if Ascii.eqb b bs then cons_fst bs (json_unescape s2)
        else if Ascii.eqb b "b" then cons_fst (chr 8) (json_unescape s2)
        else if Ascii.eqb b "f" then cons_fst (chr 12) (json_unescape s2)
        else if Ascii.eqb b "n" then cons_fst (chr 10) (json_unescape s2)
        else if Ascii.eqb b "r" then cons_fst (chr 13) (json_unescape s2)
        else if Ascii.eqb b "t" then cons_fst (chr 9) (json_unescape s2)
        else if Ascii.eqb b "u" then
          match s2 with
          | String h1 (String h2 (String h3 (String h4 s3))) =>
            match hex_val h1, hex_val h2, hex_val h3, hex_val h4 with
            | Some 0, Some 0, Some x, Some y => cons_fst (chr (16 * x + y)) (json_unescape s3)
            | _, _, _, _ => None
            end
          | _ => None
          end
        else None
      end
    else cons_fst a (json_unescape s1)
  end.

Lemma json_unescape_char a t :
  json_unescape (json_char a ++ t) = cons_fst a (json_unescape t).
Proof. destruct a as [[] [] [] [] [] [] [] []]; reflexivity. Qed.

Lemma json_unescape_escape s rest :
  json_unescape (json_escape s ++ String dq rest) = Some (s, rest).
Proof.
  induction s as [|a s IH]; [reflexivity|].
  cbn [json_escape]. rewrite str_app_assoc, json_unescape_char, IH. reflexivity.
Qed.

(** The values a decoded document holds. *)
Inductive jvalue := JNull | JNum (txt : string) | JStr (s : string).

Definition jvalue_of (v : sql_value) : jvalue :=
  match v with
  | SNull => JNull
  | SInt z => JNum (z_to_dec z)
  | SFloat t => JNum (py_float_repr t)
  | SText s => JStr s
  | SDatetime t => JStr t   (** not reached: [json_value] raises *)
  end.

Definition expect (c : ascii) (s : string) : option string :=
  match s with String a r => if Ascii.eqb a c then Some r else None | EmptyString => None end.

Definition is_num_end (a : ascii) : bool := Ascii.eqb a "," || Ascii.eqb a "}".

(** The text of a number: up to the next [,] or [}]. *)
Fixpoint take_num (s : string) : string * string :=
  match s with
  | String a s' => if is_num_end a then (EmptyString, s)
                   else let '(n, r) := take_num s' in (String a n, r)
  | EmptyString => (EmptyString, EmptyString)
  end.

Definition parse_value (s : string) : option (jvalue * string) :=
  match s with
  | EmptyString => None
  | String a s' =>
    if Ascii.eqb a dq then
      match json_unescape s' with Some (d, r) => Some (JStr d, r) | None => None end
    else if String.prefix "null" s then Some (JNull, str_drop 4 s)
    else match take_num s with
         | (EmptyString, _) => None
         | (n, r) => Some (JNum n, r)
         end
  end.

(** The members of an object after its [{], with fuel for their number. *)
Fixpoint parse_members (fuel : nat) (s : string) : option (list (string * jvalue)) :=
  match fuel with
  | 0 => None
  | S f =>
    match expect dq s with
    | None => None
    | Some s1 =>
      match json_unescape s1 with
      | None => None
      | Some (k, s2) =>
        match option_bind _ _ (expect " ") (expect ":" s2) with
        | None => None
        | Some s3 =>
          match parse_value s3 with
          | Some (v, String "}" EmptyString) => Some [(k, v)]
          | Some (v, String "," (String " " s4)) =>
            option_map (cons (k, v)) (parse_members f s4)
          | _ => None
          end
        end
      end
    end
  end.

Definition json_parse (s : string) : option (list (string * jvalue)) :=
  match expect "{" s with
  | None => None
  | Some s1 => if String.eqb s1 "}" then Some [] else parse_members (String.length s1) s1
  end.

(** ** The round trip *)

Definition num_char (a : ascii) : bool :=
  let n := Ascii.nat_of_ascii a in
  (Nat.leb 48 n && Nat.leb n 57) || Nat.eqb n 45 || Nat.eqb n 43 || Nat.eqb n 46 || Nat.eqb n 101.

Fixpoint str_forall (p : ascii -> bool) (s : string) : bool :=
  match s with EmptyString => true | String a s' => p a && str_forall p s' end.

(** The text of a number as MySQL renders it: digits, signs, a point and
    an exponent. *)
Definition num_ok (t : string) : Prop := t <> EmptyString /\ str_forall num_char t = true.

Definition value_ok (v : sql_value) : Prop :=
  match v with SFloat t => num_ok t | _ => True end.

Definition tail_ok (x : string) : Prop := exists a r, x = String a r /\ is_num_end a = true.

Lemma str_forall_app p s t : str_forall p (s ++ t) = str_forall p s && str_forall p t.
Proof. induction s as [|a s IH]; [done|]. str_simpl. simpl. rewrite IH. apply andb_assoc. Qed.

Lemma num_ok_z z : num_ok (z_to_dec z).
Proof.
  assert (U : forall d, str_forall num_char (NilEmpty.string_of_uint d) = true)
    by (induction d; simpl; auto).
  unfold z_to_dec, num_ok. destruct z as [|p|p]; simpl; [split; [done|reflexivity]| |split; [done|apply U]].
  split; [|apply U]. pose proof (DecimalPos.Unsigned.to_uint_nonnil p) as Hn.
  destruct (Pos.to_uint p); simpl; done.
Qed.

Lemma num_ok_float t : num_ok t -> num_ok (py_float_repr t).
Proof.
  unfold py_float_repr. intros [Hne Hf]. destruct (_ || _); [by split|].
  split; [by destruct t|]. rewrite str_forall_app, Hf. reflexivity.
Qed.

Lemma take_num_ok t x : str_forall num_char t = true -> tail_ok x -> take_num (t ++ x) = (t, x).
Proof.
  intros Ht (a & r & -> & Ha). induction t as [|b t IH]; simpl.
  - by rewrite Ha.
  - simpl in Ht. apply andb_true_iff in Ht as [Hb Ht]. str_simpl. simpl. rewrite IH by done.
    destruct b as [[] [] [] [] [] [] [] []]; done.
Qed.

Lemma parse_value_num t x : num_ok t -> tail_ok x -> parse_value (t ++ x) = Some (JNum t, x).
Proof.
  intros [Hne Ht] Hx. destruct t as [|a t']; [done|].
  pose proof (take_num_ok (String a t') x Ht Hx) as Htk. rewrite str_app_cons in Htk |- *.
  simpl in Ht. apply andb_true_iff in Ht as [Ha _].
  unfold parse_value. rewrite Htk. destruct a as [[] [] [] [] [] [] [] []]; done.
Qed.

Lemma json_string_app k s : json_string k ++ s = String dq (json_escape k ++ String dq s).
Proof. unfold json_string. str_simpl. by rewrite str_app_assoc. Qed.

Lemma parse_value_json v t x :
  json_value v = Ok t -> value_ok v -> tail_ok x -> parse_value (t ++ x) = Some (jvalue_of v, x).
Proof.
  destruct v as [|z|f|s|d]; simpl; intros Hv Hok Hx; injection Hv as <- || discriminate.
  - destruct Hx as (a & r & -> & _). reflexivity.
  - by apply parse_value_num; [apply num_ok_z|].
  - by apply parse_value_num; [apply num_ok_float|].
  - rewrite json_string_app. simpl. rewrite json_unescape_escape. reflexivity.
Qed.

Definition json_item (kv : string * sql_value) (p : string) : Prop :=
  exists t, json_value kv.2 = Ok t /\ p = json_string kv.1 ++ (": " ++ t).

Lemma json_dumps_Ok kvs js :
  json_dumps kvs = Ok js ->
  exists parts, Forall2 json_item kvs parts /\ js = "{" ++ (String.concat ", " parts ++ "}").
Proof.
  unfold json_dumps. rewrite res_bind_Ok. intros (parts & Hp & [=<-]).
  exists parts. split; [|done]. apply res_mapM_Ok in Hp.
  eapply Forall2_impl; [exact Hp|]. intros kv p Hkv. unfold json_member in Hkv.
  apply res_bind_Ok in Hkv as (t & Ht & [=<-]).
  by exists t.
Qed.

Lemma parse_members_item f k v t x :
  json_value v = Ok t -> value_ok v -> tail_ok x ->
  parse_members (S f) ((json_string k ++ (": " ++ t)) ++ x) =
  match parse_value (t ++ x) with
  | Some (jv, String "}" EmptyString) => Some [(k, jv)]
  | Some (jv, String "," (String " " s4)) => option_map (cons (k, jv)) (parse_members f s4)
  | _ => None
  end.
Proof.
  intros Hv Hok Hx. rewrite str_app_assoc, json_string_app, (str_app_assoc ": " t x).
  rewrite !str_app_cons, str_app_nil_l. cbn [parse_members expect]. rewrite Ascii.eqb_refl.
  cbn iota. rewrite json_unescape_escape. reflexivity.
Qed.

Lemma parse_members_concat f kvs parts :
  Forall (fun kv => value_ok kv.2) kvs -> Forall2 json_item kvs parts -> kvs <> [] ->
  length kvs <= f ->
  parse_members f (String.concat ", " parts ++ "}") = Some (map (fun kv => (kv.1, jvalue_of kv.2)) kvs).
Proof.
  intros Hok HF. revert f Hok. induction HF as [|kv p kvs parts (t & Ht & ->) HF IH]; [done|].
  intros [|f] Hok _ Hf; [simpl in Hf; lia|]. apply Forall_cons in Hok as [Hv Hok].
  destruct HF as [|kv2 p2 kvs' parts' Hi2 HF'].
  - simpl String.concat. rewrite (parse_members_item f kv.1 kv.2 t) by (done || (by exists "}"%char, EmptyString)).
    rewrite (parse_value_json _ _ _ Ht Hv) by (by exists "}"%char, EmptyString). reflexivity.
  - change (String.concat ", " ((json_string kv.1 ++ ": " ++ t) :: p2 :: parts'))
      with ((json_string kv.1 ++ ": " ++ t) ++ (", " ++ String.concat ", " (p2 :: parts'))).
    rewrite (str_app_assoc _ (", " ++ _)).
    rewrite (parse_members_item f kv.1 kv.2 t) by (done || (by eexists ","%char, _)).
    rewrite (parse_value_json _ _ _ Ht Hv) by (by eexists ","%char, _).
    rewrite (str_app_assoc ", "), !str_app_cons, str_app_nil_l. cbv iota beta.
    rewrite IH; [reflexivity|done|done|simpl in Hf |- *; lia].
Qed.

Lemma concat_length_ge (ps : list string) :
  Forall (fun p => p <> EmptyString) ps -> length ps <= String.length (String.concat ", " ps).
Proof.
  induction 1 as [|p ps Hp Hps IH]; [simpl; lia|].
  destruct ps as [|p' ps']; simpl String.concat; [destruct p; [done|simpl; lia]|].
  rewrite !str_length_app. simpl in *. lia.
Qed.

(** The JSON text decodes to what was encoded: when [json.dumps] succeeds
    on the items, decoding gives back the same keys, in the same order,
    with each value as JSON denotes it ([None] as null, numbers by their
    text, strings character for character, quotes, backslashes and
    control characters included). *)
Lemma json_dumps_roundtrip kvs js :
  Forall (fun kv => value_ok kv.2) kvs -> json_dumps kvs = Ok js ->
  json_parse js = Some (map (fun kv => (kv.1, jvalue_of kv.2)) kvs).
Proof.
  intros Hok (parts & HF & ->)%json_dumps_Ok. unfold json_parse. rewrite str_app_cons, str_app_nil_l.
  destruct HF as [|kv p kvs parts Hi HF]; [reflexivity|].
  cbn [expect]. rewrite Ascii.eqb_refl. cbv iota beta.
  destruct Hi as (t & Ht & ->).
  assert (Hne : String.eqb (String.concat ", " ((json_string kv.1 ++ ": " ++ t) :: parts) ++ "}") "}"
                = false).
  { destruct parts; simpl String.concat; rewrite ?str_app_assoc, json_string_app; reflexivity. }
  rewrite Hne. apply parse_members_concat; [done|by constructor; [exists t|]|done|].
  rewrite str_length_app. simpl length. pose proof (Forall2_length json_item _ _ HF) as Hl.
  change (String.length "}") with 1.
  enough (length parts <= String.length (String.concat ", " ((json_string kv.1 ++ ": " ++ t) :: parts)))
    by lia.
  etrans; [|apply concat_length_ge]; [simpl; lia|].
  constructor; [by rewrite json_string_app|].
  clear -HF. induction HF as [|? ? ? ? (t' & _ & ->) _ IH]; constructor; [|done].
  by rewrite json_string_app.
Qed.

(** ** The SELECT DISTINCT, lines 199-216 *)

(** The select list, in order: [row[0]] to [row[9]]. *)
Definition ds_project (r : analysis_row) : list sql_value :=
  [제품명 r; 제조국 r; 부적합검사항목 r; 부적합검사결과 r; 회수조치내용 r;
   위험도등급 r; 제품유형 r; 제조일자 r; 유통기한 r; 업체유형 r].

(** [WHERE 부적합검사결과 IS NOT NULL AND 제품명 IS NOT NULL AND 제조국 IS NOT NULL] *)
Definition ds_where (r : analysis_row) : bool :=
  negb (is_null (부적합검사결과 r)) && negb (is_null (제품명 r)) && negb (is_null (제조국 r)).

(** [DISTINCT]: a row is kept unless an equal one came before (NULLs are
    equal for DISTINCT).  MySQL does not promise an order; the model keeps
    the scan order. *)
Fixpoint distinct_go (seen : list (list sql_value)) (rows : list (list sql_value))
    : list (list sql_value) :=
  match rows with
  | [] => []
  | r :: rs => if bool_decide (r ∈ seen) then distinct_go seen rs else r :: distinct_go (r :: seen) rs
  end.

(** [ec2_cursor.execute(SELECT DISTINCT ...)] then [fetchall()]. *)
Definition select_distinct (d : dbstate) : res (list (list sql_value)) :=
  match analysis d with
  | None => Raise (no_table "kopo2" "위해상품_위험도_분석")
  | Some rows => Ok (distinct_go [] (map ds_project (List.filter ds_where rows)))
  end.

(** ** One row of the loop, lines 221-259 *)

(** [row[i]] on a fetched tuple. *)
Definition py_index {A} (row : list A) (i : nat) : res A :=
  match row !! i with Some x => Ok x | None => Raise (IndexError "tuple index out of range") end.

(** The dict literal [input_data], its values evaluated in order. *)
Definition input_items (row : list sql_value) : res (list (string * sql_value)) :=
  (v0 <-! py_index row 0 ;; v1 <-! py_index row 1 ;; v6 <-! py_index row 6 ;;
   v7 <-! py_index row 7 ;; v8 <-! py_index row 8 ;; v3 <-! py_index row 3 ;;
   v9 <-! py_index row 9 ;; v5 <-! py_index row 5 ;;
   Ok [("제품명", v0); ("제조국", v1); ("제품유형", v6); ("제조일자", v7);
       ("유통기한", v8); ("검사결과", v3); ("업체유형", v9); ("위험도등급", v5)])%py.

(** The text MySQL stores in the TEXT column [output_text] for the Python
    value passed ([None] does not occur: the classifier's fallback is
    taken when [row[4]] is falsy). *)
Definition output_param (v : sql_value) : string :=
  match v with
  | SNull => EmptyString
  | SInt z => z_to_dec z
  | SFloat t => py_float_repr t
  | SText s => s
  | SDatetime t => t
  end.

(** The pair the loop inserts for [row]: the dict, the classifier's label
    (lines 237-255), then [json.dumps] when the parameters are built. *)
Definition dataset_entry (row : list sql_value) : res (string * string) :=
  (items <-! input_items row ;;
   r2 <-! py_index row 2 ;; r3 <-! py_index row 3 ;; r4 <-! py_index row 4 ;;
   out <-! Classifier.recall_reason r2 r3 r4 ;;
   js <-! json_dumps items ;;
   Ok (js, output_param out))%py.

(** The body of the loop: [ec2_cursor.execute(insert_query, (...))]. *)
Definition dataset_body (row : list sql_value) : PyM conn unit := fun c =>
  match dataset_entry row with
  | Ok (js, o) => execute (InsertDataset js o) c
  | Raise e => (Raise e, c)
  end.

(** Lines 199-262: the query, the loop, the commit; the result is
    [len(rows)], which the log line reports. *)
Definition build_dataset : PyM conn nat := fun c =>
  match select_distinct (work c) with
  | Raise e => (Raise e, c)
  | Ok rows => (forM rows dataset_body ;;; commit ;;; retM (length rows))%py c
  end.

(** ** Properties of the dataset derivation *)

Lemma distinct_go_spec seen rows :
  NoDup (distinct_go seen rows) /\
  forall x, x ∈ distinct_go seen rows <-> x ∈ rows /\ x ∉ seen.
Proof.
  revert seen. induction rows as [|r rs IH]; intros seen; simpl.
  - split; [constructor|]. intros x. rewrite elem_of_nil. tauto.
  - case_bool_decide as Hr.
    + destruct (IH seen) as [Hnd Hx]. split; [done|]. intros x. rewrite Hx, elem_of_cons.
      split; [tauto|]. intros [[->|Hin] Hs]; [contradiction|tauto].
    + destruct (IH (r :: seen)) as [Hnd Hx]. split.
      * constructor; [|done]. rewrite Hx, elem_of_cons. tauto.
      * intros x. rewrite elem_of_cons, Hx, !elem_of_cons. split.
        -- intros [->|[Hin Hs]]; tauto.
        -- intros [[->|Hin] Hs]; [tauto|]. destruct (decide (x = r)); tauto.
Qed.

(** The effect of one successful row: its pair appended to the dataset
    table, uncommitted. *)
Definition with_rows (d : dbstate) (old : list dataset_row) (es : list (string * string)) : dbstate :=
  set_dataset (Some (old ++ map (fun e => mk_dataset_row e.1 e.2) es)%list) d.

Lemma dataset_body_Ok row js o c old :
  dataset_entry row = Ok (js, o) -> dataset (work c) = Some old ->
  dataset_body row c = (Ok tt, mk_conn (durable c) (with_rows (work c) old [(js, o)])).
Proof.
  intros He Hd. unfold dataset_body, execute. rewrite He. cbn [parses is_ddl negb exec_stmt].
  rewrite Hd. reflexivity.
Qed.

Lemma with_rows_app d old es1 es2 :
  with_rows (with_rows d old es1) (old ++ map (fun e => mk_dataset_row e.1 e.2) es1) es2 =
  with_rows d old (es1 ++ es2).
Proof. unfold with_rows. simpl. by rewrite map_app, List.app_assoc. Qed.

(** The loop over rows whose entries all succeed appends their pairs, in
    order, to what the connection sees. *)
Lemma forM_dataset_body rows es c old :
  Forall2 (fun row e => dataset_entry row = Ok e) rows es -> dataset (work c) = Some old ->
  forM rows dataset_body c = (Ok tt, mk_conn (durable c) (with_rows (work c) old es)).
Proof.
  intros HF. revert c old. induction HF as [|row [js o] rows es He HF IH]; intros c old Hd.
  - cbn [forM]. unfold retM, with_rows. cbn [map]. rewrite app_nil_r, <- Hd.
    by destruct c as [? []].
  - cbn [forM]. rewrite (bindM_ok _ _ _ _ _ (dataset_body_Ok _ _ _ _ _ He Hd)).
    rewrite (IH _ (old ++ map (fun e => mk_dataset_row e.1 e.2) [(js, o)])%list) by reflexivity.
    cbn [durable work]. by rewrite (with_rows_app _ _ [(js, o)]).
Qed.
(** Conversely, a loop that runs through had every entry succeed. *)
Lemma forM_dataset_body_inv rows c old c' :
  dataset (work c) = Some old -> forM rows dataset_body c = (Ok tt, c') ->
  exists es, Forall2 (fun row e => dataset_entry row = Ok e) rows es /\
    c' = mk_conn (durable c) (with_rows (work c) old es).
Proof.
  revert c old. induction rows as [|row rows IH]; intros c old Hd H; cbn [forM] in H.
  - injection H as <-. exists []. split; [constructor|].
    unfold with_rows. cbn [map]. rewrite app_nil_r, <- Hd. by destruct c as [? []].
  - apply bindM_Ok_inv in H as ([] & c1 & H1 & H).
    destruct (dataset_entry row) as [[js o]|e] eqn:He.
    2: { unfold dataset_body in H1. rewrite He in H1. discriminate. }
    rewrite (dataset_body_Ok _ _ _ _ _ He Hd) in H1. injection H1 as <-.
    destruct (IH (mk_conn (durable c) (with_rows (work c) old [(js, o)])) _ eq_refl H)
      as (es & HF & ->).
    exists ((js, o) :: es). split; [by constructor|].
    cbn [durable work]. by rewrite (with_rows_app _ _ [(js, o)]).
Qed.

(** A dataset step that returns normally read the distinct rows, derived
    each one's pair and committed them all. *)
Lemma build_dataset_Ok_inv c n c' old :
  dataset (work c) = Some old -> build_dataset c = (Ok n, c') ->
  exists rows es, select_distinct (work c) = Ok rows /\
    Forall2 (fun row e => dataset_entry row = Ok e) rows es /\
    c' = connect_to (with_rows (work c) old es).
Proof.
  intros Hd. unfold build_dataset. destruct (select_distinct (work c)) as [rows|e]; [|discriminate].
  intros H. apply bindM_Ok_inv in H as ([] & c1 & H1 & H).
  destruct (forM_dataset_body_inv _ _ _ _ Hd H1) as (es & HF & ->).
  apply bindM_Ok_inv in H as ([] & c2 & H2 & H). injection H2 as <-. injection H as _ <-.
  eauto.
Qed.

(** Each row has one pair: the entries of the same rows are the same. *)
Lemma dataset_entries_unique rows es1 es2 :
  Forall2 (fun row e => dataset_entry row = Ok e) rows es1 ->
  Forall2 (fun row e => dataset_entry row = Ok e) rows es2 -> es1 = es2.
Proof.
  intros H1. revert es2. induction H1 as [|row e1 rows es1 He1 _ IH]; intros es2 H2;
    inversion H2 as [|? e2 ? es2' He2 H2']; subst; [done|].
  rewrite He1 in He2. injection He2 as ->. f_equal. by apply IH.
Qed.

(** The query reads the analytical table only. *)
Lemma select_distinct_analysis d1 d2 : analysis d1 = analysis d2 -> select_distinct d1 = select_distinct d2.
Proof. unfold select_distinct. by intros ->. Qed.

Lemma json_member_Raise kv e : json_member kv = Raise e -> e = dt_error.
Proof. unfold json_member. destruct kv as [k []]; simpl; congruence. Qed.

(** [json.dumps] raises [TypeError] as soon as one value is a [datetime]. *)
Lemma json_dumps_datetime kvs k t :
  (k, SDatetime t) ∈ kvs -> json_dumps kvs = Raise dt_error.
Proof.
  intros Hin. unfold json_dumps. enough (res_mapM json_member kvs = Raise dt_error) as -> by done.
  induction kvs as [|kv kvs IH]; [by apply elem_of_nil in Hin|]. simpl.
  apply elem_of_cons in Hin as [<-|Hin]; [reflexivity|].
  destruct (json_member kv) eqn:E; simpl; [by rewrite IH|]. by rewrite (json_member_Raise _ _ E).
Qed.

Lemma py_index_lookup {A} (row : list A) i x : row !! i = Some x -> py_index row i = Ok x.
Proof. unfold py_index. by intros ->. Qed.

Lemma input_items_Ok row :
  length row = 10 ->
  exists items, input_items row = Ok items /\ forall j x, row !! j = Some x ->
    j ∈ [0; 1; 3; 5; 6; 7; 8; 9] -> exists k, (k, x) ∈ items.
Proof.
  intros Hl. do 10 (destruct row as [|? row]; [done|]). destruct row; [|done].
  eexists. split; [reflexivity|]. intros j x Hx Hj.
  repeat (apply elem_of_cons in Hj as [->|Hj]; [injection Hx as <-; eexists; by repeat constructor|]).
  by apply elem_of_nil in Hj.
Qed.

(** ** Claims on the dataset derivation *)

(** C30: The query returns each projection of an analytical row whose
    inspection result, product name and country are not NULL, and each
    exactly once. *)
Theorem select_distinct_spec d rows out :
  analysis d = Some rows -> select_distinct d = Ok out ->
  NoDup out /\ forall x, x ∈ out <-> exists r, r ∈ rows /\ ds_where r = true /\ ds_project r = x.
Proof.
  unfold select_distinct. intros -> [=<-].
  destruct (distinct_go_spec [] (map ds_project (List.filter ds_where rows))) as [Hnd Hx].
  split; [done|]. intros x. rewrite Hx, list_elem_of_In, in_map_iff.
  setoid_rewrite List.filter_In. setoid_rewrite <- list_elem_of_In.
  split; [intros [(r & <- & Hin & Hr) _]; eauto|intros (r & Hin & Hr & <-)].
  split; [eauto|apply not_elem_of_nil].
Qed.

(** C31: A DATETIME among the eight fields of [input_data] ([row[0]],
    [row[1]], [row[3]], [row[5]] to [row[9]]), such as a manufacture date
    from an Excel date column (staged as DATETIME by the dtype map), makes
    the row fail with [TypeError]: [json.dumps] cannot serialise
    [datetime], even when the label itself is computed. *)
Theorem dataset_entry_datetime row i r j t :
  length row = 10 -> row !! 2 = Some i -> row !! 3 = Some r ->
  Classifier.str_or_none i = true -> Classifier.str_or_none r = true ->
  j ∈ [0; 1; 3; 5; 6; 7; 8; 9] -> row !! j = Some (SDatetime t) ->
  dataset_entry row = Raise dt_error.
Proof.
  intros Hl H2 H3 Hi Hr Hj Ht. destruct (input_items_Ok row Hl) as (items & Hit & Hmem).
  destruct (Hmem j _ Ht Hj) as [k Hk].
  destruct (lookup_lt_is_Some_2 row 4) as [f H4]; [lia|].
  destruct (Classifier.recall_reason_complete i r f Hi Hr) as (v & Hv & _).
  unfold dataset_entry. rewrite Hit. cbn [res_bind].
  rewrite (py_index_lookup _ _ _ H2), (py_index_lookup _ _ _ H3), (py_index_lookup _ _ _ H4).
  cbn [res_bind]. rewrite Hv. cbn [res_bind].
  by rewrite (json_dumps_datetime items k t).
Qed.

(** C29: The [input_data] text the loop passes for a fetched row is the
    JSON of the dict of lines 223-232: decoding it gives exactly the eight
    keys in the order of the literal, "제품명" bound to [row[0]], "제조국"
    to [row[1]], "제품유형" to [row[6]], "제조일자" to [row[7]], "유통기한"
    to [row[8]], "검사결과" to [row[3]], "업체유형" to [row[9]] and
    "위험도등급" to [row[5]]; the classifier's columns [row[2]] and
    [row[4]] do not enter it. *)
Theorem dataset_entry_input_data v0 v1 v2 v3 v4 v5 v6 v7 v8 v9 js o :
  Forall value_ok [v0; v1; v3; v5; v6; v7; v8; v9] ->
  dataset_entry [v0; v1; v2; v3; v4; v5; v6; v7; v8; v9] = Ok (js, o) ->
  json_parse js = Some [("제품명", jvalue_of v0); ("제조국", jvalue_of v1);
    ("제품유형", jvalue_of v6); ("제조일자", jvalue_of v7); ("유통기한", jvalue_of v8);
    ("검사결과", jvalue_of v3); ("업체유형", jvalue_of v9); ("위험도등급", jvalue_of v5)].
Proof.
  intros Hok. unfold dataset_entry, input_items, py_index.
  cbn -[json_dumps Classifier.recall_reason].
  destruct (Classifier.recall_reason v2 v3 v4) as [out|e]; [|discriminate].
  cbn -[json_dumps]. destruct (json_dumps _) as [t|e] eqn:E; [|discriminate].
  intros [= <- _]. rewrite !Forall_cons in Hok. decompose [and] Hok.
  refine (eq_trans (json_dumps_roundtrip _ _ _ E) eq_refl).
  repeat (apply Forall_cons; split; [assumption|]). constructor.
Qed.

(** C32: When every selected row yields its pair, the dataset table gains
    exactly those pairs, in the order of the query, and they are
    committed; the count reported is the number of rows. *)
Theorem build_dataset_commits c rows es old :
  select_distinct (work c) = Ok rows -> dataset (work c) = Some old ->
  Forall2 (fun row e => dataset_entry row = Ok e) rows es ->
  build_dataset c = (Ok (length rows), connect_to (with_rows (work c) old es)).
Proof.
  intros Hs Hd HF. unfold build_dataset. rewrite Hs.
  rewrite (bindM_ok _ _ _ _ _ (forM_dataset_body rows es c old HF Hd)). reflexivity.
Qed.

(** C33: A row that fails stops the loop before the commit: the pairs of
    the rows before it are in the connection's view of the table but not
    committed, and the exception propagates. *)
Theorem build_dataset_stops c rows1 row rows2 es1 e old :
  select_distinct (work c) = Ok (rows1 ++ row :: rows2)%list -> dataset (work c) = Some old ->
  Forall2 (fun row e => dataset_entry row = Ok e) rows1 es1 -> dataset_entry row = Raise e ->
  build_dataset c = (Raise e, mk_conn (durable c) (with_rows (work c) old es1)).
Proof.
  intros Hs Hd HF He. unfold build_dataset. rewrite Hs.
  rewrite (bindM_raise (forM _ dataset_body) _ c e (mk_conn (durable c) (with_rows (work c) old es1)));
    [reflexivity|].
  rewrite forM_app, (bindM_ok _ _ _ _ _ (forM_dataset_body rows1 es1 c old HF Hd)).
  cbn [forM]. apply bindM_raise. unfold dataset_body. by rewrite He.
Qed.

(** ** Samples *)

Definition arow (nm cty item result date : sql_value) : analysis_row :=
  {| doc_no := SInt 1; doc_cycl := SInt 1; 제품명 := nm; 제품유형 := SText "과자"; 제조국 := cty;
     제조일자 := date; 유통기한 := SText "12개월"; 안전인증번호 := SNull; 제품허가번호 := SNull;
     회수조치내용 := SText "판매중지"; 회수조치코드 := SText "1"; 신고일자 := SNull; 통보일자 := SNull;
     회수시작일 := SNull; 부적합검사항목 := item; 부적합검사규격 := SNull; 부적합검사결과 := result;
     업체유형 := SText "제조업"; 업체명 := SText "가공업체"; 사업자등록번호 := SNull; 업체주소 := SNull;
     위해상품여부 := SInt 1; 위험도등급 := SText "위험" |}.

Definition row_ok : analysis_row :=
  arow (SText "쿠키") (SText "중국") (SText "대장균") (SText "양성") (SText "2024-01-01").
Definition row_dt : analysis_row :=
  arow (SText "사탕") (SText "미국") (SText "납") (SText "기준 초과") (SDatetime "2024-01-01 00:00:00").
Definition row_no_country : analysis_row :=
  arow (SText "젤리") SNull (SText "이물") (SText "혼입") (SText "2024-02-01").

Definition ec2_ok : dbstate := mk_dbstate ∅ (Some [row_ok; row_ok; row_no_country]) (Some []) (Some []).
Definition ec2_dt : dbstate := mk_dbstate ∅ (Some [row_ok; row_dt]) (Some []) (Some []).

Lemma select_distinct_spec_witness :
  exists out, select_distinct ec2_ok = Ok out /\ NoDup out /\ out = [ds_project row_ok].
Proof.
  eexists. split; [reflexivity|]. split; [|reflexivity].
  apply (select_distinct_spec ec2_ok [row_ok; row_ok; row_no_country]); reflexivity.
Defined.

Lemma dataset_entry_datetime_witness :
  7 ∈ [0; 1; 3; 5; 6; 7; 8; 9] /\ dataset_entry (ds_project row_dt) = Raise dt_error.
Proof.
  assert (Hj : 7 ∈ [0; 1; 3; 5; 6; 7; 8; 9]) by (repeat constructor).
  split; [exact Hj|].
  apply (dataset_entry_datetime _ (SText "납") (SText "기준 초과") 7 "2024-01-01 00:00:00");
    try reflexivity. exact Hj.
Defined.

Lemma build_dataset_commits_witness :
  exists e, dataset_entry (ds_project row_ok) = Ok e /\
    build_dataset (connect_to ec2_ok) = (Ok 1, connect_to (with_rows ec2_ok [] [e])).
Proof.
  destruct (dataset_entry (ds_project row_ok)) as [e|x] eqn:E; [|vm_compute in E; discriminate].
  exists e. split; [done|].
  apply (build_dataset_commits (connect_to ec2_ok) [ds_project row_ok]); [reflexivity|reflexivity|].
  by constructor.
Defined.

Lemma build_dataset_stops_witness :
  exists e, dataset_entry (ds_project row_ok) = Ok e /\
    build_dataset (connect_to ec2_dt) = (Raise dt_error, mk_conn ec2_dt (with_rows ec2_dt [] [e])).
Proof.
  destruct (dataset_entry (ds_project row_ok)) as [e|x] eqn:E; [|vm_compute in E; discriminate].
  exists e. split; [done|].
  apply (build_dataset_stops (connect_to ec2_dt) [ds_project row_ok] (ds_project row_dt) [] [e]);
    [reflexivity|reflexivity|by constructor|vm_compute; reflexivity].
Defined.

(** A fetched row whose product name holds a double quote: the JSON of
    its dict decodes to its eight fields, the quote included. *)
Lemma dataset_entry_input_data_witness :
  Forall value_ok [SText (String dq "쿠키"); SText "중국"; SText "양성"; SText "위험";
                   SText "과자"; SText "2024-01-01"; SFloat "0.5"; SText "제조업"] /\
  exists js o,
    dataset_entry [SText (String dq "쿠키"); SText "중국"; SText "대장균"; SText "양성";
                   SText "판매중지"; SText "위험"; SText "과자"; SText "2024-01-01";
                   SFloat "0.5"; SText "제조업"] = Ok (js, o) /\
    json_parse js = Some [("제품명", JStr (String dq "쿠키")); ("제조국", JStr "중국");
      ("제품유형", JStr "과자"); ("제조일자", JStr "2024-01-01"); ("유통기한", JNum "0.5");
      ("검사결과", JStr "양성"); ("업체유형", JStr "제조업"); ("위험도등급", JStr "위험")].
Proof.
  assert (Hok : Forall value_ok [SText (String dq "쿠키"); SText "중국"; SText "양성"; SText "위험";
                   SText "과자"; SText "2024-01-01"; SFloat "0.5"; SText "제조업"]).
  { repeat constructor; discriminate. }
  split; [exact Hok|].
  match goal with |- exists js o, dataset_entry ?row = _ /\ _ =>
    destruct (dataset_entry row) as [[js o]|e] eqn:E; [|vm_compute in E; discriminate] end.
  exists js, o. split; [reflexivity|].
  exact (dataset_entry_input_data _ _ _ _ _ _ _ _ _ _ js o Hok E).
Defined.
End Dataset.
