(* ===== verification/Validation.v ===== *)
(** * The validation suite (data_validation.py)

    The checks of lines 54-167 are functions of the tables they query:
    [check_row_count] of a table that may be missing, and
    [check_aggregation], [check_duplicates], [check_null_values] and
    [check_data_range] of the rows of 위해상품_위험도_분석.  The SQL they
    send is evaluated here: GROUP BY ([group_by], groups in first-seen
    order, NULL keys grouped together), COUNT, SUM, HAVING, ORDER BY ... DESC
    (NULL last) and NOT IN (UNKNOWN, hence not counted, on a NULL grade).

    [connect_with_retry] (lines 41-52) runs against a script of connection
    outcomes, one per attempt, and returns the result with the trace of
    attempts, warnings and sleeps.

    Theorems: the GROUP BY laws; duplicates are exactly the keys with more
    than one row, with their true count; on any table built by
    [Analysis.build_analysis] the range check finds no invalid grade and
    the NULL check finds no NULL; the aggregation is sorted and its totals
    add up to the row count; the retry loop makes at most [max_retries]
    attempts and returns the first success. *)

From S2P Require Import Prelude PyStr Sql Analysis.
From Stdlib Require Import Sorted Permutation.
Local Open Scope string_scope.

(** ** GROUP BY *)
Section GroupBy.
Context {A K : Type} `{EqDecision K}.
Context (key : A -> K).

(** The distinct keys of [l]. *)
Definition group_keys (l : list A) : list K := nodup (fun a b => decide (a = b)) (map key l).

(** The rows of [l] with key [k], in order. *)
Definition rows_with (k : K) (l : list A) : list A :=
  List.filter (fun x => bool_decide (key x = k)) l.

(** [GROUP BY key]: each distinct key with its rows.  SQL leaves the
    order of the groups to the engine; no check depends on it. *)
Definition group_by (l : list A) : list (K * list A) :=
  map (fun k => (k, rows_with k l)) (group_keys l).

Lemma rows_with_nonempty (k : K) (l : list A) :
  rows_with k l <> [] <-> In k (map key l).
Proof.
  unfold rows_with. rewrite in_map_iff. split.
  - intros H. destruct (List.filter _ l) as [|x xs] eqn:E; [done|].
    assert (In x (List.filter (fun x => bool_decide (key x = k)) l)) as Hx by (rewrite E; by left).
    apply filter_In in Hx as [Hx Hk]. apply bool_decide_eq_true in Hk. eauto.
  - intros (x & Hk & Hx) E.
    assert (In x (List.filter (fun x => bool_decide (key x = k)) l)) as Hx'
      by (apply filter_In; split; [done|by apply bool_decide_eq_true]).
    rewrite E in Hx'. done.
Qed.

(** The GROUP BY laws: keys are distinct, and a group is a key of [l]
    with exactly the rows of that key. *)
Lemma group_by_keys_nodup (l : list A) : List.NoDup (map fst (group_by l)).
Proof.
  unfold group_by. rewrite map_map. simpl. rewrite map_id. apply NoDup_nodup.
Qed.

Lemma group_by_spec (l : list A) (k : K) (xs : list A) :
  In (k, xs) (group_by l) <-> xs = rows_with k l /\ xs <> [].
Proof.
  unfold group_by, group_keys. rewrite in_map_iff. split.
  - intros (k' & [= -> <-] & Hk). split; [done|]. apply rows_with_nonempty.
    by apply nodup_In in Hk.
  - intros [-> Hne]. exists k. split; [done|]. apply nodup_In, rows_with_nonempty, Hne.
Qed.

Lemma list_sum_map_add {B} (f g : B -> nat) (l : list B) :
  list_sum (map (fun x => f x + g x) l) = list_sum (map f l) + list_sum (map g l).
Proof. induction l; simpl; lia. Qed.

Lemma list_sum_indicator (a : K) (ks : list K) :
  List.NoDup ks -> In a ks ->
  list_sum (map (fun k => if decide (a = k) then 1 else 0) ks) = 1.
Proof.
  induction ks as [|k ks IH]; [done|]. intros Hnd Hin. inversion Hnd; subst. simpl.
  case_decide as Hak.
  - subst a. enough (list_sum (map (fun k' => if decide (k = k') then 1 else 0) ks) = 0)
      by lia. match goal with H : ~ In k ks |- _ => clear -H end.
    induction ks as [|k' ks IH]; [done|]. simpl in *.
    case_decide; [subst; tauto|]. apply IH. tauto.
  - destruct Hin as [->|Hin]; [done|]. by apply IH.
Qed.

Lemma rows_with_cons (k : K) (x : A) (l : list A) :
  length (rows_with k (x :: l)) = (if decide (key x = k) then 1 else 0) + length (rows_with k l).
Proof. unfold rows_with. simpl. by case_bool_decide; case_decide. Qed.

Lemma rows_with_sum (ks : list K) (l : list A) :
  List.NoDup ks -> (forall x, In x l -> In (key x) ks) ->
  list_sum (map (fun k => length (rows_with k l)) ks) = length l.
Proof.
  intros Hnd. induction l as [|x l IH]; intros Hcov.
  - simpl. clear. induction ks; simpl; auto.
  - setoid_rewrite rows_with_cons. rewrite list_sum_map_add, list_sum_indicator, IH; auto.
    + intros y Hy. apply Hcov. by right.
    + apply Hcov. by left.
Qed.

(** The groups partition the rows: their sizes add up to the row count. *)
Lemma group_by_length_sum (l : list A) :
  list_sum (map (fun g => length g.2) (group_by l)) = length l.
Proof.
  unfold group_by. rewrite map_map. simpl. apply rows_with_sum; [apply NoDup_nodup|].
  intros x Hx. apply nodup_In, in_map, Hx.
Qed.
End GroupBy.

Module Validation.
Import Analysis.

(** ** The checks *)

(** Lines 54-64: the row count of [table_name]; a missing table raises
    MySQL error 1146. *)
Definition check_row_count {X} (table_name : string) (t : option (list X)) : res Z :=
  match t with
  | Some rows => Ok (Z.of_nat (length rows))
  | None => Raise (MySQLError ("1146 (42S02): Table '" ++ table_name ++ "' doesn't exist"))
  end.

(** The numeric value of a digit string prefix, as MySQL converts a string
    operand of SUM (a leading sign is kept, the rest after the digits is
    ignored). *)
Fixpoint digits_value (acc : Z) (s : string) : Z :=
  match s with
  | String c s' =>
      let n := (Z.of_nat (nat_of_ascii c) - 48)%Z in
      if (0 <=? n)%Z && (n <=? 9)%Z then digits_value (10 * acc + n)%Z s' else acc
  | EmptyString => acc
  end.

Definition text_number (s : string) : Z :=
  match s with
  | String "-" s' => (- digits_value 0 s')%Z
  | String "+" s' => digits_value 0 s'
  | _ => digits_value 0 s
  end.

(** The operand of SUM: NULL is skipped. *)
Definition sql_num (v : sql_value) : option Z :=
  match v with
  | SNull => None
  | SInt z => Some z
  | SFloat t | SText t | SDatetime t => Some (text_number t)
  end.

(** [SUM(col)]: NULL when every value is NULL. *)
Definition sql_sum (vs : list sql_value) : option Z :=
  fold_right (fun v acc =>
    match sql_num v, acc with
    | Some z, Some a => Some (z + a)%Z
    | Some z, None => Some z
    | None, a => a
    end) None vs.

(** [ORDER BY x DESC]: NULL sorts last. *)
Definition desc_before (a b : option Z) : bool :=
  match a, b with
  | Some x, Some y => (y <=? x)%Z
  | Some _, None | None, None => true
  | None, Some _ => false
  end.

Definition agg_row := (sql_value * nat * option Z)%type.

Fixpoint insert_desc (g : agg_row) (l : list agg_row) : list agg_row :=
  match l with
  | [] => [g]
  | h :: t => if desc_before g.2 h.2 then g :: h :: t else h :: insert_desc g t
  end.

Definition sort_desc (l : list agg_row) : list agg_row := fold_right insert_desc [] l.

(** Lines 66-86: per product type, the row count and the sum of the hazard
    flags, by decreasing sum. *)
Definition check_aggregation (rows : list analysis_row) : list agg_row :=
  sort_desc (map (fun g => (g.1, length g.2, sql_sum (map 위해상품여부 g.2)))
                 (group_by 제품유형 rows)).

Definition doc_key (r : analysis_row) : sql_value * sql_value := (r.(doc_no), r.(doc_cycl)).

(** Lines 88-111: the (doc_no, doc_cycl) groups with more than one row. *)
Definition check_duplicates (rows : list analysis_row) : list (sql_value * sql_value * nat) :=
  map (fun g => (g.1.1, g.1.2, length g.2))
    (List.filter (fun g => Nat.ltb 1 (length g.2)) (group_by doc_key rows)).

(** Lines 113-134: the row count and the NULL counts of 제품명, 제조국 and
    제품유형. *)
Definition check_null_values (rows : list analysis_row) : nat * nat * nat * nat :=
  (length rows, count_if (fun r => is_null r.(제품명)) rows,
   count_if (fun r => is_null r.(제조국)) rows, count_if (fun r => is_null r.(제품유형)) rows).

(** [grade NOT IN ('위험', '주의', '관심', '정상')]: UNKNOWN, hence false,
    on NULL. *)
Definition grade_not_in (g : sql_value) : bool :=
  match sql_text g with
  | Some t => negb (existsb (String.eqb t) valid_grades)
  | None => false
  end.

(** Lines 136-167: the grade distribution, which the function returns, and
    the count of invalid grades, which it reports in a warning when it is
    not zero. *)
Definition check_data_range (rows : list analysis_row) : list (sql_value * nat) * nat :=
  (map (fun g => (g.1, length g.2)) (group_by 위험도등급 rows),
   count_if (fun r => grade_not_in r.(위험도등급)) rows).

(** ** Properties of the checks *)

(** C7. The duplicate check reports exactly the keys with more than one row,
    each with its true row count. *)
Theorem check_duplicates_spec (rows : list analysis_row) (a b : sql_value) (n : nat) :
  In (a, b, n) (check_duplicates rows) <->
  n = length (rows_with doc_key (a, b) rows) /\ 1 < n.
Proof.
  unfold check_duplicates. rewrite in_map_iff. split.
  - intros ([[a' b'] xs] & [= <- <- <-] & Hg). apply filter_In in Hg as [Hg Hn].
    apply group_by_spec in Hg as [-> _]. apply Nat.ltb_lt in Hn. done.
  - intros [-> Hn]. exists ((a, b), rows_with doc_key (a, b) rows). split; [done|].
    apply filter_In. split; [|by apply Nat.ltb_lt].
    apply group_by_spec. split; [done|]. intros E. rewrite E in Hn. simpl in Hn. lia.
Qed.

Lemma grade_not_in_valid (g : string) : In g valid_grades -> grade_not_in (SText g) = false.
Proof.
  intros Hg. unfold grade_not_in. cbn [sql_text]. apply negb_false_iff, existsb_exists.
  exists g. split; [done|]. apply String.eqb_refl.
Qed.

(** C3. On any table the pipeline builds, the range check finds no invalid
    grade. *)
Theorem check_data_range_built (tw tb tu : table) rows :
  build_analysis tw tb tu = Ok rows -> (check_data_range rows).2 = 0.
Proof.
  intros H. apply count_if_zero. eapply Forall_impl; [exact (build_analysis_grades_valid _ _ _ _ H)|].
  intros r (g & -> & Hg). by apply grade_not_in_valid.
Qed.

(** C15. Adding rows with a text grade outside the four grades raises the
    invalid count by exactly their number. *)
Theorem check_data_range_counts_invalid (rows extra : list analysis_row) :
  Forall (fun r => exists g, r.(위험도등급) = SText g /\ ~ In g valid_grades) extra ->
  (check_data_range (rows ++ extra)).2 = (check_data_range rows).2 + length extra.
Proof.
  intros Hx. simpl. rewrite count_if_app. f_equal.
  induction Hx as [|r extra [g [Hr Hg]] _ IH]; [done|].
  rewrite count_if_cons, IH, Hr. unfold grade_not_in. cbn [sql_text].
  destruct (existsb (String.eqb g) valid_grades) eqn:E; [|done].
  apply existsb_exists in E as (g' & Hin & ->%String.eqb_eq). done.
Qed.

(** C16. A NULL grade is outside the four grades but is not counted: NOT IN is
    UNKNOWN on NULL. *)
Theorem check_data_range_null_uncounted (rows extra : list analysis_row) :
  Forall (fun r => r.(위험도등급) = SNull) extra ->
  (check_data_range (rows ++ extra)).2 = (check_data_range rows).2.
Proof.
  intros Hx. simpl. rewrite count_if_app.
  enough (count_if (fun r => grade_not_in r.(위험도등급)) extra = 0) by lia.
  apply count_if_zero. eapply Forall_impl; [exact Hx|]. intros r ->. done.
Qed.

(** C12. On any table the pipeline builds, the NULL check finds no NULL. *)
Theorem check_null_values_built (tw tb tu : table) rows :
  build_analysis tw tb tu = Ok rows -> check_null_values rows = (length rows, 0, 0, 0).
Proof.
  intros H. pose proof (build_analysis_not_null _ _ _ _ H) as Hn. unfold check_null_values.
  repeat f_equal; apply count_if_zero; (eapply Forall_impl; [exact Hn|]); simpl; tauto.
Qed.

(** *** The aggregation: ORDER BY ... DESC *)

Definition agg_le (a b : agg_row) : Prop := desc_before a.2 b.2 = true.

Lemma desc_before_total (x y : option Z) : desc_before x y = false -> desc_before y x = true.
Proof. destruct x, y; simpl; try done. intros H%Z.leb_gt. apply Z.leb_le. lia. Qed.

Lemma insert_desc_hd (h g : agg_row) (t : list agg_row) :
  agg_le h g -> HdRel agg_le h t -> HdRel agg_le h (insert_desc g t).
Proof.
  intros Hhg Ht. destruct t as [|h' t]; simpl; [by constructor|].
  destruct (desc_before g.2 h'.2); constructor; [done|]. by inversion Ht.
Qed.

Lemma insert_desc_sorted (g : agg_row) (l : list agg_row) :
  Sorted agg_le l -> Sorted agg_le (insert_desc g l).
Proof.
  induction 1 as [|h t Hs IH Hhd]; simpl; [repeat constructor|].
  destruct (desc_before g.2 h.2) eqn:E.
  - constructor; [by constructor | by constructor].
  - constructor; [done|]. apply insert_desc_hd; [|done]. by apply desc_before_total.
Qed.

Lemma insert_desc_perm (g : agg_row) (l : list agg_row) :
  Permutation (insert_desc g l) (g :: l).
Proof.
  induction l as [|h t IH]; simpl; [done|].
  destruct (desc_before g.2 h.2); [done|]. rewrite IH. apply perm_swap.
Qed.

Lemma sort_desc_sorted (l : list agg_row) : Sorted agg_le (sort_desc l).
Proof. induction l; simpl; [constructor | by apply insert_desc_sorted]. Qed.

Lemma sort_desc_perm (l : list agg_row) : Permutation (sort_desc l) l.
Proof.
  induction l as [|g l IH]; simpl; [done|]. rewrite insert_desc_perm. by apply perm_skip.
Qed.

Lemma in_sort_desc (x : agg_row) (l : list agg_row) : In x (sort_desc l) <-> In x l.
Proof.
  split; apply Permutation_in; [|symmetry]; apply sort_desc_perm.
Qed.

Lemma check_aggregation_in (rows : list analysis_row) (k : sql_value) (n : nat) (h : option Z) :
  In (k, n, h) (check_aggregation rows) <->
  n = length (rows_with 제품유형 k rows) /\ 0 < n /\
  h = sql_sum (map 위해상품여부 (rows_with 제품유형 k rows)).
Proof.
  unfold check_aggregation. rewrite in_sort_desc, in_map_iff. split.
  - intros ([k' xs] & [= <- <- <-] & Hg). apply group_by_spec in Hg as [-> Hne].
    split; [done|]. split; [|done]. destruct (rows_with _ _ _); [done|simpl; lia].
  - intros (-> & Hn & ->). eexists (k, _). split; [reflexivity|].
    apply group_by_spec. split; [done|]. intros E. rewrite E in Hn. simpl in Hn. lia.
Qed.

(** C13. The aggregation is sorted by decreasing hazard count, lists every
    product type once with its row count, and the counts add up to the
    table size. *)
Theorem check_aggregation_spec (rows : list analysis_row) :
  Sorted agg_le (check_aggregation rows) /\
  (forall k n h, In (k, n, h) (check_aggregation rows) <->
     n = length (rows_with 제품유형 k rows) /\ 0 < n /\
     h = sql_sum (map 위해상품여부 (rows_with 제품유형 k rows))) /\
  list_sum (map (fun a => a.1.2) (check_aggregation rows)) = length rows.
Proof.
  split; [apply sort_desc_sorted|]. split; [apply check_aggregation_in|].
  unfold check_aggregation.
  rewrite (Permutation_list_sum (Permutation_map _ (sort_desc_perm _))), map_map.
  apply group_by_length_sum.
Qed.

Lemma sql_sum_flags (vs : list sql_value) :
  Forall (fun v => v = SInt 0 \/ v = SInt 1) vs -> vs <> [] ->
  exists z, sql_sum vs = Some z /\ (0 <= z <= Z.of_nat (length vs))%Z.
Proof.
  induction 1 as [|v vs Hv Hvs IH]; [done|]. intros _. simpl.
  destruct vs as [|v' vs'].
  - destruct Hv as [-> | ->]; eexists; simpl; split; try reflexivity; lia.
  - destruct IH as (z & Hz & Hb); [discriminate|]. rewrite Hz.
    destruct Hv as [-> | ->]; eexists; simpl; split; try reflexivity;
      simpl in Hb; lia.
Qed.

Lemma hazard_flag_bit (code : sql_value) : hazard_flag code = SInt 0 \/ hazard_flag code = SInt 1.
Proof. unfold hazard_flag. destruct (is_null code); auto. Qed.

(** C14. On any table the pipeline builds, each product type's hazard count is
    a number between 0 and its row count. *)
Theorem check_aggregation_built_bounds (tw tb tu : table) rows :
  build_analysis tw tb tu = Ok rows ->
  forall k n h, In (k, n, h) (check_aggregation rows) ->
  exists z, h = Some z /\ (0 <= z <= Z.of_nat n)%Z.
Proof.
  intros Hb k n h Hin. apply check_aggregation_in in Hin as (-> & Hn & ->).
  rewrite <- (length_map 위해상품여부). apply sql_sum_flags.
  - apply List.Forall_forall. intros v (r & <- & Hr)%in_map_iff.
    apply filter_In in Hr as [Hr _].
    pose proof (build_analysis_rows_derived _ _ _ _ Hb) as Hd.
    rewrite List.Forall_forall in Hd. destruct (Hd r Hr) as [-> _]. apply hazard_flag_bit.
  - intros E. apply (f_equal length) in E. rewrite length_map in E. simpl in E. lia.
Qed.

(** ** [connect_with_retry] (lines 41-52) *)

(** What one run of the loop does, in order. *)
Inductive retry_event :=
| Attempt (i : nat)           (** a call of [mysql.connector.connect], attempt [i] *)
| LogWarning (n : nat)        (** the warning of the [n]-th retry *)
| Sleep (secs : Z)            (** [time.sleep(2)] *)
| LogError (msg : string).    (** the error logged before the final [raise] *)

Section Retry.
Context {C : Type}.
(** The outcome of each connection attempt, by attempt number. *)
Context (connect : nat -> res C).

(** The loop from attempt [i], with [n] iterations of [range] left.
    Only [mysql.connector.Error] is caught; any other exception leaves
    the loop at once.  Falling off the end returns [None]. *)
Fixpoint retry_from (max_retries i n : nat) : res (option C) * list retry_event :=
  match n with
  | 0 => (Ok None, [])
  | S n' =>
      match connect i with
      | Ok c => (Ok (Some c), [Attempt i])
      | Raise (MySQLError m) =>
          if Nat.eqb i (max_retries - 1) then (Raise (MySQLError m), [Attempt i; LogError m])
          else let '(r, tr) := retry_from max_retries (S i) n' in
               (r, Attempt i :: LogWarning (S i) :: Sleep 2 :: tr)
      | Raise e => (Raise e, [Attempt i])
      end
  end.

Definition connect_with_retry (max_retries : nat) : res (option C) * list retry_event :=
  retry_from max_retries 0 max_retries.

Definition is_attempt (ev : retry_event) : bool :=
  match ev with Attempt _ => true | _ => false end.
Definition is_sleep (ev : retry_event) : bool :=
  match ev with Sleep _ => true | _ => false end.

Lemma retry_from_attempts (max_retries i n : nat) :
  count_if is_attempt (retry_from max_retries i n).2 <= n.
Proof.
  revert i. induction n as [|n IH]; intros i; simpl; [rewrite count_if_nil; lia|].
  destruct (connect i) as [c|[]]; simpl; autorewrite with pyetl_rw; simpl; try lia.
  case_match; simpl; autorewrite with pyetl_rw; simpl; [lia|].
  destruct (retry_from _ _ _) as [r tr] eqn:E. simpl. autorewrite with pyetl_rw. simpl.
  specialize (IH (S i)). rewrite E in IH. simpl in IH. lia.
Qed.

(** C10. The loop makes at most [max_retries] connection attempts. *)
Theorem connect_with_retry_bounded (max_retries : nat) :
  count_if is_attempt (connect_with_retry max_retries).2 <= max_retries.
Proof. apply retry_from_attempts. Qed.

Lemma retry_from_success (max_retries i n k : nat) (c : C) :
  i <= k -> k < i + n -> i + n = max_retries ->
  (forall j, i <= j < k -> exists m, connect j = Raise (MySQLError m)) ->
  connect k = Ok c ->
  (retry_from max_retries i n).1 = Ok (Some c) /\
  count_if is_sleep (retry_from max_retries i n).2 = k - i.
Proof.
  revert i. induction n as [|n IH]; intros i Hik Hk Hmax Hfail Hc; [lia|]. simpl.
  destruct (decide (i = k)) as [->|Hne].
  - rewrite Hc. simpl. autorewrite with pyetl_rw. simpl. split; [done|lia].
  - destruct (Hfail i) as [m Hm]; [lia|]. rewrite Hm.
    replace (Nat.eqb i (max_retries - 1)) with false by (symmetry; apply Nat.eqb_neq; lia).
    destruct (IH (S i)) as [H1 H2]; try lia; [intros j Hj; apply Hfail; lia | done|].
    destruct (retry_from _ _ _) as [r tr]. simpl in *. split; [done|].
    autorewrite with pyetl_rw. simpl. lia.
Qed.

(** C8. When attempt [k] is the first to succeed and [k < max_retries], the
    connection of attempt [k] is returned after [k] sleeps. *)
Theorem connect_with_retry_first_success (max_retries k : nat) (c : C) :
  k < max_retries ->
  (forall j, j < k -> exists m, connect j = Raise (MySQLError m)) ->
  connect k = Ok c ->
  (connect_with_retry max_retries).1 = Ok (Some c) /\
  count_if is_sleep (connect_with_retry max_retries).2 = k.
Proof.
  intros Hk Hfail Hc. unfold connect_with_retry.
  destruct (retry_from_success max_retries 0 max_retries k c) as [H1 H2]; try lia; auto.
  - intros j Hj. apply Hfail. lia.
  - split; [done|]. rewrite H2. lia.
Qed.

Lemma retry_from_exhausted (max_retries i n : nat) (msg : nat -> string) :
  i + n = max_retries -> 0 < n ->
  (forall j, i <= j < max_retries -> connect j = Raise (MySQLError (msg j))) ->
  (retry_from max_retries i n).1 = Raise (MySQLError (msg (max_retries - 1))).
Proof.
  revert i. induction n as [|n IH]; intros i Hmax Hn Hfail; [lia|]. simpl.
  rewrite Hfail by lia. destruct (Nat.eqb_spec i (max_retries - 1)) as [->|Hne]; [done|].
  specialize (IH (S i)). destruct (retry_from _ _ _) as [r tr]. simpl in *.
  apply IH; [lia|lia|]. intros j Hj. apply Hfail. lia.
Qed.

(** C9. When every attempt fails with a MySQL error, the error of the last
    attempt is raised. *)
Theorem connect_with_retry_exhausted (max_retries : nat) (msg : nat -> string) :
  0 < max_retries ->
  (forall j, j < max_retries -> connect j = Raise (MySQLError (msg j))) ->
  (connect_with_retry max_retries).1 = Raise (MySQLError (msg (max_retries - 1))).
Proof.
  intros Hpos Hfail. apply retry_from_exhausted; [lia|lia|]. intros j Hj. apply Hfail. lia.
Qed.

(** With [max_retries = 0] the loop body never runs and the function
    returns [None] without connecting. *)
Lemma connect_with_retry_zero : connect_with_retry 0 = (Ok None, []).
Proof. reflexivity. Qed.
End Retry.

(** ** Concrete runs and witnesses *)

(** A row of the analytical table with the given key, type, flag and grade
    and NULL elsewhere. *)
Definition sample_row (d : string) (ty : string) (flag : Z) (grade : sql_value) : analysis_row :=
  {| doc_no := SText d; doc_cycl := SInt 1; 제품명 := SText "p"; 제품유형 := SText ty;
     제조국 := SText "c"; 제조일자 := SNull; 유통기한 := SNull; 안전인증번호 := SNull;
     제품허가번호 := SNull; 회수조치내용 := SNull; 회수조치코드 := SNull; 신고일자 := SNull;
     통보일자 := SNull; 회수시작일 := SNull; 부적합검사항목 := SNull; 부적합검사규격 := SNull;
     부적합검사결과 := SNull; 업체유형 := SNull; 업체명 := SNull; 사업자등록번호 := SNull;
     업체주소 := SNull; 위해상품여부 := SInt flag; 위험도등급 := grade |}.

Definition sample_rows : list analysis_row :=
  [sample_row "D1" "과자류" 1 (SText "위험"); sample_row "D1" "과자류" 0 (SText "정상");
   sample_row "D2" "음료류" 1 (SText "주의")].

Example check_duplicates_sample :
  check_duplicates sample_rows = [(SText "D1", SInt 1, 2)].
Proof. vm_compute. reflexivity. Qed.

Example check_aggregation_sample :
  check_aggregation sample_rows = [(SText "과자류", 2, Some 1%Z); (SText "음료류", 1, Some 1%Z)].
Proof. vm_compute. reflexivity. Qed.

Lemma check_data_range_built_witness :
  exists rows, build_analysis sample_w sample_b sample_u = Ok rows /\
  (check_data_range rows).2 = 0.
Proof.
  eexists. split; [vm_compute; reflexivity|].
  apply (check_data_range_built sample_w sample_b sample_u). vm_compute. reflexivity.
Defined.

Lemma check_null_values_built_witness :
  exists rows, build_analysis sample_w sample_b sample_u = Ok rows /\
  check_null_values rows = (length rows, 0, 0, 0).
Proof.
  eexists. split; [vm_compute; reflexivity|].
  apply (check_null_values_built sample_w sample_b sample_u). vm_compute. reflexivity.
Defined.

Lemma check_aggregation_built_bounds_witness :
  exists rows, build_analysis sample_w sample_b sample_u = Ok rows /\
  exists z, Some 1%Z = Some z /\ (0 <= z <= Z.of_nat 1)%Z.
Proof.
  eexists. split; [vm_compute; reflexivity|].
  apply (check_aggregation_built_bounds sample_w sample_b sample_u _ eq_refl (SText "과자류") 1).
  vm_compute. left. reflexivity.
Defined.

Lemma check_data_range_counts_invalid_witness :
  (check_data_range (sample_rows ++ [sample_row "D3" "x" 0 (SText "높음")])).2 =
  (check_data_range sample_rows).2 + 1.
Proof.
  apply (check_data_range_counts_invalid sample_rows [sample_row "D3" "x" 0 (SText "높음")]).
  constructor; [|constructor]. exists "높음". split; [reflexivity|]. vm_compute. intuition discriminate.
Defined.

Lemma check_data_range_null_uncounted_witness :
  (check_data_range (sample_rows ++ [sample_row "D3" "x" 0 SNull])).2 =
  (check_data_range sample_rows).2.
Proof.
  apply (check_data_range_null_uncounted sample_rows [sample_row "D3" "x" 0 SNull]).
  constructor; [reflexivity|constructor].
Defined.

(** Attempts 0 and 1 are refused, attempt 2 connects. *)
Definition sample_connect (i : nat) : res unit :=
  if Nat.ltb i 2 then Raise (MySQLError "2003: Can't connect") else Ok tt.

Lemma connect_with_retry_first_success_witness :
  (connect_with_retry sample_connect 3).1 = Ok (Some tt) /\
  count_if is_sleep (connect_with_retry sample_connect 3).2 = 2.
Proof.
  apply (connect_with_retry_first_success sample_connect 3 2 tt); [lia| |reflexivity].
  intros j Hj. exists "2003: Can't connect". unfold sample_connect.
  destruct (Nat.ltb_spec j 2); [reflexivity|lia].
Defined.

Lemma connect_with_retry_exhausted_witness :
  (connect_with_retry (fun _ => @Raise unit (MySQLError "2003: Can't connect")) 3).1 =
  Raise (MySQLError ((fun _ => "2003: Can't connect") (3 - 1))).
Proof.
  apply (connect_with_retry_exhausted (fun _ => Raise (MySQLError "2003: Can't connect")) 3
           (fun _ => "2003: Can't connect")); [lia|]. intros j Hj. reflexivity.
Defined.

End Validation.
