(* ===== verification/Pipeline.v ===== *)
(** * Pipeline: the two scripts' top level, with their history rows

    [local_to_ec2_etl.py], lines 57-298, and [data_validation.py], lines
    169-246.  Each script runs its steps inside [try], records a failure
    row in [데이터셋_최신화_이력] from a best-effort [except] (a bare
    [except: pass] swallows what goes wrong there) and re-raises, and closes
    both connections in [finally].

    The world holds, for each of the two servers, its committed state and
    the connection the script has open to it, if any.  The Python names
    [local_cursor] and [ec2_cursor] are bound exactly when that connection
    was opened: an operation on a connection that was never opened raises
    [NameError], which is how the [except] block behaves when the failure
    happened before [ec2_connection] was assigned.  The outcomes of the
    library calls the scripts make ([mysql.connector.connect],
    [requests.get] with [pd.read_excel]) are inputs; the connect outcome
    is a function of the configuration dict the script passes.  The last
    group of ETL theorems compares two runs with the same connect outcomes
    but different downloads: through [ec2_eq], the EC2 side ends the same. *)

From S2P Require Import Prelude PyStr Sql Staging Analysis Store Dataset Validation.
From stdpp Require Import gmap.
Local Open Scope string_scope.

Module Pipeline.
Import Staging Store.

(** [str(e)] *)
Definition exc_str (e : exc) : string :=
  match e with
  | MySQLError m | TypeError m | ValueError m | IndexError m | AttributeError m => m
  | HTTPError _ m => m
  | NameError n => "name '" ++ n ++ "' is not defined"
  end.

(** ** The world *)

(** One server as the script sees it: its committed state, and the open
    connection, if [x_connection] is bound and connected. *)
Record side := mk_side { srv : dbstate; cn : option conn }.

Record world := mk_world { lside : side; eside : side }.

(** What the server has committed, whether a connection is open or not. *)
Definition committed (s : side) : dbstate :=
  match cn s with Some c => durable c | None => srv s end.

(** An operation through the cursor named [var]. *)
Definition side_run {A} (var : string) (m : PyM conn A) : PyM side A := fun s =>
  match cn s with
  | None => (Raise (NameError var), s)
  | Some c => let '(r, c') := m c in (r, mk_side (srv s) (Some c'))
  end.

Definition on_local {A} (m : PyM conn A) : PyM world A := fun w =>
  let '(r, l) := side_run "local_cursor" m (lside w) in (r, mk_world l (eside w)).

Definition on_ec2 {A} (m : PyM conn A) : PyM world A := fun w =>
  let '(r, e) := side_run "ec2_cursor" m (eside w) in (r, mk_world (lside w) e).

(** [x_connection = mysql.connector.connect(...)] with the call's
    outcome. *)
Definition side_open (outcome : res unit) : PyM side unit := fun s =>
  match outcome with
  | Ok _ => (Ok tt, mk_side (srv s) (Some (connect_to (srv s))))
  | Raise e => (Raise e, s)
  end.

(** [if 'x_connection' in locals() and x_connection.is_connected():
    x_cursor.close(); x_connection.close()]: uncommitted work is rolled
    back. *)
Definition side_close : PyM side unit := fun s =>
  match cn s with
  | Some c => (Ok tt, mk_side (durable (snd (close c))) None)
  | None => (Ok tt, s)
  end.

Definition open_local (o : res unit) : PyM world unit := fun w =>
  let '(r, l) := side_open o (lside w) in (r, mk_world l (eside w)).
Definition open_ec2 (o : res unit) : PyM world unit := fun w =>
  let '(r, e) := side_open o (eside w) in (r, mk_world (lside w) e).

(** The [finally] blocks of both scripts, lines 288-298 and 233-243. *)
Definition close_both : PyM world unit := fun w =>
  let '(_, l) := side_close (lside w) in
  let '(_, e) := side_close (eside w) in
  (Ok tt, mk_world l e).

(** ** The history recorder *)

Definition history_insert (process st : string) (err : option string) : PyM world unit :=
  on_ec2 (execute (InsertHistory process st err)).

(** The [except Exception as e] blocks: a best-effort failure row, then
    [raise e]. *)
Definition record_failure (process : string) (e : exc) : PyM world unit :=
  (tryM (history_insert process "실패" (Some (exc_str e)) ;;; on_ec2 commit) (fun _ => retM tt) ;;;
   raiseM e)%py.

(** ** Connection configuration *)

(** The dicts passed to [mysql.connector.connect] as keyword arguments. *)
Record db_config := mk_db_config
  { host : string; port : Z; user : string; password : string; database : string }.

(** [local_to_ec2_etl.py], lines 41-55. *)
Definition LOCAL_DB_CONFIG : db_config := mk_db_config "localhost" 3306 "kopo" "1234" "kopo".
Definition EC2_DB_CONFIG : db_config := mk_db_config "54.180.237.238" 3306 "kopo" "1234" "kopo2".

(** [data_validation.py], lines 25-39: the same values, defined again. *)
Definition VAL_LOCAL_DB_CONFIG : db_config := mk_db_config "localhost" 3306 "kopo" "1234" "kopo".
Definition VAL_EC2_DB_CONFIG : db_config := mk_db_config "54.180.237.238" 3306 "kopo" "1234" "kopo2".

(** ** The ETL, lines 57-298 *)

(** [EXCEL_FILES], in the dict's order. *)
Definition excel_files : list (string * string) :=
  [("위해상품", "https://raw.githubusercontent.com/nes0903/ETLproject/main/위해상품판매차단/위해상품.xlsx");
   ("위해상품부적합검사", "https://raw.githubusercontent.com/nes0903/ETLproject/main/위해상품판매차단/위해상품부적합검사.xlsx");
   ("위해상품업체", "https://raw.githubusercontent.com/nes0903/ETLproject/main/위해상품판매차단/위해상품업체.xlsx")].

(** The outcomes of the library calls of one ETL run. *)
Record etl_env := mk_etl_env {
  connect : db_config -> res unit;      (** lines 60 and 65 *)
  fetch : string -> res frame           (** lines 89-95, by URL *)
}.

(** One iteration of the loop of lines 84-133. *)
Definition load_file (E : etl_env) (f : string * string) : PyM world unit :=
  match fetch E f.2 with
  | Raise e => raiseM e
  | Ok df =>
    (on_local (execute (CreateStaging f.1 (fcols df))) ;;;
     on_local (execute (InsertStaging f.1 (map fst (fcols df)) (frows (normalize df)))) ;;;
     on_local commit)%py
  end.

(** Steps 1 and 2, lines 58-81: the connections and the history table. *)
Definition etl_setup (E : etl_env) : PyM world unit :=
  (open_local (connect E LOCAL_DB_CONFIG) ;;;
   open_ec2 (connect E EC2_DB_CONFIG) ;;;
   on_ec2 (execute CreateHistory) ;;; on_ec2 commit)%py.

(** Steps 4 to 7, lines 134-271: the analytical table, the dataset and
    the success row, all on the EC2 connection. *)
Definition etl_tail : PyM world unit :=
  (on_ec2 (execute CreateAnalysis) ;;;
   on_ec2 (execute CreateDataset) ;;;
   _ <- on_ec2 Dataset.build_dataset ;;
   history_insert "ETL 프로세스" "성공" None ;;; on_ec2 commit)%py.

(** The [try] block, lines 58-271, with step 3 (lines 83-133) between. *)
Definition etl_body (E : etl_env) : PyM world unit :=
  (etl_setup E ;;; forM excel_files (load_file E) ;;; etl_tail)%py.

Definition etl (E : etl_env) : PyM world unit :=
  finallyM (tryM (etl_body E) (record_failure "ETL 프로세스")) close_both.


(** ** Properties of the ETL's top level *)

(** Both connections closed; each server keeps what its connection had
    committed. *)
Definition closed (w : world) : world :=
  mk_world (mk_side (committed (lside w)) None) (mk_side (committed (eside w)) None).

Lemma close_both_closed w : close_both w = (Ok tt, closed w).
Proof. destruct w as [[? []] [? []]]; reflexivity. Qed.

Lemma finallyM_close_both {A} (m : PyM world A) w :
  finallyM m close_both w = ((m w).1, closed (m w).2).
Proof. unfold finallyM. destruct (m w) as [r w1]. by rewrite close_both_closed. Qed.

Lemma record_failure_raises p e w : exists w', record_failure p e w = (Raise e, w').
Proof.
  unfold record_failure, tryM, bindM at 1.
  destruct (bindM (history_insert _ _ _) _ w) as [[] w1]; eexists; reflexivity.
Qed.

(** [except Exception as e: ...; raise]: the handler re-raises, so the
    [try] statement ends with the result of its block. *)
Lemma tryM_record_failure_fst (m : PyM world unit) p w :
  (tryM m (record_failure p) w).1 = (m w).1.
Proof.
  unfold tryM. destruct (m w) as [[|e] w2]; [done|].
  destruct (record_failure_raises p e w2) as [w3 ->]. done.
Qed.

Lemma tryM_record_failure_Ok (m : PyM world unit) p w a w1 :
  tryM m (record_failure p) w = (Ok a, w1) -> m w = (Ok a, w1).
Proof.
  unfold tryM. destruct (m w) as [[|e] w2]; [done|].
  destruct (record_failure_raises p e w2) as [w3 ->]. done.
Qed.

(** The success row and the commit after it leave that row last in the
    EC2 server's committed history. *)
Lemma history_commit_last p st err w w1 w2 :
  history_insert p st err w = (Ok tt, w1) -> on_ec2 commit w1 = (Ok tt, w2) ->
  exists h, history (committed (eside w2)) = Some (h ++ [mk_history_row p st err])%list.
Proof.
  unfold history_insert, on_ec2, side_run. destruct w as [l [s [c|]]]; simpl; [|congruence].
  unfold execute. simpl. destruct (history (work c)) as [h|] eqn:Hh; simpl; [|congruence].
  intros [=<-]. simpl. intros [=<-]. simpl. by exists h.
Qed.

Ltac peel_binds :=
  repeat match goal with H : bindM _ _ _ = (Ok _, _) |- _ =>
    apply bindM_Ok_inv in H as (? & ? & ? & H) end.

(** ** What the EC2 side depends on *)

(** Two worlds that agree on the EC2 server and connection. *)
Definition ec2_eq (w1 w2 : world) : Prop := eside w1 = eside w2.

#[export] Instance ec2_eq_equiv : Equivalence ec2_eq.
Proof. split; unfold ec2_eq; [intros ?; done|intros ?? H; done|intros ??? H1 H2; congruence]. Qed.

(** [m] reads and writes only the EC2 side: from worlds that agree there
    it gives the same outcome and worlds that still agree there. *)
Definition ec2_only {A} (m : PyM world A) : Prop :=
  forall w1 w2, ec2_eq w1 w2 -> (m w1).1 = (m w2).1 /\ ec2_eq (m w1).2 (m w2).2.

(** [m] leaves the EC2 side as it is. *)
Definition local_only {A} (m : PyM world A) : Prop := forall w, ec2_eq w (m w).2.

Lemma on_ec2_only {A} (m : PyM conn A) : ec2_only (on_ec2 m).
Proof.
  intros [l1 e1] [l2 e2] H. unfold ec2_eq in *. simpl in H. subst e2.
  unfold on_ec2. simpl. destruct (side_run _ m e1). done.
Qed.

Lemma bindM_ec2_only {A B} (m : PyM world A) (k : A -> PyM world B) :
  ec2_only m -> (forall a, ec2_only (k a)) -> ec2_only (bindM m k).
Proof.
  intros Hm Hk w1 w2 H. unfold bindM. destruct (Hm w1 w2 H) as [Hr He].
  destruct (m w1) as [[a|e] w1'], (m w2) as [r2 w2']; simpl in *; subst; [by apply Hk|done].
Qed.

Lemma on_local_only {A} (m : PyM conn A) : local_only (on_local m).
Proof. intros w. unfold on_local. destruct (side_run _ m (lside w)). reflexivity. Qed.

Lemma bindM_local_only {A B} (m : PyM world A) (k : A -> PyM world B) :
  local_only m -> (forall a, local_only (k a)) -> local_only (bindM m k).
Proof.
  intros Hm Hk w. unfold bindM. specialize (Hm w).
  destruct (m w) as [[a|e] w1]; simpl in *; [etrans; [exact Hm|apply Hk]|done].
Qed.

Lemma forM_local_only {A} (l : list A) (body : A -> PyM world unit) :
  (forall x, local_only (body x)) -> local_only (forM l body).
Proof.
  intros Hb. induction l as [|x l IH]; simpl; [intros w; reflexivity|].
  by apply bindM_local_only.
Qed.

#[local] Hint Resolve on_ec2_only bindM_ec2_only on_local_only bindM_local_only : core.

(** Loading a file touches only the local server. *)
Lemma load_file_local_only E f : local_only (load_file E f).
Proof.
  unfold load_file. destruct (fetch E f.2); [|intros w; reflexivity].
  repeat apply bindM_local_only; auto.
Qed.

Lemma etl_tail_ec2_only : ec2_only etl_tail.
Proof. unfold etl_tail, history_insert. repeat (apply bindM_ec2_only; intros); auto. Qed.

(** ** What the local server ends with *)

(** The reference for the file loop: the staging tables that loading the
    files [fs] in order into [k] gives, each file's frame fetched, its
    table created and its rows inserted ([Staging.load_frame]). *)
Fixpoint stage_files (E : etl_env) (fs : list (string * string)) (k : staging_db)
    : res staging_db :=
  match fs with
  | [] => Ok k
  | f :: fs' => (df <-! fetch E f.2 ;; k' <-! load_frame f.1 df k ;; stage_files E fs' k')%py
  end.

(** [m] leaves the local side as it is. *)
Definition keeps_local {A} (m : PyM world A) : Prop := forall w, lside (m w).2 = lside w.

Lemma on_ec2_keeps_local {A} (m : PyM conn A) : keeps_local (on_ec2 m).
Proof. intros w. unfold on_ec2. by destruct (side_run _ m (eside w)). Qed.

Lemma open_ec2_keeps_local o : keeps_local (open_ec2 o).
Proof. intros w. unfold open_ec2. by destruct (side_open o (eside w)). Qed.

Lemma ret_raise_keeps_local {A} (a : A) e :
  keeps_local (retM (S := world) a) /\ keeps_local (raiseM (S := world) (A := A) e).
Proof. split; intros w; reflexivity. Qed.

Lemma bindM_keeps_local {A B} (m : PyM world A) (k : A -> PyM world B) :
  keeps_local m -> (forall a, keeps_local (k a)) -> keeps_local (bindM m k).
Proof.
  intros Hm Hk w. unfold bindM. specialize (Hm w).
  destruct (m w) as [[a|e] w1]; simpl in *; [by rewrite Hk|done].
Qed.

Lemma tryM_keeps_local {A} (m : PyM world A) (h : exc -> PyM world A) :
  keeps_local m -> (forall e, keeps_local (h e)) -> keeps_local (tryM m h).
Proof.
  intros Hm Hh w. unfold tryM. specialize (Hm w).
  destruct (m w) as [[a|e] w1]; simpl in *; [done|by rewrite Hh].
Qed.

#[local] Hint Resolve on_ec2_keeps_local open_ec2_keeps_local bindM_keeps_local
  tryM_keeps_local : core.

Ltac keeps_local_auto :=
  repeat first [apply bindM_keeps_local; intros | apply tryM_keeps_local; intros
               | apply ret_raise_keeps_local]; auto.

Lemma record_failure_keeps_local p e : keeps_local (record_failure p e).
Proof. unfold record_failure, history_insert. keeps_local_auto. Qed.

Lemma etl_tail_keeps_local : keeps_local etl_tail.
Proof. unfold etl_tail, history_insert. keeps_local_auto. Qed.

Lemma on_local_Ok {A} (m : PyM conn A) s c e a w' :
  on_local m (mk_world (mk_side s (Some c)) e) = (Ok a, w') ->
  exists c', m c = (Ok a, c') /\ w' = mk_world (mk_side s (Some c')) e.
Proof. unfold on_local, side_run. simpl. destruct (m c) as [r c']. intros [= -> <-]. eauto. Qed.

(** On a connection with nothing pending, [CREATE TABLE] commits, an
    [INSERT] leaves its rows pending. *)
Lemma execute_create_staging name cols d c' :
  execute (CreateStaging name cols) (connect_to d) = (Ok tt, c') ->
  exists k, create_table name cols (kopo d) = Ok k /\ c' = connect_to (set_kopo k d).
Proof.
  unfold execute. destruct cols as [|col cols]; [simpl; congruence|]. cbn [parses is_ddl negb exec_stmt work connect_to].
  destruct (create_table _ _ _) as [k|e]; simpl; [intros [= <-]; eauto|congruence].
Qed.

Lemma execute_insert_staging name dcs rows d c' :
  execute (InsertStaging name dcs rows) (connect_to d) = (Ok tt, c') ->
  exists k, insert_rows name dcs rows (kopo d) = Ok k /\ c' = mk_conn d (set_kopo k d).
Proof.
  unfold execute. cbn [parses is_ddl negb exec_stmt work durable connect_to].
  destruct (insert_rows _ _ _ _) as [k|e]; simpl; [intros [= <-]; eauto|congruence].
Qed.

Lemma set_kopo_twice k1 k2 d : set_kopo k2 (set_kopo k1 d) = set_kopo k2 d.
Proof. by destruct d. Qed.

Lemma set_kopo_self d : set_kopo (kopo d) d = d.
Proof. by destruct d. Qed.

(** One iteration of the loop that returns normally has loaded its file
    and committed it: the local connection is left with nothing pending. *)
Lemma load_file_Ok E f w w' d :
  cn (lside w) = Some (connect_to d) -> load_file E f w = (Ok tt, w') ->
  exists df k, fetch E f.2 = Ok df /\ load_frame f.1 df (kopo d) = Ok k /\
    lside w' = mk_side (srv (lside w)) (Some (connect_to (set_kopo k d))).
Proof.
  intros Hc H. unfold load_file in H. destruct (fetch E f.2) as [df|e]; [|discriminate].
  cbv beta iota in H. destruct w as [[sl cl] e]. simpl in Hc |- *. subst cl.
  apply bindM_Ok_inv in H as ([] & w1 & H1 & H). apply bindM_Ok_inv in H as ([] & w2 & H2 & H).
  destruct (on_local_Ok _ _ _ _ _ _ H1) as (c1 & (k1 & Hk1 & ->)%execute_create_staging & ->).
  destruct (on_local_Ok _ _ _ _ _ _ H2) as (c2 & (k2 & Hk2 & ->)%execute_insert_staging & ->).
  destruct (on_local_Ok _ _ _ _ _ _ H) as (c3 & Hc3 & ->). injection Hc3 as <-.
  exists df, k2. split; [done|]. split.
  - unfold load_frame. by rewrite Hk1.
  - simpl. by rewrite set_kopo_twice.
Qed.

Lemma forM_load_file_Ok E fs w w' d :
  cn (lside w) = Some (connect_to d) -> forM fs (load_file E) w = (Ok tt, w') ->
  exists k, stage_files E fs (kopo d) = Ok k /\
    lside w' = mk_side (srv (lside w)) (Some (connect_to (set_kopo k d))).
Proof.
  revert w d. induction fs as [|f fs IH]; intros w d Hc H; simpl in H.
  - injection H as <-. exists (kopo d). rewrite set_kopo_self, <- Hc. by destruct w as [[] ?].
  - apply bindM_Ok_inv in H as ([] & w1 & H1 & H).
    destruct (load_file_Ok _ _ _ _ _ Hc H1) as (df & k1 & Hf & Hl & Hw1).
    destruct (IH w1 (set_kopo k1 d)) as (k & Hs & Hw'); [by rewrite Hw1|done|].
    exists k. split; [cbn [stage_files]; rewrite Hf; cbn [res_bind]; by rewrite Hl|]. rewrite Hw', Hw1. simpl. by rewrite set_kopo_twice.
Qed.

Lemma on_local_run {A} (m : PyM conn A) s c e a c' :
  m c = (Ok a, c') ->
  on_local m (mk_world (mk_side s (Some c)) e) = (Ok a, mk_world (mk_side s (Some c')) e).
Proof. intros H. unfold on_local, side_run. simpl. by rewrite H. Qed.

Lemma on_ec2_run {A} (m : PyM conn A) l s c a c' :
  m c = (Ok a, c') ->
  on_ec2 m (mk_world l (mk_side s (Some c))) = (Ok a, mk_world l (mk_side s (Some c'))).
Proof. intros H. unfold on_ec2, side_run. simpl. by rewrite H. Qed.

Lemma execute_create_staging_run name cols d k :
  create_table name cols (kopo d) = Ok k ->
  execute (CreateStaging name cols) (connect_to d) = (Ok tt, connect_to (set_kopo k d)).
Proof.
  intros Hk. destruct (create_table_Ok_present _ _ _ _ Hk) as [Hne _].
  unfold execute. destruct cols as [|col cols]; [done|].
  cbn [parses is_ddl negb exec_stmt work connect_to]. by rewrite Hk.
Qed.

Lemma execute_insert_staging_run name dcs rows d k :
  insert_rows name dcs rows (kopo d) = Ok k ->
  execute (InsertStaging name dcs rows) (connect_to d) = (Ok tt, mk_conn d (set_kopo k d)).
Proof. intros Hk. unfold execute. cbn [parses is_ddl negb exec_stmt work connect_to]. by rewrite Hk. Qed.

(** The converse of [load_file_Ok]: a file that fetches and loads runs
    through the iteration. *)
Lemma load_file_run E f s d e df k :
  fetch E f.2 = Ok df -> load_frame f.1 df (kopo d) = Ok k ->
  load_file E f (mk_world (mk_side s (Some (connect_to d))) e) =
    (Ok tt, mk_world (mk_side s (Some (connect_to (set_kopo k d)))) e).
Proof.
  intros Hf Hl. unfold load_file. rewrite Hf. cbv beta iota.
  unfold load_frame in Hl. destruct (create_table f.1 (fcols df) (kopo d)) as [k0|x] eqn:Hc;
    [|discriminate]. simpl in Hl.
  erewrite bindM_ok by (apply on_local_run, execute_create_staging_run, Hc).
  erewrite bindM_ok by (apply on_local_run, execute_insert_staging_run; exact Hl).
  apply on_local_run. unfold commit. simpl. by rewrite set_kopo_twice.
Qed.

Lemma forM_load_file_run E fs s d e k :
  stage_files E fs (kopo d) = Ok k ->
  forM fs (load_file E) (mk_world (mk_side s (Some (connect_to d))) e) =
    (Ok tt, mk_world (mk_side s (Some (connect_to (set_kopo k d)))) e).
Proof.
  revert d. induction fs as [|f fs IH]; intros d Hs; simpl in Hs.
  - injection Hs as <-. by rewrite set_kopo_self.
  - destruct (fetch E f.2) as [df|x] eqn:Hf; [|discriminate]. simpl in Hs.
    destruct (load_frame f.1 df (kopo d)) as [k1|x] eqn:Hl; [|discriminate]. simpl in Hs.
    simpl. erewrite bindM_ok by (eapply load_file_run; eassumption).
    rewrite (IH (set_kopo k1 d) Hs). by rewrite set_kopo_twice.
Qed.

(** Steps 1 and 2 open the local connection on the committed state and
    leave it with nothing pending. *)
Lemma etl_setup_local E w s :
  cn (lside w) = None -> etl_setup E w = (Ok tt, s) ->
  lside s = mk_side (srv (lside w)) (Some (connect_to (srv (lside w)))).
Proof.
  intros Hn H. unfold etl_setup, bindM at 1, open_local, side_open in H.
  destruct (connect E LOCAL_DB_CONFIG); [|discriminate]. cbv beta iota in H.
  assert (Hk : keeps_local (open_ec2 (connect E EC2_DB_CONFIG) ;;; on_ec2 (execute CreateHistory) ;;;
                            on_ec2 commit)%py) by keeps_local_auto.
  specialize (Hk (mk_world (mk_side (srv (lside w)) (Some (connect_to (srv (lside w))))) (eside w))).
  rewrite H in Hk. exact Hk.
Qed.

(** With both connections opening, steps 1 and 2 succeed: the history
    table's [CREATE TABLE IF NOT EXISTS] cannot fail. *)
Lemma etl_setup_Ok E w :
  connect E LOCAL_DB_CONFIG = Ok tt -> connect E EC2_DB_CONFIG = Ok tt ->
  cn (eside w) = None -> exists s, etl_setup E w = (Ok tt, s).
Proof.
  intros Hl He Hn. destruct w as [l [se ce]]. simpl in Hn. subst ce.
  unfold etl_setup, bindM at 1, open_local, side_open. rewrite Hl. cbv beta iota.
  unfold bindM at 1, open_ec2, side_open. rewrite He. cbv beta iota.
  unfold bindM at 1. erewrite on_ec2_run by reflexivity. cbv beta iota.
  eexists. unfold on_ec2, side_run. reflexivity.
Qed.

Lemma etl_body_Ok E w w' :
  etl_body E w = (Ok tt, w') ->
  exists s x, etl_setup E w = (Ok tt, s) /\ forM excel_files (load_file E) s = (Ok tt, x) /\
    etl_tail x = (Ok tt, w').
Proof.
  unfold etl_body. intros H. peel_binds.
  repeat match goal with u : unit |- _ => destruct u end. eauto.
Qed.

(** ** What the EC2 server ends with *)

Lemma on_ec2_Ok {A} (m : PyM conn A) l s c a w' :
  on_ec2 m (mk_world l (mk_side s (Some c))) = (Ok a, w') ->
  exists c', m c = (Ok a, c') /\ w' = mk_world l (mk_side s (Some c')).
Proof. unfold on_ec2, side_run. simpl. destruct (m c) as [r c']. intros [= -> <-]. eauto. Qed.

Lemma execute_ddl_Ok st d c' :
  is_ddl st = true -> execute st (connect_to d) = (Ok tt, c') ->
  exists d', exec_stmt st d = Ok d' /\ c' = connect_to d'.
Proof.
  intros Hd. unfold execute. rewrite Hd. destruct (parses st); [|simpl; congruence].
  simpl. destruct (exec_stmt st d) as [d'|e]; [intros [= <-]; eauto|congruence].
Qed.

Lemma execute_dml_Ok st c c' :
  is_ddl st = false -> execute st c = (Ok tt, c') ->
  exists d', exec_stmt st (work c) = Ok d' /\ c' = mk_conn (durable c) d'.
Proof.
  intros Hd. unfold execute. rewrite Hd, parses_dml by done. simpl.
  destruct (exec_stmt st (work c)) as [d'|e]; [intros [= <-]; eauto|congruence].
Qed.

(** The EC2 history table after step 2. *)
Definition with_history_table (d : dbstate) : dbstate :=
  set_history (create_if_absent (history d)) d.

Lemma etl_setup_Ok_inv E w s :
  etl_setup E w = (Ok tt, s) ->
  eside s = mk_side (srv (eside w)) (Some (connect_to (with_history_table (srv (eside w))))).
Proof.
  destruct w as [l [se ce]]. unfold etl_setup, bindM at 1, open_local, side_open.
  destruct (connect E LOCAL_DB_CONFIG); [|discriminate]. cbv beta iota.
  unfold bindM at 1, open_ec2, side_open. destruct (connect E EC2_DB_CONFIG); [|discriminate].
  cbv beta iota. unfold bindM at 1. erewrite on_ec2_run by reflexivity. cbv beta iota.
  unfold on_ec2, side_run. simpl. intros [= <-]. reflexivity.
Qed.

(** A run that returns normally has built the analytical table from the
    EC2 server's state after step 2 (a no-op when it existed), read its
    distinct rows, derived one pair per row and committed them after the
    dataset rows already there; the success row touches neither table. *)
Lemma etl_success_ec2 E w :
  (etl E w).1 = Ok tt ->
  exists d1 rows es old,
    create_analysis (with_history_table (srv (eside w))) = Ok d1 /\
    create_if_absent (dataset d1) = Some old /\
    Dataset.select_distinct d1 = Ok rows /\ Forall2 (fun row e => Dataset.dataset_entry row = Ok e) rows es /\
    analysis (srv (eside (etl E w).2)) = analysis d1 /\
    dataset (srv (eside (etl E w).2)) = Some (old ++ map (fun e => mk_dataset_row e.1 e.2) es)%list.
Proof.
  unfold etl. rewrite finallyM_close_both. simpl.
  destruct (tryM (etl_body E) _ w) as [[[]|] w1] eqn:H1; simpl; [intros _|intros [=]].
  apply tryM_record_failure_Ok, etl_body_Ok in H1 as (s & x & Hs & Hl & Ht).
  apply etl_setup_Ok_inv in Hs.
  pose proof (forM_local_only excel_files _ (load_file_local_only E) s) as Hx.
  rewrite Hl in Hx. unfold ec2_eq in Hx. simpl in Hx. rewrite Hs in Hx.
  destruct x as [lx ex]. simpl in Hx. subst ex.
  unfold etl_tail, history_insert in Ht.
  apply bindM_Ok_inv in Ht as ([] & x1 & H1 & Ht).
  destruct (on_ec2_Ok _ _ _ _ _ _ H1) as (c1 & (d1 & Hd1 & ->)%execute_ddl_Ok & ->); [|done].
  apply bindM_Ok_inv in Ht as ([] & x2 & H2 & Ht).
  destruct (on_ec2_Ok _ _ _ _ _ _ H2) as (c2 & (d2 & Hd2 & ->)%execute_ddl_Ok & ->); [|done].
  injection Hd2 as <-.
  apply bindM_Ok_inv in Ht as (n & x3 & H3 & Ht).
  destruct (on_ec2_Ok _ _ _ _ _ _ H3) as (c3 & H3' & ->).
  destruct (create_if_absent (dataset d1)) as [old|] eqn:Hold; [|by destruct (dataset d1)].
  destruct (Dataset.build_dataset_Ok_inv (connect_to (set_dataset (Some old) d1)) _ _ old eq_refl H3')
    as (rows & es & Hrows & HF & ->).
  apply bindM_Ok_inv in Ht as ([] & x4 & H4 & Ht).
  destruct (on_ec2_Ok _ _ _ _ _ _ H4) as (c4 & (d4 & Hd4 & ->)%execute_dml_Ok & ->); [|done].
  destruct (on_ec2_Ok _ _ _ _ _ _ Ht) as (c5 & Hc5 & ->). injection Hc5 as <-.
  simpl in Hd4. unfold append_row in Hd4.
  destruct (history _) as [h|]; simpl in Hd4; [|discriminate]. injection Hd4 as <-.
  exists d1, rows, es, old. do 4 (split; [done|]). split; reflexivity.
Qed.

(** The analytical table exists after its [CREATE TABLE ... AS SELECT]. *)
Lemma create_analysis_Some d d1 : create_analysis d = Ok d1 -> exists a, analysis d1 = Some a.
Proof.
  unfold create_analysis. destruct (analysis d) eqn:Ea; [intros [=<-]; eauto|].
  intros H. repeat (apply res_bind_Ok in H as (? & _ & H)). injection H as <-. simpl. eauto.
Qed.

(** C34: Every run of the ETL ends, whatever the [try] block and its
    [except] did, with both connections closed: the run returns the
    outcome of the [try]/[except], and each server keeps exactly what its
    connection had committed, uncommitted work being rolled back. *)
Theorem etl_closes_connections E w :
  exists r w1, tryM (etl_body E) (record_failure "ETL 프로세스") w = (r, w1) /\
    etl E w = (r, closed w1) /\ cn (lside (closed w1)) = None /\ cn (eside (closed w1)) = None.
Proof.
  destruct (tryM (etl_body E) (record_failure "ETL 프로세스") w) as [r w1] eqn:E1.
  exists r, w1. split; [done|]. unfold etl. rewrite finallyM_close_both, E1. done.
Qed.

(** C35: A run that returns normally has recorded its success: the last
    row of the EC2 server's committed history is
    [("ETL 프로세스", "성공", None)]. *)
Theorem etl_success_history E w :
  (etl E w).1 = Ok tt ->
  exists h, history (srv (eside (etl E w).2)) = Some (h ++ [mk_history_row "ETL 프로세스" "성공" None])%list.
Proof.
  unfold etl. rewrite finallyM_close_both. simpl.
  destruct (tryM (etl_body E) _ w) as [[[]|e] w1] eqn:Ht; simpl; [intros _|intros [=]].
  apply tryM_record_failure_Ok in Ht. unfold etl_body, etl_setup, etl_tail in Ht. peel_binds.
  match goal with H : history_insert _ _ _ _ = (Ok ?u, _) |- _ => destruct u end.
  eapply history_commit_last; eassumption.
Qed.

(** C36: When the [try] block fails after the EC2 connection was opened,
    the [except] block's commit makes durable everything that connection
    had pending at the failure, e.g. the dataset rows inserted before a
    failing row, together with the failure row; the exception is
    re-raised. *)
Theorem etl_failure_commits_pending E w e w1 c h :
  etl_body E w = (Raise e, w1) -> cn (eside w1) = Some c -> history (work c) = Some h ->
  etl E w = (Raise e, closed (mk_world (lside w1) (mk_side (srv (eside w1))
    (Some (connect_to (set_history (Some (h ++ [mk_history_row "ETL 프로세스" "실패" (Some (exc_str e))])%list)
                                   (work c))))))).
Proof.
  intros Hb Hc Hh. unfold etl. rewrite finallyM_close_both. unfold tryM. rewrite Hb.
  destruct w1 as [l [s c1]]. simpl in Hc. subst c1.
  unfold record_failure, tryM, bindM, history_insert, on_ec2, side_run, execute. simpl.
  rewrite Hh. reflexivity.
Qed.

(** C37: When a connection cannot be opened, the local one or, after it,
    the EC2 one, the ETL raises that error and leaves both servers as they
    were: no history row is written, since [ec2_cursor] is unbound and the
    [except] block's [NameError] is swallowed. *)
Theorem etl_connect_fails E w e :
  connect E LOCAL_DB_CONFIG = Raise e \/
    (connect E LOCAL_DB_CONFIG = Ok tt /\ connect E EC2_DB_CONFIG = Raise e) ->
  cn (lside w) = None -> cn (eside w) = None ->
  etl E w = (Raise e, w).
Proof.
  intros Hc Hcl Hce. destruct w as [[sl cl] [se ce]]; simpl in *; subst.
  unfold etl. rewrite finallyM_close_both.
  unfold tryM, etl_body, etl_setup. rewrite !bindM_assoc. unfold bindM at 1, open_local, side_open.
  destruct Hc as [Hl|[Hl He]]; rewrite Hl; cbn -[record_failure].
  - unfold record_failure, tryM, bindM, history_insert, on_ec2, side_run. reflexivity.
  - unfold bindM at 1, open_ec2, side_open. rewrite He. cbn -[record_failure].
    unfold record_failure, tryM, bindM, history_insert, on_ec2, side_run. reflexivity.
Qed.

(** C22: The downloaded files never reach the EC2 server: two ETL runs
    that see the same connection outcomes but download different files
    (or the same files with different contents) leave the EC2 server in the
    same committed state when both succeed.  The join reads [kopo.*] on the
    EC2 server, while the files are loaded into the local server. *)
Theorem etl_ec2_ignores_files E1 E2 w :
  (forall cfg, connect E1 cfg = connect E2 cfg) ->
  (etl E1 w).1 = Ok tt -> (etl E2 w).1 = Ok tt ->
  srv (eside (etl E1 w).2) = srv (eside (etl E2 w).2).
Proof.
  intros Hc. unfold etl. rewrite !finallyM_close_both. simpl.
  destruct (tryM (etl_body E1) _ w) as [[[]|] w1] eqn:H1; simpl; [intros _|intros [=]].
  destruct (tryM (etl_body E2) _ w) as [[[]|] w2] eqn:H2; simpl; [intros _|intros [=]].
  apply tryM_record_failure_Ok, etl_body_Ok in H1 as (s1 & x1 & Hs1 & Hl1 & Ht1).
  apply tryM_record_failure_Ok, etl_body_Ok in H2 as (s2 & x2 & Hs2 & Hl2 & Ht2).
  assert (Hs : etl_setup E1 w = etl_setup E2 w) by (unfold etl_setup; by rewrite !Hc).
  rewrite Hs, Hs2 in Hs1. injection Hs1 as ->.
  assert (Hx : ec2_eq x1 x2).
  { pose proof (forM_local_only excel_files _ (load_file_local_only E1) s1) as A1.
    pose proof (forM_local_only excel_files _ (load_file_local_only E2) s1) as A2.
    rewrite Hl1 in A1. rewrite Hl2 in A2. simpl in *. by rewrite <- A1, <- A2. }
  destruct (etl_tail_ec2_only x1 x2 Hx) as [_ He]. rewrite Ht1, Ht2 in He.
  unfold ec2_eq in He. simpl in He. by rewrite He.
Qed.

(** C20: A run that returns normally leaves the local server with exactly
    the staging tables that loading the three files, in the order of
    [EXCEL_FILES], gives: each file's table created and its rows inserted
    after those already there, all committed (line 132), nothing else of
    the server changed. *)
Theorem etl_success_local_staging E w :
  cn (lside w) = None -> (etl E w).1 = Ok tt ->
  exists k, stage_files E excel_files (kopo (srv (lside w))) = Ok k /\
    srv (lside (etl E w).2) = set_kopo k (srv (lside w)).
Proof.
  intros Hn. unfold etl. rewrite finallyM_close_both. simpl.
  destruct (tryM (etl_body E) _ w) as [[[]|] w1] eqn:H1; simpl; [intros _|intros [=]].
  apply tryM_record_failure_Ok, etl_body_Ok in H1 as (s & x & Hs & Hl & Ht).
  pose proof (etl_setup_local _ _ _ Hn Hs) as Hls.
  destruct (forM_load_file_Ok E excel_files s x (srv (lside w))) as (k & Hk & Hlx);
    [by rewrite Hls|done|].
  exists k. split; [done|]. pose proof (etl_tail_keeps_local x) as Hkl. rewrite Ht in Hkl.
  simpl in Hkl. unfold committed. by rewrite Hkl, Hlx.
Qed.

(** C21: The files are committed one by one: when the download of a file
    fails after the files before it have loaded, the run raises the
    download's error and the local server keeps those earlier files'
    rows, committed; a rerun then appends to them. *)
Theorem etl_download_failure_keeps_earlier E w fs1 f fs2 k e :
  excel_files = (fs1 ++ f :: fs2)%list ->
  connect E LOCAL_DB_CONFIG = Ok tt -> connect E EC2_DB_CONFIG = Ok tt ->
  cn (lside w) = None -> cn (eside w) = None ->
  stage_files E fs1 (kopo (srv (lside w))) = Ok k -> fetch E f.2 = Raise e ->
  (etl E w).1 = Raise e /\ srv (lside (etl E w).2) = set_kopo k (srv (lside w)).
Proof.
  intros Hfs Hcl Hce Hnl Hne Hk Hf.
  destruct (etl_setup_Ok E w Hcl Hce Hne) as [s Hs].
  pose proof (etl_setup_local _ _ _ Hnl Hs) as Hls.
  assert (Hloop : forM excel_files (load_file E) s =
                  (Raise e, mk_world (mk_side (srv (lside w))
                     (Some (connect_to (set_kopo k (srv (lside w)))))) (eside s))).
  { destruct s as [l es]. simpl in Hls. subst l.
    rewrite Hfs, forM_app. erewrite bindM_ok by (apply forM_load_file_run, Hk).
    simpl. unfold bindM at 1, load_file. rewrite Hf. reflexivity. }
  assert (Hbody : etl_body E w = (Raise e, mk_world (mk_side (srv (lside w))
                     (Some (connect_to (set_kopo k (srv (lside w)))))) (eside s))).
  { unfold etl_body. erewrite bindM_ok by exact Hs. unfold bindM at 1. by rewrite Hloop. }
  unfold etl. rewrite finallyM_close_both. unfold tryM. rewrite Hbody.
  destruct (record_failure_raises "ETL 프로세스" e
              (mk_world (mk_side (srv (lside w)) (Some (connect_to (set_kopo k (srv (lside w))))))
                        (eside s))) as [w2 Hr].
  pose proof (record_failure_keeps_local "ETL 프로세스" e
              (mk_world (mk_side (srv (lside w)) (Some (connect_to (set_kopo k (srv (lside w))))))
                        (eside s))) as Hkl.
  rewrite Hr in Hkl |- *. simpl in Hkl |- *. split; [done|]. unfold committed. by rewrite Hkl.
Qed.

(** C25: Reruns duplicate the dataset: when the ETL succeeds and is run
    again on what it left, the analytical table is not rebuilt ([CREATE
    TABLE IF NOT EXISTS ... AS SELECT] is a no-op), so the second run reads
    the same distinct rows, derives the same pairs and appends them a
    second time after those the first run committed. *)
Theorem etl_rerun_duplicates_dataset E w :
  (etl E w).1 = Ok tt -> (etl E (etl E w).2).1 = Ok tt ->
  exists rows es old,
    Dataset.select_distinct (srv (eside (etl E w).2)) = Ok rows /\
    Forall2 (fun row e => Dataset.dataset_entry row = Ok e) rows es /\
    dataset (srv (eside (etl E w).2)) = Some (old ++ map (fun e => mk_dataset_row e.1 e.2) es)%list /\
    dataset (srv (eside (etl E (etl E w).2).2)) =
      Some (old ++ map (fun e => mk_dataset_row e.1 e.2) es ++ map (fun e => mk_dataset_row e.1 e.2) es)%list.
Proof.
  intros H1 H2.
  destruct (etl_success_ec2 E w H1) as (d1 & rows & es & old & Hc1 & Ho1 & Hr1 & HF1 & Ha1 & Hd1).
  destruct (etl_success_ec2 E _ H2) as (d2 & rows' & es' & old' & Hc2 & Ho2 & Hr2 & HF2 & Ha2 & Hd2).
  destruct (create_analysis_Some _ _ Hc1) as [a Ha].
  unfold create_analysis in Hc2. simpl in Hc2. rewrite Ha1, Ha in Hc2. injection Hc2 as <-.
  simpl in Ho2. rewrite Hd1 in Ho2. injection Ho2 as <-.
  assert (Hr : Dataset.select_distinct (srv (eside (etl E w).2)) = Ok rows)
    by (rewrite <- Hr1; apply Dataset.select_distinct_analysis, Ha1).
  rewrite (Dataset.select_distinct_analysis _ (srv (eside (etl E w).2))) in Hr2 by done.
  rewrite Hr in Hr2. injection Hr2 as <-.
  rewrite (Dataset.dataset_entries_unique _ _ _ HF2 HF1) in Hd2.
  exists rows, es, old. do 3 (split; [done|]). by rewrite Hd2, <- List.app_assoc.
Qed.

(** ** Sample runs *)

(** A staging table as the EC2 server's own [kopo] database holds it. *)
Definition staged_of (t : Sql.table) : staged :=
  mk_staged (map (fun c => (c, TVarchar255)) (Sql.tcols t)) (Sql.trows t).

Definition sample_w_text : Sql.table := Sql.mk_table Analysis.w_cols
  [[SText "D1"; SInt 1; SText "과자"; SText "과자류"; SText "중국"; SText "2023-01-01";
    SText "1년"; SNull; SNull; SText "판매중지"; SInt 12; SNull; SNull; SNull]].

Definition ec2_server (w : Sql.table) : dbstate :=
  mk_dbstate {["위해상품" := staged_of w; "위해상품부적합검사" := staged_of Analysis.sample_b;
               "위해상품업체" := staged_of Analysis.sample_u]} None None None.

Definition world0 (w : Sql.table) : world :=
  mk_world (mk_side (mk_dbstate ∅ None None None) None) (mk_side (ec2_server w) None).

Definition env_ok : etl_env := mk_etl_env (fun _ => Ok tt) (fun _ => Ok sample_df).

Definition http404 : exc :=
  HTTPError 404 "404 Client Error: Not Found for url: https://raw.githubusercontent.com/nes0903/ETLproject/main/위해상품판매차단/위해상품.xlsx".

Definition env_http : etl_env := mk_etl_env (fun _ => Ok tt) (fun _ => Raise http404).

(** The local server is up; the EC2 one does not answer. *)
Definition ec2_down : exc :=
  MySQLError "2003 (HY000): Can't connect to MySQL server on '54.180.237.238:3306'".

Definition env_ec2_down : etl_env :=
  mk_etl_env (fun cfg => if String.eqb (host cfg) "localhost" then Ok tt else Raise ec2_down)
             (fun _ => Ok sample_df).

Lemma etl_success_history_witness :
  (etl env_ok (world0 sample_w_text)).1 = Ok tt /\
  exists h, history (srv (eside (etl env_ok (world0 sample_w_text)).2)) =
    Some (h ++ [mk_history_row "ETL 프로세스" "성공" None])%list.
Proof.
  assert (H : (etl env_ok (world0 sample_w_text)).1 = Ok tt) by (vm_compute; reflexivity).
  split; [exact H|]. exact (etl_success_history _ _ H).
Defined.

Lemma etl_failure_commits_pending_witness :
  exists w1 c, etl_body env_http (world0 sample_w_text) = (Raise http404, w1) /\
    cn (eside w1) = Some c /\ history (work c) = Some [] /\
    etl env_http (world0 sample_w_text) = (Raise http404, closed (mk_world (lside w1) (mk_side (srv (eside w1))
      (Some (connect_to (set_history (Some ([] ++ [mk_history_row "ETL 프로세스" "실패" (Some (exc_str http404))])%list)
                                     (work c))))))).
Proof.
  destruct (etl_body env_http (world0 sample_w_text)) as [r w1] eqn:Hb.
  assert (Hr : r = Raise http404) by (vm_compute in Hb; injection Hb as <- _; reflexivity). subst r.
  assert (Hc : exists c, cn (eside w1) = Some c /\ history (work c) = Some [])
    by (vm_compute in Hb; injection Hb as <-; eexists; split; reflexivity).
  destruct Hc as (c & Hc & Hh). exists w1, c. do 3 (split; [done|]).
  exact (etl_failure_commits_pending _ _ _ _ _ _ Hb Hc Hh).
Defined.

Lemma etl_connect_fails_witness :
  etl env_ec2_down (world0 sample_w_text) = (Raise ec2_down, world0 sample_w_text).
Proof. apply etl_connect_fails; [right; split|..]; reflexivity. Defined.

(** The first file downloads; the second answers 404. *)
Definition env_second_404 : etl_env :=
  mk_etl_env (fun _ => Ok tt)
    (fun url => if String.eqb url (List.nth 0 excel_files ("", "")).2 then Ok sample_df
                else Raise http404).

Lemma etl_success_local_staging_witness :
  cn (lside (world0 sample_w_text)) = None /\ (etl env_ok (world0 sample_w_text)).1 = Ok tt /\
  exists k, stage_files env_ok excel_files ∅ = Ok k /\
    srv (lside (etl env_ok (world0 sample_w_text)).2) = set_kopo k (mk_dbstate ∅ None None None).
Proof.
  assert (H : (etl env_ok (world0 sample_w_text)).1 = Ok tt) by (vm_compute; reflexivity).
  split; [reflexivity|]. split; [exact H|].
  exact (etl_success_local_staging env_ok (world0 sample_w_text) eq_refl H).
Defined.

Lemma etl_download_failure_keeps_earlier_witness :
  stage_files env_second_404 [List.nth 0 excel_files ("", "")] ∅ = Ok Staging.sample_db1 /\
  (etl env_second_404 (world0 sample_w_text)).1 = Raise http404 /\
  srv (lside (etl env_second_404 (world0 sample_w_text)).2) =
    set_kopo Staging.sample_db1 (mk_dbstate ∅ None None None).
Proof.
  assert (Hk : stage_files env_second_404 [List.nth 0 excel_files ("", "")] ∅ = Ok Staging.sample_db1)
    by (vm_compute; reflexivity).
  split; [exact Hk|].
  apply (etl_download_failure_keeps_earlier env_second_404 (world0 sample_w_text)
           [List.nth 0 excel_files ("", "")] (List.nth 1 excel_files ("", ""))
           [List.nth 2 excel_files ("", "")] Staging.sample_db1 http404);
    [reflexivity|reflexivity|reflexivity|reflexivity|reflexivity|exact Hk|vm_compute; reflexivity].
Defined.

(** Two successful runs on the sample servers: one distinct analytical
    row, its pair stored twice. *)
Lemma etl_rerun_duplicates_dataset_witness :
  (etl env_ok (world0 sample_w_text)).1 = Ok tt /\
  (etl env_ok (etl env_ok (world0 sample_w_text)).2).1 = Ok tt /\
  option_map length (dataset (srv (eside (etl env_ok (etl env_ok (world0 sample_w_text)).2).2))) =
    Some 2 /\
  exists rows es old,
    Dataset.select_distinct (srv (eside (etl env_ok (world0 sample_w_text)).2)) = Ok rows /\
    Forall2 (fun row e => Dataset.dataset_entry row = Ok e) rows es /\
    dataset (srv (eside (etl env_ok (world0 sample_w_text)).2)) =
      Some (old ++ map (fun e => mk_dataset_row e.1 e.2) es)%list /\
    dataset (srv (eside (etl env_ok (etl env_ok (world0 sample_w_text)).2).2)) =
      Some (old ++ map (fun e => mk_dataset_row e.1 e.2) es ++
            map (fun e => mk_dataset_row e.1 e.2) es)%list.
Proof.
  assert (H1 : (etl env_ok (world0 sample_w_text)).1 = Ok tt) by (vm_compute; reflexivity).
  assert (H2 : (etl env_ok (etl env_ok (world0 sample_w_text)).2).1 = Ok tt)
    by (vm_compute; reflexivity).
  split; [exact H1|]. split; [exact H2|]. split; [vm_compute; reflexivity|].
  exact (etl_rerun_duplicates_dataset env_ok (world0 sample_w_text) H1 H2).
Defined.

(** ** The validation script, lines 169-246 of [data_validation.py] *)

(** The outcomes of [mysql.connector.connect] at each attempt, for the two
    servers. *)
Record val_env := mk_val_env { vconnect : db_config -> nat -> res unit }.

(** [x_connection = connect_with_retry(config)] with [max_retries=3], then
    [x_connection.cursor()]: a [None] (possible only with no attempts)
    has no [cursor]. *)
Definition side_open_retry (connect : nat -> res unit) : PyM side unit := fun s =>
  match (Validation.connect_with_retry connect 3).1 with
  | Ok (Some _) => (Ok tt, mk_side (srv s) (Some (connect_to (srv s))))
  | Ok None => (Raise (AttributeError "'NoneType' object has no attribute 'cursor'"), s)
  | Raise e => (Raise e, s)
  end.

Definition vopen_local (connect : nat -> res unit) : PyM world unit := fun w =>
  let '(r, l) := side_open_retry connect (lside w) in (r, mk_world l (eside w)).
Definition vopen_ec2 (connect : nat -> res unit) : PyM world unit := fun w =>
  let '(r, e) := side_open_retry connect (eside w) in (r, mk_world (lside w) e).

(** A SELECT through a cursor: it reads what the connection sees. *)
Definition query {A} (f : dbstate -> res A) : PyM conn A := fun c => (f (work c), c).

(** [check_row_count(local_cursor, name)] on a staging table. *)
Definition staging_count (name : string) (d : dbstate) : res Z :=
  Validation.check_row_count name (option_map st_rows (kopo d !! name)).

(** A check over the rows of [위해상품_위험도_분석]. *)
Definition on_analysis {A} (f : list Analysis.analysis_row -> A) (d : dbstate) : res A :=
  match analysis d with
  | Some rows => Ok (f rows)
  | None => Raise (no_table "kopo2" "위해상품_위험도_분석")
  end.

(** The [try] block, lines 170-216. *)
Definition val_body (V : val_env) : PyM world unit :=
  (vopen_local (vconnect V VAL_LOCAL_DB_CONFIG) ;;;
   vopen_ec2 (vconnect V VAL_EC2_DB_CONFIG) ;;;
   _ <- on_local (query (staging_count "위해상품")) ;;
   _ <- on_local (query (staging_count "위해상품부적합검사")) ;;
   _ <- on_local (query (staging_count "위해상품업체")) ;;
   _ <- on_ec2 (query (fun d => Validation.check_row_count "위해상품_위험도_분석" (analysis d))) ;;
   _ <- on_ec2 (query (fun d => Validation.check_row_count "위해상품_데이터셋" (dataset d))) ;;
   _ <- on_ec2 (query (on_analysis Validation.check_aggregation)) ;;
   _ <- on_ec2 (query (on_analysis Validation.check_duplicates)) ;;
   _ <- on_ec2 (query (on_analysis Validation.check_null_values)) ;;
   _ <- on_ec2 (query (on_analysis Validation.check_data_range)) ;;
   history_insert "데이터 검증" "성공" None ;;; on_ec2 commit)%py.

(** The whole script: the [try] statement, then line 246, [main()], a
    name the module never defines. *)
Definition validation (V : val_env) : PyM world unit :=
  (finallyM (tryM (val_body V) (record_failure "데이터 검증")) close_both ;;;
   raiseM (NameError "main"))%py.

(** C38: The validation script never ends normally, and which exception
    it ends with is fixed by its [try] block: the error that block raised,
    re-raised after the failure row, or, when the block succeeded,
    [NameError] for [main] on line 246. *)
Theorem validation_never_returns V w :
  (validation V w).1 =
    match (val_body V w).1 with
    | Ok _ => Raise (NameError "main")
    | Raise e => Raise e
    end.
Proof.
  unfold validation, bindM at 1. rewrite finallyM_close_both, tryM_record_failure_fst.
  by destruct (val_body V w).1.
Qed.

(** C39: The checks decide nothing: when both connections open and the
    tables the checks read exist, the validation commits the row
    [("데이터 검증", "성공", None)] whatever the checks report (duplicate
    keys, NULL names, grades outside the four values), and only then
    fails on [main()]. *)
Theorem validation_records_success V w ks kb ku rows ds h :
  (Validation.connect_with_retry (vconnect V VAL_LOCAL_DB_CONFIG) 3).1 = Ok (Some tt) ->
  (Validation.connect_with_retry (vconnect V VAL_EC2_DB_CONFIG) 3).1 = Ok (Some tt) ->
  cn (lside w) = None -> cn (eside w) = None ->
  kopo (srv (lside w)) !! "위해상품" = Some ks ->
  kopo (srv (lside w)) !! "위해상품부적합검사" = Some kb ->
  kopo (srv (lside w)) !! "위해상품업체" = Some ku ->
  analysis (srv (eside w)) = Some rows -> dataset (srv (eside w)) = Some ds ->
  history (srv (eside w)) = Some h ->
  (validation V w).1 = Raise (NameError "main") /\
  history (srv (eside (validation V w).2)) = Some (h ++ [mk_history_row "데이터 검증" "성공" None])%list.
Proof.
  intros Hl He Hcl Hce Hk1 Hk2 Hk3 Ha Hd Hh.
  destruct w as [[sl cl] [se ce]]; simpl in *; subst cl ce.
  unfold validation, finallyM, tryM, val_body, bindM, vopen_local, vopen_ec2, side_open_retry.
  rewrite Hl, He.
  do 3 (unfold on_local, on_ec2, side_run, query, staging_count, on_analysis, history_insert, execute,
          commit, raiseM, retM, close_both, side_close;
         cbn -[lookup Validation.check_aggregation Validation.check_duplicates
              Validation.check_null_values Validation.check_data_range];
         rewrite ?Hk1, ?Hk2, ?Hk3, ?Ha, ?Hd, ?Hh).
  split; reflexivity.
Qed.

Definition val_env_ok : val_env := mk_val_env (fun _ _ => Ok tt).

(** The local server after a load, and the EC2 server after a run whose
    analytical table has a duplicate key and a grade left NULL. *)
Definition val_world : world :=
  mk_world
    (mk_side (mk_dbstate {["위해상품" := staged_of sample_w_text;
                           "위해상품부적합검사" := staged_of Analysis.sample_b;
                           "위해상품업체" := staged_of Analysis.sample_u]} None None None) None)
    (mk_side (mk_dbstate ∅ (Some [Dataset.row_ok; Dataset.row_ok;
                                  Dataset.arow (SText "젤리") SNull SNull SNull SNull])
                           (Some []) (Some [])) None).

Lemma validation_records_success_witness :
  (validation val_env_ok val_world).1 = Raise (NameError "main") /\
  history (srv (eside (validation val_env_ok val_world).2)) =
    Some ([] ++ [mk_history_row "데이터 검증" "성공" None])%list.
Proof.
  apply (validation_records_success val_env_ok val_world (staged_of sample_w_text)
           (staged_of Analysis.sample_b) (staged_of Analysis.sample_u)
           [Dataset.row_ok; Dataset.row_ok; Dataset.arow (SText "젤리") SNull SNull SNull SNull] [] []);
    vm_compute; reflexivity.
Defined.

Definition env_ok2 : etl_env :=
  mk_etl_env (fun _ => Ok tt) (fun _ => Ok (mk_frame [("memo", "object")] [[CStr "다른 파일"]])).

Lemma etl_ec2_ignores_files_witness :
  (etl env_ok (world0 sample_w_text)).1 = Ok tt /\ (etl env_ok2 (world0 sample_w_text)).1 = Ok tt /\
  srv (eside (etl env_ok (world0 sample_w_text)).2) = srv (eside (etl env_ok2 (world0 sample_w_text)).2).
Proof.
  assert (H1 : (etl env_ok (world0 sample_w_text)).1 = Ok tt) by (vm_compute; reflexivity).
  assert (H2 : (etl env_ok2 (world0 sample_w_text)).1 = Ok tt) by (vm_compute; reflexivity).
  split; [exact H1|]. split; [exact H2|]. exact (etl_ec2_ignores_files _ _ _ (fun _ => eq_refl) H1 H2).
Defined.
End Pipeline.
